(** * NAO bridge (bridge_py27/nao_bridge.py): configuration gate and HTTP handler

    A shallow embedding of the Python 2.7 module [nao_bridge.py]:
    - the [.env] loader [load_dotenv_strict] and the required-key gate
      (source lines 23-71),
    - the request handler [Handler] with [_read_json], [_send_json],
      [do_POST] and [do_GET] (source lines 107-171), under the part of its
      base class [BaseHTTPRequestHandler] that reads the request line,
      answers what it does not accept, and calls the handler's methods.

    Python 2 has two string types.  Both are embedded as lists of integers:
    a [str] is a list of bytes (0..255), a [unicode] is a list of code
    points (0..0x10FFFF, as on a wide build).  The interpreter's built-ins
    that the module calls (the UTF-8 codec, [strip], [int], [repr]) are
    written out as functions, as CPython 2.7 has them; [os.environ] is the
    case-sensitive dictionary of a POSIX process.  The JSON parser, the
    CP949 table and the speech backend are parameters of the handler
    section.  Exceptions are values: a computation that may raise returns a
    [result], and handler code returns a [run], the list of its effects
    together with its [result]. *)

From Stdlib Require Import ZArith List String Ascii Bool Lia.
From stdpp Require Import base option list gmap.

Import ListNotations.
Local Open Scope Z_scope.
Set Warnings "-register-all".

(** ** Python strings *)

Definition pystr := list Z.

(** A source literal, as the list of its character codes. *)
Definition py (s : string) : pystr :=
  List.map (fun a => Z.of_N (N_of_ascii a)) (list_ascii_of_string s).

(** The same, with ['] written for the double quote. *)
Definition pyq (s : string) : pystr :=
  List.map (fun c => if c =? 39 then 34 else c) (py s).

Definition is_ascii (s : pystr) : bool := forallb (fun c => c <? 128) s.

(** ** The UTF-8 codec ([unicode.encode('utf-8')], [str.decode('utf-8')]) *)

Module Utf8.

Definition encode_char (ch : Z) : list Z :=
  if ch <? 0x80 then [ch]
  else if ch <? 0x800 then
    [Z.lor 0xC0 (Z.shiftr ch 6); Z.lor 0x80 (Z.land ch 0x3F)]
  else if ch <? 0x10000 then
    [Z.lor 0xE0 (Z.shiftr ch 12);
     Z.lor 0x80 (Z.land (Z.shiftr ch 6) 0x3F);
     Z.lor 0x80 (Z.land ch 0x3F)]
  else
    [Z.lor 0xF0 (Z.shiftr ch 18);
     Z.lor 0x80 (Z.land (Z.shiftr ch 12) 0x3F);
     Z.lor 0x80 (Z.land (Z.shiftr ch 6) 0x3F);
     Z.lor 0x80 (Z.land ch 0x3F)].

Definition is_high_surrogate (ch : Z) : bool := (0xD800 <=? ch) && (ch <=? 0xDBFF).
Definition is_low_surrogate (ch : Z) : bool := (0xDC00 <=? ch) && (ch <=? 0xDFFF).

(** The encoder writes a high surrogate followed by a low one as the one
    character the pair stands for; a surrogate on its own gets three bytes
    like any other character below 0x10000. *)
Fixpoint encode (u : pystr) : pystr :=
  match u with
  | [] => []
  | ch :: r =>
    match r with
    | ch2 :: r' =>
      if is_high_surrogate ch && is_low_surrogate ch2
      then encode_char
             (Z.lor (Z.shiftl (ch - 0xD800) 10) (ch2 - 0xDC00) + 0x10000)
           ++ encode r'
      else encode_char ch ++ encode r
    | [] => encode_char ch
    end
  end.

(** Length of the sequence a first byte announces; 0 is an illegal start
    byte (continuation bytes, the overlong C0/C1, and F5..FF). *)
Definition code_length (b : Z) : Z :=
  if b <? 0x80 then 1
  else if b <? 0xC2 then 0
  else if b <? 0xE0 then 2
  else if b <? 0xF0 then 3
  else if b <? 0xF5 then 4
  else 0.

Definition is_cont (b : Z) : bool := Z.land b 0xC0 =? 0x80.

(** Strict decoding: [None] stands for [UnicodeDecodeError].  As in
    Python 2.7, code points D800..DFFF are accepted. *)
Fixpoint decode (s : pystr) : option pystr :=
  match s with
  | [] => Some []
  | b0 :: r0 =>
    match code_length b0 with
    | 1 => cons b0 <$> decode r0
    | 2 =>
      match r0 with
      | b1 :: r1 =>
        if is_cont b1
        then cons (Z.shiftl (Z.land b0 0x1F) 6 + Z.land b1 0x3F) <$> decode r1
        else None
      | _ => None
      end
    | 3 =>
      match r0 with
      | b1 :: b2 :: r2 =>
        if is_cont b1 && is_cont b2 && negb ((b0 =? 0xE0) && (b1 <? 0xA0))
        then cons (Z.shiftl (Z.land b0 0x0F) 12
                   + Z.shiftl (Z.land b1 0x3F) 6
                   + Z.land b2 0x3F) <$> decode r2
        else None
      | _ => None
      end
    | 4 =>
      match r0 with
      | b1 :: b2 :: b3 :: r3 =>
        if is_cont b1 && is_cont b2 && is_cont b3
           && negb ((b0 =? 0xF0) && (b1 <? 0x90))
           && negb ((b0 =? 0xF4) && (0x8F <? b1))
        then cons (Z.shiftl (Z.land b0 0x07) 18
                   + Z.shiftl (Z.land b1 0x3F) 12
                   + Z.shiftl (Z.land b2 0x3F) 6
                   + Z.land b3 0x3F) <$> decode r3
        else None
      | _ => None
      end
    | _ => None
    end
  end.

(** The characters of a well-formed string: the Unicode scalar values,
    that is, the code points outside the surrogate range. *)
Definition scalar (c : Z) : Prop := 0 <= c < 0xD800 \/ 0xDFFF < c < 0x110000.

End Utf8.

(** ** Whitespace, [strip], and the small string methods the module calls *)

(** [str.isspace] in the C locale. *)
Definition str_isspace (c : Z) : bool :=
  ((0x09 <=? c) && (c <=? 0x0D)) || (c =? 0x20).

(** [unicode.isspace] of Python 2.7 (Unicode 5.2). *)
Definition unicode_isspace (c : Z) : bool :=
  ((0x09 <=? c) && (c <=? 0x0D)) || ((0x1C <=? c) && (c <=? 0x20))
  || (c =? 0x85) || (c =? 0xA0) || (c =? 0x1680) || (c =? 0x180E)
  || ((0x2000 <=? c) && (c <=? 0x200A))
  || (c =? 0x2028) || (c =? 0x2029) || (c =? 0x202F) || (c =? 0x205F)
  || (c =? 0x3000).

Fixpoint lstrip (sp : Z -> bool) (s : pystr) : pystr :=
  match s with
  | c :: r => if sp c then lstrip sp r else s
  | [] => []
  end.

Definition rstrip (sp : Z -> bool) (s : pystr) : pystr :=
  rev (lstrip sp (rev s)).

Definition strip (sp : Z -> bool) (s : pystr) : pystr :=
  rstrip sp (lstrip sp s).

Definition is_empty (s : pystr) : bool :=
  match s with [] => true | _ => false end.

(** [s.split(sep, 1)] for a one-character separator that occurs in [s]. *)
Fixpoint split1 (sep : Z) (s : pystr) : pystr * pystr :=
  match s with
  | [] => ([], [])
  | c :: r =>
    if c =? sep then ([], r)
    else let '(k, v) := split1 sep r in (c :: k, v)
  end.

(** [sep.join(parts)] *)
Fixpoint join (sep : pystr) (parts : list pystr) : pystr :=
  match parts with
  | [] => []
  | [p] => p
  | p :: ps => p ++ sep ++ join sep ps
  end.

(** [repr] of a [str] *)
Definition hexdigit (n : Z) : Z := nth (Z.to_nat n) (py "0123456789abcdef") 0.

Definition repr_char (quote c : Z) : pystr :=
  if (c =? quote) || (c =? 92) then [92; c]
  else if c =? 9 then py "\t"
  else if c =? 10 then py "\n"
  else if c =? 13 then py "\r"
  else if (c <? 32) || (127 <=? c) then
    py "\x" ++ [hexdigit (c / 16); hexdigit (c mod 16)]
  else [c].

Definition py_repr (s : pystr) : pystr :=
  let quote :=
    if existsb (Z.eqb 39) s && negb (existsb (Z.eqb 34) s) then 34 else 39 in
  [quote] ++ flat_map (repr_char quote) s ++ [quote].

(** ** Exceptions *)

Inductive exc_class :=
| EnvironmentError | ImportError | KeyError | AttributeError | TypeError
| RuntimeError
| ValueError | UnicodeDecodeError | UnicodeEncodeError
| KeyboardInterrupt | SystemExit.

(** [except ValueError] also catches the two Unicode errors. *)
Definition is_ValueError (c : exc_class) : bool :=
  match c with
  | ValueError | UnicodeDecodeError | UnicodeEncodeError => true
  | _ => false
  end.

(** [except Exception] lets [KeyboardInterrupt] and [SystemExit] through. *)
Definition is_Exception (c : exc_class) : bool :=
  match c with
  | KeyboardInterrupt | SystemExit => false
  | _ => true
  end.

Definition class_name (c : exc_class) : pystr :=
  match c with
  | EnvironmentError => py "EnvironmentError"
  | ImportError => py "ImportError"
  | KeyError => py "KeyError"
  | AttributeError => py "AttributeError"
  | TypeError => py "TypeError"
  | RuntimeError => py "RuntimeError"
  | ValueError => py "ValueError"
  | UnicodeDecodeError => py "UnicodeDecodeError"
  | UnicodeEncodeError => py "UnicodeEncodeError"
  | KeyboardInterrupt => py "KeyboardInterrupt"
  | SystemExit => py "SystemExit"
  end.

(** An exception object: its class, [str(e)] and [repr(e)].  [str(e)] is
    [None] when the call itself raises: the message of the exception is a
    [unicode] with a character outside ASCII, which the default codec
    refuses. *)
Record exn := Exn {
  exc_class_of : exc_class;
  exc_str : option pystr;
  exc_repr : pystr
}.

(** [cls(msg)], an exception built from one message string (a [str]). *)
Definition new_exn (cls : exc_class) (msg : pystr) : exn :=
  Exn cls (Some msg) (class_name cls ++ py "(" ++ py_repr msg ++ py ",)").

(** The codec errors.  The module never reads their text (its
    [except Exception:] clauses do not name them), so it is abridged. *)
Definition decode_error : exn :=
  new_exn UnicodeDecodeError (py "'utf8' codec can't decode bytes").
Definition encode_error : exn :=
  new_exn UnicodeEncodeError (py "'ascii' codec can't encode characters").

Inductive result (A : Type) :=
| Ok (a : A)
| Raise (e : exn).
Arguments Ok {A} a.
Arguments Raise {A} e.

Global Instance result_ret : MRet result := fun A a => Ok a.
Global Instance result_bind : MBind result := fun A B f m =>
  match m with Ok a => f a | Raise e => Raise e end.
Global Instance result_fmap : FMap result := fun A B f m =>
  match m with Ok a => Ok (f a) | Raise e => Raise e end.

(** [str(e)] *)
Definition str_exn (e : exn) : result pystr :=
  match exc_str e with
  | Some s => Ok s
  | None => Raise encode_error
  end.

(** [try: m  except Exception: h] *)
Definition try_except_Exception {A} (m : result A) (h : result A) : result A :=
  match m with
  | Raise e => if is_Exception (exc_class_of e) then h else Raise e
  | _ => m
  end.

(** ** [int(s)] for a [str] argument *)

Definition is_digit (c : Z) : bool := (48 <=? c) && (c <=? 57).

Fixpoint digits_value (acc : Z) (s : pystr) : option Z :=
  match s with
  | [] => Some acc
  | c :: r => if is_digit c then digits_value (acc * 10 + (c - 48)) r else None
  end.

(** The decimal literals of [PyInt_FromString]: blanks, a sign, blanks
    again ([PyOS_strtol] hands what follows the sign to [PyOS_strtoul],
    which skips them), one digit or more, blanks. *)
Definition parse_int (s : pystr) : option Z :=
  let t := strip str_isspace s in
  let '(sign, r) :=
    match t with
    | 43 :: r => (1, r)
    | 45 :: r => (-1, r)
    | _ => (1, t)
    end in
  let ds := lstrip str_isspace r in
  if is_empty ds then None
  else (fun n => sign * n) <$> digits_value 0 ds.

(** The characters before the first NUL: all that a C parser sees of a
    [str]. *)
Fixpoint until_nul (s : pystr) : pystr :=
  match s with
  | [] => []
  | c :: r => if c =? 0 then [] else c :: until_nul r
  end.

(** [int(s)] ([int_from_string]).  The parser reads up to the first NUL.
    When it accepts what it read, a NUL in the argument is reported; when
    it does not, the message quotes what it read, from the first character
    that is no blank and up to 200 characters. *)
Definition py_int (s : pystr) : result Z :=
  let c := until_nul s in
  match parse_int c with
  | Some n =>
    if bool_decide (c = s) then Ok n
    else Raise (new_exn ValueError (py "null byte in argument for int()"))
  | None =>
    Raise (new_exn ValueError
             (py "invalid literal for int() with base 10: "
              ++ py_repr (firstn 200 (lstrip str_isspace c))))
  end.

(** ** Text objects: a [str] or a [unicode] *)

Inductive text :=
| Str (b : pystr)
| Unicode (u : pystr).

Definition chars (t : text) : pystr :=
  match t with Str b => b | Unicode u => u end.

(** [t.strip()]: each type strips its own whitespace. *)
Definition text_strip (t : text) : text :=
  match t with
  | Str b => Str (strip str_isspace b)
  | Unicode u => Unicode (strip unicode_isspace u)
  end.

Definition truthy (t : text) : bool := negb (is_empty (chars t)).

Definition startswith (c : Z) (t : text) : bool :=
  match chars t with x :: _ => x =? c | [] => false end.

Definition contains (c : Z) (t : text) : bool := existsb (Z.eqb c) (chars t).

Definition text_split1 (c : Z) (t : text) : text * text :=
  let '(k, v) := split1 c (chars t) in
  match t with
  | Str _ => (Str k, Str v)
  | Unicode _ => (Unicode k, Unicode v)
  end.

(** [str(t)]: a [unicode] is encoded with the default (ASCII) codec. *)
Definition py_str (t : text) : result pystr :=
  match t with
  | Str b => Ok b
  | Unicode u => if is_ascii u then Ok u else Raise encode_error
  end.

(** ** Configuration loader (source lines 23-71) *)

(** [os.environ] as a POSIX process has it: [str] keys, compared as they
    are.  A value set by the loader may be a [unicode] object. *)
Abbreviation environ := (gmap pystr text).

(** [k in os.environ]: a [unicode] key equals a [str] key only when it is
    ASCII. *)
Definition in_environ (k : text) (env : environ) : bool :=
  match k with
  | Str b => bool_decide (is_Some (env !! b))
  | Unicode u => is_ascii u && bool_decide (is_Some (env !! u))
  end.

(** What [putenv] accepts for one argument: a string without a NUL, a
    [unicode] being encoded as ASCII first (the error text is abridged). *)
Definition c_string (t : text) : result pystr :=
  b ← py_str t;
  if existsb (Z.eqb 0) b
  then Raise (new_exn TypeError (py "must be string without null bytes"))
  else Ok b.

(** [os.environ[k] = v] *)
Definition environ_setitem (k v : text) (env : environ) : result environ :=
  kb ← c_string k;
  _ ← c_string v;
  Ok (<[kb := v]> env).

(** [os.environ[k]] *)
Definition environ_getitem (env : environ) (k : pystr) : result text :=
  match env !! k with
  | Some v => Ok v
  | None =>
    Raise (Exn KeyError (Some (py_repr k))
             (py "KeyError(" ++ py_repr k ++ py ",)"))
  end.

(** What the program finds at [dotenv_path]. *)
Inductive dotenv_file :=
| NotAFile
| Unreadable (e : exn)
| Readable (lines : list pystr).

(** Lines 37-40. *)
Definition decode_line (raw : pystr) : text :=
  match Utf8.decode raw with
  | Some u => text_strip (Unicode u)
  | None => text_strip (Str raw)
  end.

(** One turn of the loop of lines 36-47. *)
Definition load_line (env : environ) (raw : pystr) : result environ :=
  let line := decode_line raw in
  if negb (truthy line) || startswith 35 line || negb (contains 61 line)
  then Ok env
  else
    let '(k, v) := text_split1 61 line in
    let k := text_strip k in
    let v := text_strip v in
    if truthy k && negb (in_environ k env)
    then environ_setitem k v env
    else Ok env.

Fixpoint load_lines (lines : list pystr) (env : environ) : result environ :=
  match lines with
  | [] => Ok env
  | raw :: rest => env' ← load_line env raw; load_lines rest env'
  end.

Definition load_dotenv_strict (dotenv_path : pystr) (f : dotenv_file)
    (env : environ) : result environ :=
  match f with
  | NotAFile =>
    Raise (new_exn EnvironmentError
             (py ".env file not found at: " ++ dotenv_path))
  | Unreadable e =>
    if is_Exception (exc_class_of e)
    then Raise (new_exn EnvironmentError
                  (py "Failed to read .env: " ++ exc_repr e))
    else Raise e
  | Readable lines => load_lines lines env
  end.

Definition REQUIRED_KEYS : list pystr :=
  [py "NAO_SDK_PATH"; py "NAO_IP"; py "NAO_PORT";
   py "BRIDGE_BIND_IP"; py "BRIDGE_BIND_PORT"].

(** [not os.environ.get(k)] *)
Definition unset (env : environ) (k : pystr) : bool :=
  match env !! k with
  | Some v => negb (truthy v)
  | None => true
  end.

(** Line 62. *)
Definition missing (env : environ) : list pystr :=
  List.filter (unset env) REQUIRED_KEYS.

Record config := Config {
  NAO_SDK_PATH : text;
  NAO_IP : pystr;
  NAO_PORT : Z;
  BRIDGE_BIND_IP : pystr;
  BRIDGE_BIND_PORT : Z
}.

(** Lines 62-71. *)
Definition read_config (env : environ) : result config :=
  match missing env with
  | _ :: _ =>
    Raise (new_exn EnvironmentError
             (py "Missing required env keys in .env: "
              ++ join (py ", ") (missing env)))
  | [] =>
    sdk ← environ_getitem env (py "NAO_SDK_PATH");
    ip ← environ_getitem env (py "NAO_IP");
    ip_s ← py_str (text_strip ip);
    port ← environ_getitem env (py "NAO_PORT");
    port_s ← py_str port;
    port_n ← py_int (strip str_isspace port_s);
    bind_ip ← environ_getitem env (py "BRIDGE_BIND_IP");
    bind_ip_s ← py_str (text_strip bind_ip);
    bind_port ← environ_getitem env (py "BRIDGE_BIND_PORT");
    bind_port_s ← py_str bind_port;
    bind_port_n ← py_int (strip str_isspace bind_port_s);
    Ok (Config (text_strip sdk) ip_s port_n bind_ip_s bind_port_n)
  end.

(** The module's start up to line 71: the environment after loading and
    the configuration read from it, or the exception that ends the
    process. *)
Definition startup (dotenv_path : pystr) (f : dotenv_file) (env : environ)
    : result (environ * config) :=
  env' ← load_dotenv_strict dotenv_path f env;
  cfg ← read_config env';
  Ok (env', cfg).

(** ** Python values seen by the handler *)

(** What [json.loads] returns and what [json.dumps] is given.  A dict is
    the list of its items; [VObject] is any other object (a set, an
    instance) that has neither a [get] nor a [decode] method, known by its
    type name. *)
Inductive value :=
| VNone
| VBool (b : bool)
| VInt (n : Z)
| VLong (n : Z)
| VFloat (literal : pystr)
| VStr (s : pystr)
| VUnicode (u : pystr)
| VList (items : list value)
| VDict (items : list (value * value))
| VObject (type_name : pystr).

Definition type_name_of (v : value) : pystr :=
  match v with
  | VNone => py "NoneType"
  | VBool _ => py "bool"
  | VInt _ => py "int"
  | VLong _ => py "long"
  | VFloat _ => py "float"
  | VStr _ => py "str"
  | VUnicode _ => py "unicode"
  | VList _ => py "list"
  | VDict _ => py "dict"
  | VObject n => n
  end.

(** Looking up a method the object does not have. *)
Definition attribute_error (v : value) (attr : pystr) : exn :=
  new_exn AttributeError
    (py "'" ++ type_name_of v ++ py "' object has no attribute '"
     ++ attr ++ py "'").

(** A key equal to the ASCII literal [s]: a [str] or a [unicode] with the
    same characters. *)
Definition key_is (s : pystr) (k : value) : bool :=
  match k with
  | VStr b | VUnicode b => bool_decide (b = s)
  | _ => false
  end.

(** [data.get(s)] *)
Definition py_get (data : value) (s : pystr) : result value :=
  match data with
  | VDict items =>
    match List.find (fun kv => key_is s (fst kv)) items with
    | Some kv => Ok (snd kv)
    | None => Ok VNone
    end
  | _ => Raise (attribute_error data (py "get"))
  end.

(** [text.decode('utf-8')]: only strings have the method; a [unicode]
    receiver is first encoded as ASCII. *)
Definition decode_utf8 (v : value) : result pystr :=
  match v with
  | VStr s =>
    match Utf8.decode s with Some u => Ok u | None => Raise decode_error end
  | VUnicode u => if is_ascii u then Ok u else Raise encode_error
  | _ => Raise (attribute_error v (py "decode"))
  end.

(** Whether [json.dumps] accepts a dict key. *)
Definition dumps_key_ok (k : value) : bool :=
  match k with
  | VNone | VBool _ | VInt _ | VLong _ | VFloat _ | VUnicode _ => true
  | VStr s => bool_decide (is_Some (Utf8.decode s))
  | _ => false
  end.

(** Whether [json.dumps(v)] returns (with its default arguments): a [str]
    must be UTF-8, an object of another type is refused. *)
Fixpoint dumps_ok (v : value) : bool :=
  match v with
  | VNone | VBool _ | VInt _ | VLong _ | VFloat _ | VUnicode _ => true
  | VStr s => bool_decide (is_Some (Utf8.decode s))
  | VList items => forallb dumps_ok items
  | VDict items =>
    forallb (fun kv => dumps_key_ok (fst kv) && dumps_ok (snd kv)) items
  | VObject _ => false
  end.

(** ** Requests, responses and what a handler run does *)

(** The handler object once the base class has read the request line and
    the headers. *)
Record request := Request {
  command : pystr;                 (* the HTTP method *)
  path : pystr;
  request_version : pystr;
  content_length : option pystr;   (* the Content-Length header *)
  rfile : pystr                    (* the bytes that follow the headers *)
}.

(** A response body: the JSON text of a value, literal text, the HTML page
    of [send_error], or nothing. *)
Inductive body :=
| Json (obj : value)
| Literal (s : pystr)
| ErrorPage (message : pystr)
| NoBody.

Record response := Response {
  status : Z;
  content_type : pystr;
  response_body : body
}.

(** What a run does.  [Respond r] stands for the calls that make a reply:
    [send_response(status)], [send_header], [end_headers] and the write of
    the body; the base class puts the status line and the headers on the
    wire for every request version but HTTP/0.9, where the body goes out
    alone.  The two log events are lines the base class writes to
    [sys.stderr], after the client address and the time: [log_request],
    called by every [send_response], and [log_error], called by
    [send_error]. *)
Inductive event :=
| Say (payload : pystr)                   (* [tts.say(payload)] was called *)
| Stderr (s : pystr)                      (* [sys.stderr.write(s)] *)
| LogRequest (code : Z)                   (* [log_request(code)] *)
| LogError (code : Z) (message : pystr)   (* [log_error("code %d, message %s", ...)] *)
| Respond (r : response).

(** A run of handler code: what it did, and how it ended. *)
Record run (A : Type) := Run { trace : list event; outcome : result A }.
Arguments Run {A} trace outcome.
Arguments trace {A} r.
Arguments outcome {A} r.

Global Instance run_ret : MRet run := fun A a => Run [] (Ok a).
Global Instance run_bind : MBind run := fun A B f m =>
  match outcome m with
  | Ok a => Run (trace m ++ trace (f a)) (outcome (f a))
  | Raise e => Run (trace m) (Raise e)
  end.

Definition lift {A} (r : result A) : run A := Run [] r.
Definition emit (e : event) : run unit := Run [e] (Ok tt).

(** [try: m  except ...: h e]; the handler [h] re-raises what no clause
    matches. *)
Definition try_except {A} (m : run A) (h : exn -> run A) : run A :=
  match outcome m with
  | Ok _ => m
  | Raise e => Run (trace m ++ trace (h e)) (outcome (h e))
  end.

(** The payloads of the backend calls of a run. *)
Definition say_calls (t : list event) : list pystr :=
  flat_map (fun e => match e with Say p => [p] | _ => [] end) t.

Definition responses (t : list event) : list response :=
  flat_map (fun e => match e with Respond r => [r] | _ => [] end) t.

Definition json_type : pystr := py "application/json; charset=utf-8".

(** Dict literals of the source. *)
Definition ok_ (b : bool) : value * value := (VStr (py "ok"), VBool b).
Definition msg_ (s : pystr) : value * value := (VStr (py "msg"), VStr s).
Definition service_ (s : pystr) : value * value := (VStr (py "service"), VStr s).

(** A reply: the line of [send_response] in the log, then headers and
    body. *)
Definition reply (r : response) : list event := [LogRequest (status r); Respond r].

(** [Handler._send_json] (lines 117-126). *)
Definition _send_json (code : Z) (obj : value) : run unit :=
  let '(code, body) :=
    if dumps_ok obj then (code, Json obj)
    else (500, Literal (pyq "{'ok':false,'msg':'encode error'}")) in
  Run (reply (Response code json_type body)) (Ok tt).

(** [BaseHTTPRequestHandler.send_error(code, message)]: a line in the log,
    then the reply, an HTML page that is left out when the request is a
    HEAD.  [command] is the handler's attribute at the time of the call,
    [None] as long as no request line was accepted. *)
Definition send_error (command : option pystr) (code : Z) (message : pystr)
    : run unit :=
  Run (LogError code message
       :: reply (Response code (py "text/html")
                   (if bool_decide (command = Some (py "HEAD"))
                    then NoBody else ErrorPage message)))
      (Ok tt).

(** [s.split()]: the runs of characters that are no whitespace.  [cur] is
    the run being read, last character first. *)
Fixpoint words_from (cur : pystr) (s : pystr) : list pystr :=
  match s with
  | [] => if is_empty cur then [] else [rev cur]
  | c :: r =>
    if str_isspace c
    then (if is_empty cur then words_from [] r else rev cur :: words_from [] r)
    else words_from (c :: cur) r
  end.

Definition py_split (s : pystr) : list pystr := words_from [] s.

(** [s.count(c)] *)
Definition count (c : Z) (s : pystr) : nat := length (List.filter (Z.eqb c) s).

(** The [try] block of [parse_request]: the two numbers of [HTTP/x.y];
    [None] stands for the [ValueError] that the block catches. *)
Definition version_number (version : pystr) : option (Z * Z) :=
  let base_version_number := snd (split1 47 version) in
  if negb (Nat.eqb (count 46 base_version_number) 1) then None
  else
    let '(major, minor) := split1 46 base_version_number in
    match py_int major, py_int minor with
    | Ok x, Ok y => Some (x, y)
    | _, _ => None
    end.

(** What [BaseHTTPRequestHandler.parse_request] makes of the request
    line: it sets [command], [path] and [request_version] and goes on to
    the headers, or sends an error, or, for a line without a word, gives
    up without an answer. *)
Inductive parsed :=
| Accepted (command path version : pystr)
| Refused (code : Z) (message : pystr)
| Blank.

Definition parse_request (raw_requestline : pystr) : parsed :=
  let requestline :=
    rstrip (fun c => (c =? 13) || (c =? 10)) raw_requestline in
  match py_split requestline with
  | [command; path; version] =>
    if negb (bool_decide (firstn 5 version = py "HTTP/")) then
      Refused 400 (py "Bad request version (" ++ py_repr version ++ py ")")
    else
      match version_number version with
      | None =>
        Refused 400 (py "Bad request version (" ++ py_repr version ++ py ")")
      | Some (major, minor) =>
        if (2 <? major) || ((major =? 2) && (0 <=? minor)) then
          Refused 505 (py "Invalid HTTP Version ("
                       ++ snd (split1 47 version) ++ py ")")
        else Accepted command path version
      end
  | [command; path] =>
    if negb (bool_decide (command = py "GET")) then
      Refused 400 (py "Bad HTTP/0.9 request type ("
                   ++ py_repr command ++ py ")")
    else Accepted command path (py "HTTP/0.9")
  | [] => Blank
  | _ =>
    Refused 400 (py "Bad request syntax (" ++ py_repr requestline ++ py ")")
  end.

(** [Handler.do_GET] (lines 167-171). *)
Definition do_GET (req : request) : run unit :=
  if bool_decide (path req = py "/health")
  then _send_json 200 (VDict [ok_ true; service_ (py "nao_bridge")])
  else _send_json 404 (VDict [ok_ false; msg_ (py "not found")]).

Section Handler.

(** The library parser [json.loads], applied to the body bytes. *)
Variable json_loads : pystr -> result value.

(** The CP949 table: the character of a lead and a trail byte, if any. *)
Variable cp949 : Z -> Z -> option Z.

(** The backend: [tts_say payload] is [None] when [tts.say(payload)]
    returns, and the exception it raises otherwise. *)
Variable tts_say : pystr -> option exn.

(** [s.decode('cp949', 'ignore')]: a byte below 0x80 is itself; any other
    byte starts a two-byte unit, dropped when the table has no character
    for it or when the input ends inside it. *)
Fixpoint cp949_decode_ignore (s : pystr) : pystr :=
  match s with
  | [] => []
  | c :: r =>
    if c <? 0x80 then c :: cp949_decode_ignore r
    else
      match r with
      | [] => []
      | c2 :: r' =>
        match cp949 c c2 with
        | Some ch => ch :: cp949_decode_ignore r'
        | None => cp949_decode_ignore r'
        end
      end
  end.

(** [text.decode('cp949', 'ignore')] *)
Definition decode_cp949_ignore (v : value) : result pystr :=
  match v with
  | VStr s => Ok (cp949_decode_ignore s)
  | VUnicode u => if is_ascii u then Ok u else Raise encode_error
  | _ => Raise (attribute_error v (py "decode"))
  end.

(** Lines 139-146: [text_u] from [text]. *)
Definition normalize (text : value) : result pystr :=
  match text with
  | VUnicode u => Ok (strip unicode_isspace u)
  | _ =>
    try_except_Exception
      (strip unicode_isspace <$> decode_utf8 text)
      (strip unicode_isspace <$> decode_cp949_ignore text)
  end.

(** The characters of a string value, before [strip]: a [unicode] as it
    stands, a [str] decoded as lines 143-146 decode it. *)
Definition decoded_text (text : value) : pystr :=
  match text with
  | VUnicode u => u
  | VStr s =>
    match Utf8.decode s with
    | Some u => u
    | None => cp949_decode_ignore s
    end
  | _ => []
  end.

(** [Handler._read_json] (lines 108-115).  [rfile.read(length)] gives the
    first [length] bytes of what follows the headers, or all of it when
    there is less. *)
Definition _read_json (req : request) : result value :=
  length ←
    match content_length req with
    | None => Ok 0
    | Some h => if is_empty h then Ok 0 else py_int h
    end;
  let raw := if 0 <? length then firstn (Z.to_nat length) (rfile req)
             else py "{}" in
  match json_loads (if is_empty raw then py "{}" else raw) with
  | Ok data => Ok data
  | Raise e =>
    if is_Exception (exc_class_of e)
    then Raise (new_exn ValueError (py "Invalid JSON body: " ++ exc_repr e))
    else Raise e
  end.

(** [tts.say(payload)] *)
Definition say (payload : pystr) : run unit :=
  Run [Say payload]
      (match tts_say payload with None => Ok tt | Some e => Raise e end).

(** The two [except] clauses of [do_POST] (lines 160-165).  What [str(ve)]
    raises leaves the clause, and with it [do_POST]. *)
Definition do_POST_except (e : exn) : run unit :=
  if is_ValueError (exc_class_of e) then
    msg ← lift (str_exn e);
    _send_json 400 (VDict [ok_ false; msg_ msg])
  else if is_Exception (exc_class_of e) then
    _ ← emit (Stderr (py "[ERR ] do_POST /say: " ++ exc_repr e ++ [10]));
    _send_json 500 (VDict [ok_ false; msg_ (py "server error")])
  else lift (Raise e).

(** [Handler.do_POST] (lines 128-165). *)
Definition do_POST (req : request) : run unit :=
  try_except
    (if bool_decide (path req = py "/say") then
       data ← lift (_read_json req);
       text ← lift (py_get data (py "text"));
       match text with
       | VNone =>
         _send_json 400 (VDict [ok_ false; msg_ (py "text is required")])
       | _ =>
         text_u ← lift (normalize text);
         if is_empty text_u then
           _send_json 400 (VDict [ok_ false; msg_ (py "text is empty")])
         else
           _ ← say (Utf8.encode text_u);
           _send_json 200 (VDict [ok_ true])
       end
     else _send_json 404 (VDict [ok_ false; msg_ (py "not found")]))
    do_POST_except.

(** The end of [BaseHTTPRequestHandler.handle_one_request]: the method
    [do_<command>] is called when the handler class has it, and [Handler]
    has [do_GET] and [do_POST]; any other command is answered with 501. *)
Definition dispatch (req : request) : run unit :=
  if bool_decide (command req = py "GET") then do_GET req
  else if bool_decide (command req = py "POST") then do_POST req
  else send_error (Some (command req)) 501
         (py "Unsupported method (" ++ py_repr (command req) ++ py ")").

(** [BaseHTTPRequestHandler.handle_one_request], for the first line of a
    connection (as far as its line feed), the Content-Length among the
    headers that follow it, and the bytes after the headers.  A line of
    more than 65536 bytes is answered with 414, an empty line or a line
    without a word is not answered, and a line that [parse_request] refuses
    is answered by [parse_request], at a time when the handler still has
    no [command] and the default [request_version], HTTP/0.9. *)
Definition handle_one_request (raw_requestline : pystr)
    (content_length : option pystr) (rfile : pystr) : run unit :=
  if 65536 <? Z.of_nat (length raw_requestline) then
    send_error (Some []) 414 (py "Request-URI Too Long")
  else if is_empty raw_requestline then mret tt
  else
    match parse_request raw_requestline with
    | Refused code message => send_error None code message
    | Blank => mret tt
    | Accepted command path version =>
      dispatch (Request command path version content_length rfile)
    end.

End Handler.

(** ** Predicates used to state the properties *)

(** The environment a process starts with holds [str] values only. *)
Definition str_valued (env : environ) : Prop :=
  forall (k : pystr) (v : text), env !! k = Some v -> exists b, v = Str b.

(** Every value can be read back with [str(v)]. *)
Definition readable (env : environ) : Prop :=
  forall (k : pystr) (v : text), env !! k = Some v -> py_str v = Ok (chars v).

(** All the lists [filter f l] can be. *)
Fixpoint sublists {A} (l : list A) : list (list A) :=
  match l with
  | [] => [[]]
  | x :: r => List.map (cons x) (sublists r) ++ sublists r
  end.

Definition server_error : response :=
  Response 500 json_type (Json (VDict [ok_ false; msg_ (py "server error")])).

Definition not_found : response :=
  Response 404 json_type (Json (VDict [ok_ false; msg_ (py "not found")])).

Definition is_string (v : value) : bool :=
  match v with VStr _ | VUnicode _ => true | _ => false end.

Definition is_dict (v : value) : bool :=
  match v with VDict _ => true | _ => false end.

(** ** Sample inputs *)

Module Samples.

Definition hello_body : pystr := pyq "{'text': 'hello'}".
Definition number_body : pystr := pyq "{'text': 5}".
Definition list_body : pystr := py "[1, 2]".

(** [json.loads] on the sample bodies. *)
Definition loads (raw : pystr) : result value :=
  if bool_decide (raw = hello_body) then
    Ok (VDict [(VUnicode (py "text"), VUnicode (py "hello"))])
  else if bool_decide (raw = number_body) then
    Ok (VDict [(VUnicode (py "text"), VInt 5)])
  else if bool_decide (raw = list_body) then
    Ok (VList [VInt 1; VInt 2])
  else if bool_decide (raw = py "{}") then
    Ok (VDict [])
  else Raise (new_exn ValueError (py "No JSON object could be decoded")).

(** A parser that hands the string of [hello_body] back as a [str] with
    blanks around it. *)
Definition loads_str (raw : pystr) : result value :=
  if bool_decide (raw = hello_body) then
    Ok (VDict [(VUnicode (py "text"), VStr (Utf8.encode (py " hello ")))])
  else Raise (new_exn ValueError (py "No JSON object could be decoded")).

(** One row of the CP949 table: C7 D1 is U+D55C. *)
Definition table (lead trail : Z) : option Z :=
  if (lead =? 0xC7) && (trail =? 0xD1) then Some 0xD55C else None.

Definition backend_ok (payload : pystr) : option exn := None.
Definition backend_raises (e : exn) (payload : pystr) : option exn := Some e.

Definition post_say (len body : pystr) : request :=
  Request (py "POST") (py "/say") (py "HTTP/1.1") (Some len) body.

Definition dotenv_path : pystr := py "/srv/nao/.env".

Definition line (s : string) : pystr := py s ++ [10].

Definition full_lines : list pystr :=
  [line "# NAO bridge";
   line "NAO_SDK_PATH=/opt/pynaoqi";
   line "NAO_IP=10.0.0.7";
   line "NAO_PORT=9559";
   line "BRIDGE_BIND_IP=0.0.0.0";
   line "BRIDGE_BIND_PORT=8088"].

Definition bad_port_lines : list pystr :=
  [line "NAO_SDK_PATH=/opt/pynaoqi";
   line "NAO_IP=10.0.0.7";
   line "NAO_PORT=abc";
   line "BRIDGE_BIND_IP=0.0.0.0";
   line "BRIDGE_BIND_PORT=8088"].

(** The environment after [bad_port_lines] were loaded over an empty one. *)
Definition bad_port_loaded : environ :=
  <[ py "BRIDGE_BIND_PORT" := Unicode (py "8088") ]>
  (<[ py "BRIDGE_BIND_IP" := Unicode (py "0.0.0.0") ]>
  (<[ py "NAO_PORT" := Unicode (py "abc") ]>
  (<[ py "NAO_IP" := Unicode (py "10.0.0.7") ]>
  {[ py "NAO_SDK_PATH" := Unicode (py "/opt/pynaoqi") ]}))).

Definition only_ip_lines : list pystr := [line "NAO_IP=10.0.0.7"].

Definition ambient : environ := {[ py "NAO_IP" := Str (py "192.168.0.9") ]}.

(** The environment after [full_lines] were loaded over [ambient]. *)
Definition loaded : environ :=
  <[ py "BRIDGE_BIND_PORT" := Unicode (py "8088") ]>
  (<[ py "BRIDGE_BIND_IP" := Unicode (py "0.0.0.0") ]>
  (<[ py "NAO_PORT" := Unicode (py "9559") ]>
  (<[ py "NAO_SDK_PATH" := Unicode (py "/opt/pynaoqi") ]> ambient))).

Definition loaded_config : config :=
  Config (Unicode (py "/opt/pynaoqi")) (py "192.168.0.9") 9559
         (py "0.0.0.0") 8088.

Definition connection_lost : exn :=
  new_exn RuntimeError (py "ALTextToSpeech::say: connection lost").

Definition bad_argument : exn :=
  new_exn ValueError (py "robot 10.0.0.7 rejected the text").

End Samples.

(** ** The rest of the module, for the properties beyond the claims *)

(** Lines 41-45: the entry a line defines, when it defines one. *)
Definition line_entry (raw : pystr) : option (text * text) :=
  let line := decode_line raw in
  if negb (truthy line) || startswith 35 line || negb (contains 61 line)
  then None
  else
    let '(k, v) := text_split1 61 line in
    if truthy (text_strip k) then Some (text_strip k, text_strip v) else None.

(** Line 109: [int(h or 0)] for the Content-Length header [h]. *)
Definition header_length (h : option pystr) : result Z :=
  match h with
  | None => Ok 0
  | Some h => if is_empty h then Ok 0 else py_int h
  end.

(** The length the request declares. *)
Definition declared_length (req : request) : result Z :=
  header_length (content_length req).

(** Lines 109-110 and the [raw or "{}"] of line 112: the bytes handed to
    the parser. *)
Definition body_bytes (req : request) : result pystr :=
  length ← declared_length req;
  let raw := if 0 <? length then firstn (Z.to_nat length) (rfile req)
             else py "{}" in
  Ok (if is_empty raw then py "{}" else raw).

(** Lines 111-115: parsing, with the parser's failure turned into a
    [ValueError]. *)
Definition loads_or_ValueError (json_loads : pystr -> result value)
    (raw : pystr) : result value :=
  match json_loads raw with
  | Ok data => Ok data
  | Raise e =>
    if is_Exception (exc_class_of e)
    then Raise (new_exn ValueError (py "Invalid JSON body: " ++ exc_repr e))
    else Raise e
  end.

(** The same request with other bytes after the headers. *)
Definition with_rfile (req : request) (bytes : pystr) : request :=
  Request (command req) (path req) (request_version req)
          (content_length req) bytes.

(** What the module itself wrote to the error stream (line 164). *)
Definition stderr_writes (t : list event) : list pystr :=
  flat_map (fun e => match e with Stderr s => [s] | _ => [] end) t.

(** All that went to the error stream, in order: the module's own lines
    and the lines of the base class's log. *)
Definition error_stream (t : list event) : list event :=
  List.filter
    (fun e => match e with
              | Stderr _ | LogRequest _ | LogError _ _ => true
              | _ => false
              end) t.

Definition bad_request (msg : pystr) : response :=
  Response 400 json_type (Json (VDict [ok_ false; msg_ msg])).

Definition health_response : response :=
  Response 200 json_type
    (Json (VDict [ok_ true; service_ (py "nao_bridge")])).

Definition spoken_response : response :=
  Response 200 json_type (Json (VDict [ok_ true])).

(** [a == b] on text objects: a [str] equals a [unicode] when it is ASCII
    and has the same characters. *)
Definition py_eq (a b : text) : bool :=
  match a, b with
  | Str x, Str y | Unicode x, Unicode y => bool_decide (x = y)
  | Str x, Unicode y | Unicode y, Str x => is_ascii x && bool_decide (x = y)
  end.

(** [p in sys_path] *)
Definition in_path (p : text) (sys_path : list text) : bool :=
  existsb (py_eq p) sys_path.

Section SdkPath.

(** The file system and [os.path.join]. *)
Variable isdir : text -> bool.
Variable path_join : text -> text -> text.

(** One turn of the loop of lines 76-80, on [sys.path]. *)
Definition register_path (sys_path : list text) (p : text)
    : result (list text) :=
  if negb (isdir p) then
    Raise (new_exn EnvironmentError (py "Invalid SDK path: " ++ chars p))
  else if negb (in_path p sys_path) then Ok (sys_path ++ [p])
  else Ok sys_path.

(** Lines 76-80. *)
Definition register_sdk_paths (sdk : text) (sys_path : list text)
    : result (list text) :=
  sys_path' ← register_path sys_path sdk;
  register_path sys_path' (path_join sdk (Str (py "lib"))).

End SdkPath.

(** A run of blanks, tabs and line ends. *)
Definition blank (ws : pystr) : Prop := forallb str_isspace ws = true.

(** A text the loader stores as it stands: ASCII without NUL, and no
    whitespace at either end. *)
Definition plain (s : pystr) : Prop :=
  is_ascii s = true /\ existsb (Z.eqb 0) s = false
  /\ strip unicode_isspace s = s.

(** A byte. *)
Definition byte_ok (b : Z) : Prop := 0 <= b < 256.

(** No two entries of the list are equal. *)
Fixpoint no_repeat (l : list text) : bool :=
  match l with
  | [] => true
  | p :: r => negb (in_path p r) && no_repeat r
  end.

Definition encode_error_response : response :=
  Response 500 json_type (Literal (pyq "{'ok':false,'msg':'encode error'}")).

(** The runs [do_POST] can make, for a backend [tts_say]: a reply without
    a backend call, a logged server error, an exception that is no
    [Exception] escaping, and the same three after the one backend call,
    besides the success and the [ValueError] of the backend whose text
    [str] cannot give. *)
Inductive post_shape (tts_say : pystr -> option exn) : run unit -> Prop :=
| shape_reply (resp : response) :
    status resp = 400 \/ status resp = 404 \/ resp = encode_error_response ->
    post_shape tts_say (Run (reply resp) (Ok tt))
| shape_logged (s : pystr) :
    post_shape tts_say (Run (Stderr s :: reply server_error) (Ok tt))
| shape_escaped (e : exn) :
    is_Exception (exc_class_of e) = false ->
    post_shape tts_say (Run [] (Raise e))
| shape_spoken (u : pystr) :
    u <> [] -> strip unicode_isspace u = u ->
    tts_say (Utf8.encode u) = None ->
    post_shape tts_say
      (Run (Say (Utf8.encode u) :: reply spoken_response) (Ok tt))
| shape_say_rejected (u : pystr) (e : exn) (resp : response) :
    u <> [] -> strip unicode_isspace u = u ->
    tts_say (Utf8.encode u) = Some e ->
    status resp = 400 \/ resp = encode_error_response ->
    post_shape tts_say (Run (Say (Utf8.encode u) :: reply resp) (Ok tt))
| shape_say_logged (u : pystr) (e : exn) (s : pystr) :
    u <> [] -> strip unicode_isspace u = u ->
    tts_say (Utf8.encode u) = Some e ->
    post_shape tts_say
      (Run (Say (Utf8.encode u) :: Stderr s :: reply server_error) (Ok tt))
| shape_say_escaped (u : pystr) (e : exn) :
    u <> [] -> strip unicode_isspace u = u ->
    tts_say (Utf8.encode u) = Some e ->
    is_Exception (exc_class_of e) = false ->
    post_shape tts_say (Run [Say (Utf8.encode u)] (Raise e))
| shape_say_unprintable (u : pystr) (e : exn) :
    u <> [] -> strip unicode_isspace u = u ->
    tts_say (Utf8.encode u) = Some e ->
    is_ValueError (exc_class_of e) = true -> exc_str e = None ->
    post_shape tts_say (Run [Say (Utf8.encode u)] (Raise encode_error)).

(** ** More sample inputs *)

Module MoreSamples.

(** A settings file that defines [NAO_IP] twice, after a comment. *)
Definition comment_line : pystr := Samples.line "# robot address".
Definition first_ip_line : pystr := Samples.line "NAO_IP=10.0.0.7".
Definition second_ip_line : pystr := Samples.line "NAO_IP=10.0.0.8".

Definition first_ip : environ := {[ py "NAO_IP" := Unicode (py "10.0.0.7") ]}.

(** A file system with the SDK directory and its [lib], and the POSIX
    [os.path.join] for a directory name without a final slash. *)
Definition sdk_dir : text := Unicode (py "/opt/pynaoqi").

Definition isdir (p : text) : bool :=
  bool_decide (chars p = py "/opt/pynaoqi")
  || bool_decide (chars p = py "/opt/pynaoqi/lib").

Definition path_join (a b : text) : text :=
  match a with
  | Str x => Str (x ++ py "/" ++ chars b)
  | Unicode x => Unicode (x ++ py "/" ++ chars b)
  end.

Definition sys_path : list text := [Str (py "/usr/lib/python2.7")].

(** [json.loads] on a body whose text is three blanks, and on a body that
    is no JSON. *)
Definition blank_body : pystr := pyq "{'text': '   '}".
Definition junk_body : pystr := py "not-json".

Definition no_json : exn :=
  new_exn ValueError (py "No JSON object could be decoded").

Definition loads (raw : pystr) : result value :=
  if bool_decide (raw = blank_body) then
    Ok (VDict [(VUnicode (py "text"), VUnicode (py "   "))])
  else if bool_decide (raw = junk_body) then Raise no_json
  else Samples.loads raw.

(** The UTF-8 bytes of U+D55C, and a parser that hands the string of a
    body back as the bytes it found. *)
Definition hangul_bytes : pystr := [0xED; 0x95; 0x9C].
Definition hangul_body : pystr := pyq "{'text': '" ++ hangul_bytes ++ pyq "'}".

Definition loads_raw (raw : pystr) : result value :=
  if bool_decide (raw = hangul_body) then
    Ok (VDict [(VUnicode (py "text"), VStr hangul_bytes)])
  else Raise no_json.

(** Two bytes that are no UTF-8 and have no character in the sample CP949
    table, and a parser that hands them back as a [str]. *)
Definition dropped_bytes : pystr := [0xFF; 0x41].
Definition dropped_body : pystr :=
  pyq "{'text': '" ++ dropped_bytes ++ pyq "'}".

Definition loads_dropped (raw : pystr) : result value :=
  if bool_decide (raw = dropped_body) then
    Ok (VDict [(VUnicode (py "text"), VStr dropped_bytes)])
  else Raise no_json.

(** [ValueError(u'\xe9')]: an exception whose text [str] cannot give. *)
Definition unprintable : exn :=
  Exn ValueError None (py "ValueError(u'\xe9',)").

End MoreSamples.

(** * Properties *)

(** ** The model at a few inputs *)

Example utf8_hello : Utf8.decode (Utf8.encode (py "hello")) = Some (py "hello").
Proof. reflexivity. Qed.

Example utf8_hangul : Utf8.encode [0xD55C] = [0xED; 0x95; 0x9C].
Proof. reflexivity. Qed.

Example utf8_pair :
  Utf8.encode [0xD83D; 0xDE00] = [0xF0; 0x9F; 0x98; 0x80]
  /\ Utf8.decode [0xF0; 0x9F; 0x98; 0x80] = Some [0x1F600].
Proof. split; reflexivity. Qed.

Example utf8_rejects_cp949 : Utf8.decode [0xC7; 0xD1] = None.
Proof. reflexivity. Qed.

Example strip_both_ends :
  strip unicode_isspace (py "  hello world ") = py "hello world".
Proof. reflexivity. Qed.

Example int_forms :
  (parse_int (py " +12 "), parse_int (py "-7"), parse_int (py "1.5"),
   parse_int (py "- 1"), parse_int (py "")) = (Some 12, Some (-7), None, Some (-1), None).
Proof. reflexivity. Qed.

Example int_errors :
  py_int (py "  12a") =
    Raise (new_exn ValueError (py "invalid literal for int() with base 10: '12a'"))
  /\ py_int [49; 0; 50] =
    Raise (new_exn ValueError (py "null byte in argument for int()"))
  /\ py_int [120; 0; 50] =
    Raise (new_exn ValueError (py "invalid literal for int() with base 10: 'x'")).
Proof. repeat split; reflexivity. Qed.

Example request_lines :
  parse_request (py "GET /health HTTP/1.1" ++ [13; 10])
  = Accepted (py "GET") (py "/health") (py "HTTP/1.1")
  /\ parse_request (py "GET /health" ++ [10])
  = Accepted (py "GET") (py "/health") (py "HTTP/0.9")
  /\ parse_request (py "POST /say" ++ [10])
  = Refused 400 (py "Bad HTTP/0.9 request type ('POST')")
  /\ parse_request (py "GET /health HTTP/2.0" ++ [13; 10])
  = Refused 505 (py "Invalid HTTP Version (2.0)")
  /\ parse_request (py "GET /health HTTP/1.x" ++ [13; 10])
  = Refused 400 (py "Bad request version ('HTTP/1.x')")
  /\ parse_request (py "GET /a b HTTP/1.1" ++ [13; 10])
  = Refused 400 (py "Bad request syntax ('GET /a b HTTP/1.1')")
  /\ parse_request [13; 10] = Blank.
Proof. repeat split; reflexivity. Qed.

Example repr_plain : py_repr (py "abc") = py "'abc'".
Proof. reflexivity. Qed.

Example cp949_drops :
  cp949_decode_ignore Samples.table [0x41; 0xC7; 0xD1; 0xC7; 0xFE; 0x42; 0xC7]
  = [0x41; 0xD55C; 0x42].
Proof. reflexivity. Qed.

Example health :
  handle_one_request Samples.loads Samples.table Samples.backend_ok
    (py "GET /health HTTP/1.1" ++ [13; 10]) None []
  = Run [LogRequest 200;
         Respond (Response 200 json_type
                    (Json (VDict [ok_ true; service_ (py "nao_bridge")])))] (Ok tt).
Proof. vm_compute. reflexivity. Qed.

Example missing_text :
  do_POST Samples.loads Samples.table Samples.backend_ok
    (Request (py "POST") (py "/say") (py "HTTP/1.1") None [])
  = Run [LogRequest 400;
         Respond (Response 400 json_type
                    (Json (VDict [ok_ false; msg_ (py "text is required")])))] (Ok tt).
Proof. vm_compute. reflexivity. Qed.

Example unprintable_backend_error :
  do_POST Samples.loads Samples.table
    (Samples.backend_raises MoreSamples.unprintable)
    (Samples.post_say (py "17") Samples.hello_body)
  = Run [Say (py "hello")] (Raise encode_error).
Proof. vm_compute. reflexivity. Qed.

Example head_request :
  handle_one_request Samples.loads Samples.table Samples.backend_ok
    (py "HEAD /health HTTP/1.0" ++ [13; 10]) None []
  = Run [LogError 501 (py "Unsupported method ('HEAD')"); LogRequest 501;
         Respond (Response 501 (py "text/html") NoBody)] (Ok tt).
Proof. vm_compute. reflexivity. Qed.

(** ** UTF-8: decoding undoes encoding *)
Section Utf8Facts.
Import Utf8.

Lemma below_forallb (f : Z -> bool) (n : nat) :
  forallb f (List.map Z.of_nat (seq 0 n)) = true ->
  forall y, 0 <= y < Z.of_nat n -> f y = true.
Proof.
  intros H y Hy.
  rewrite forallb_forall in H. apply H.
  rewrite <- (Z2Nat.id y) by lia.
  apply in_map, in_seq. lia.
Qed.

(** A fact about every [y] below a small bound, checked value by value. *)
Ltac by_values f n :=
  let Hy := fresh "Hy" in
  intros Hy;
  lazymatch goal with
  | |- @eq Z _ _ => apply Z.eqb_eq
  | _ => idtac
  end;
  apply (below_forallb f n); [reflexivity | lia].

Lemma lor_cont y : 0 <= y < 64 -> Z.lor 0x80 y = 0x80 + y.
Proof. by_values (fun y => Z.lor 0x80 y =? 0x80 + y) 64%nat. Qed.

Lemma lor_lead2 y : 0 <= y < 32 -> Z.lor 0xC0 y = 0xC0 + y.
Proof. by_values (fun y => Z.lor 0xC0 y =? 0xC0 + y) 32%nat. Qed.

Lemma lor_lead3 y : 0 <= y < 16 -> Z.lor 0xE0 y = 0xE0 + y.
Proof. by_values (fun y => Z.lor 0xE0 y =? 0xE0 + y) 16%nat. Qed.

Lemma lor_lead4 y : 0 <= y < 8 -> Z.lor 0xF0 y = 0xF0 + y.
Proof. by_values (fun y => Z.lor 0xF0 y =? 0xF0 + y) 8%nat. Qed.

Lemma is_cont_add y : 0 <= y < 64 -> is_cont (0x80 + y) = true.
Proof. by_values (fun y => is_cont (0x80 + y)) 64%nat. Qed.

Lemma land_cont y : 0 <= y < 64 -> Z.land (0x80 + y) 0x3F = y.
Proof. by_values (fun y => Z.land (0x80 + y) 0x3F =? y) 64%nat. Qed.

Lemma land_lead2 y : 0 <= y < 32 -> Z.land (0xC0 + y) 0x1F = y.
Proof. by_values (fun y => Z.land (0xC0 + y) 0x1F =? y) 32%nat. Qed.

Lemma land_lead3 y : 0 <= y < 16 -> Z.land (0xE0 + y) 0x0F = y.
Proof. by_values (fun y => Z.land (0xE0 + y) 0x0F =? y) 16%nat. Qed.

Lemma land_lead4 y : 0 <= y < 8 -> Z.land (0xF0 + y) 0x07 = y.
Proof. by_values (fun y => Z.land (0xF0 + y) 0x07 =? y) 8%nat. Qed.

Lemma code_length_spec b :
  (b < 0x80 -> code_length b = 1) /\
  (0xC2 <= b < 0xE0 -> code_length b = 2) /\
  (0xE0 <= b < 0xF0 -> code_length b = 3) /\
  (0xF0 <= b < 0xF5 -> code_length b = 4).
Proof.
  unfold code_length.
  repeat match goal with |- context [?x <? ?y] => destruct (Z.ltb_spec x y) end;
    repeat split; intros; try reflexivity; lia.
Qed.

(** Shifts and masks as quotients and remainders. *)
Ltac bits_to_arith :=
  rewrite ?Z.shiftr_div_pow2, ?Z.shiftl_mul_pow2 by lia;
  change 0x3F with (Z.ones 6);
  rewrite ?Z.land_ones by lia;
  change (2 ^ 6) with 64; change (2 ^ 12) with 4096; change (2 ^ 18) with 262144.

(** One character: its bytes decode to it, whatever follows. *)
Lemma decode_encode_char ch rest :
  0 <= ch < 0x110000 ->
  decode (encode_char ch ++ rest) = cons ch <$> decode rest.
Proof.
  unfold encode_char. intros Hch.
  destruct (Z.ltb_spec ch 0x80) as [H1|H1].
  { cbn [app decode]. rewrite (proj1 (code_length_spec ch)) by lia. reflexivity. }
  destruct (Z.ltb_spec ch 0x800) as [H2|H2].
  { bits_to_arith.
    pose proof (Z.div_mod ch 64 ltac:(lia)) as E.
    pose proof (Z.mod_pos_bound ch 64 ltac:(lia)) as B.
    rewrite lor_lead2, lor_cont by lia.
    cbn [app decode].
    rewrite (proj1 (proj2 (code_length_spec _))) by lia.
    rewrite is_cont_add by lia.
    rewrite land_lead2, land_cont by lia.
    rewrite Z.shiftl_mul_pow2 by lia. change (2 ^ 6) with 64.
    replace (ch / 64 * 64 + ch mod 64) with ch by lia. reflexivity. }
  destruct (Z.ltb_spec ch 0x10000) as [H3|H3].
  { bits_to_arith.
    pose proof (Z.div_mod ch 64 ltac:(lia)) as E.
    pose proof (Z.mod_pos_bound ch 64 ltac:(lia)) as B.
    pose proof (Z.div_mod (ch / 64) 64 ltac:(lia)) as E'.
    pose proof (Z.mod_pos_bound (ch / 64) 64 ltac:(lia)) as B'.
    assert (ch / 4096 = ch / 64 / 64) as E4
      by (rewrite Z.div_div by lia; reflexivity).
    rewrite E4 in *.
    rewrite lor_lead3, !lor_cont by lia.
    cbn [app decode].
    rewrite (proj1 (proj2 (proj2 (code_length_spec _)))) by lia.
    rewrite !is_cont_add by lia.
    rewrite land_lead3, !land_cont by lia.
    rewrite !Z.shiftl_mul_pow2 by lia.
    change (2 ^ 6) with 64; change (2 ^ 12) with 4096.
    replace ((0xE0 + ch / 64 / 64 =? 0xE0) && (0x80 + ch / 64 mod 64 <? 0xA0))
      with false.
    2:{ symmetry. apply andb_false_iff.
        destruct (Z.eqb_spec (0xE0 + ch / 64 / 64) 0xE0); [right | left; reflexivity].
        apply Z.ltb_ge. lia. }
    cbn [andb negb].
    replace (ch / 64 / 64 * 4096 + ch / 64 mod 64 * 64 + ch mod 64) with ch by lia.
    reflexivity. }
  bits_to_arith.
  pose proof (Z.div_mod ch 64 ltac:(lia)) as E.
  pose proof (Z.mod_pos_bound ch 64 ltac:(lia)) as B.
  pose proof (Z.div_mod (ch / 64) 64 ltac:(lia)) as E'.
  pose proof (Z.mod_pos_bound (ch / 64) 64 ltac:(lia)) as B'.
  pose proof (Z.div_mod (ch / 64 / 64) 64 ltac:(lia)) as E''.
  pose proof (Z.mod_pos_bound (ch / 64 / 64) 64 ltac:(lia)) as B''.
  assert (ch / 4096 = ch / 64 / 64) as E4
    by (rewrite Z.div_div by lia; reflexivity).
  assert (ch / 262144 = ch / 64 / 64 / 64) as E5
    by (rewrite !Z.div_div by lia; reflexivity).
  rewrite E4, E5 in *.
  rewrite lor_lead4, !lor_cont by lia.
  cbn [app decode].
  rewrite (proj2 (proj2 (proj2 (code_length_spec _)))) by lia.
  rewrite !is_cont_add by lia.
  rewrite land_lead4, !land_cont by lia.
  rewrite !Z.shiftl_mul_pow2 by lia.
  change (2 ^ 6) with 64; change (2 ^ 12) with 4096; change (2 ^ 18) with 262144.
  replace ((0xF0 + ch / 64 / 64 / 64 =? 0xF0) && (0x80 + ch / 64 / 64 mod 64 <? 0x90))
    with false.
  2:{ symmetry. apply andb_false_iff.
      destruct (Z.eqb_spec (0xF0 + ch / 64 / 64 / 64) 0xF0); [right | left; reflexivity].
      apply Z.ltb_ge. lia. }
  replace ((0xF0 + ch / 64 / 64 / 64 =? 0xF4) && (0x8F <? 0x80 + ch / 64 / 64 mod 64))
    with false.
  2:{ symmetry. apply andb_false_iff.
      destruct (Z.eqb_spec (0xF0 + ch / 64 / 64 / 64) 0xF4); [right | left; reflexivity].
      apply Z.ltb_ge. lia. }
  cbn [andb negb].
  replace (ch / 64 / 64 / 64 * 262144 + ch / 64 / 64 mod 64 * 4096
           + ch / 64 mod 64 * 64 + ch mod 64) with ch by lia.
  reflexivity.
Qed.

Lemma scalar_not_high ch : scalar ch -> is_high_surrogate ch = false.
Proof.
  unfold scalar, is_high_surrogate. intros H.
  apply andb_false_iff.
  destruct (Z.leb_spec 0xD800 ch); [right; apply Z.leb_gt; lia | left; reflexivity].
Qed.

(** No pair is joined in a string of scalar values. *)
Lemma encode_scalars u : Forall scalar u -> encode u = flat_map encode_char u.
Proof.
  induction 1 as [|ch u Hch _ IH]; [reflexivity|].
  cbn [encode flat_map]. rewrite (scalar_not_high ch Hch). cbn [andb].
  destruct u as [|ch2 r]; [symmetry; apply app_nil_r|].
  rewrite IH. reflexivity.
Qed.

Lemma decode_encode u :
  Forall scalar u -> decode (encode u) = Some u.
Proof.
  intros Hu. rewrite (encode_scalars u Hu).
  induction Hu as [|ch u Hch _ IH]; [reflexivity|].
  cbn [flat_map].
  rewrite decode_encode_char by (unfold scalar in Hch; lia).
  rewrite IH. reflexivity.
Qed.

End Utf8Facts.

(** ** Facts about [strip] *)

Lemma lstrip_suffix sp s :
  exists p, s = p ++ lstrip sp s /\ forallb sp p = true.
Proof.
  induction s as [|c r [p [E F]]]; [exists []; auto|].
  cbn [lstrip]. destruct (sp c) eqn:Hc.
  - exists (c :: p). cbn. rewrite Hc, F. split; [congruence | reflexivity].
  - exists []. auto.
Qed.

Lemma lstrip_head sp s c r : lstrip sp s = c :: r -> sp c = false.
Proof.
  induction s as [|x s IH]; [discriminate|].
  cbn [lstrip]. destruct (sp x) eqn:Hx; [exact IH|].
  intros [= -> _]. exact Hx.
Qed.

Lemma lstrip_fixed sp s :
  match s with c :: _ => sp c = false | [] => True end -> lstrip sp s = s.
Proof. destruct s as [|c r]; [reflexivity|]. cbn. intros ->. reflexivity. Qed.

Lemma lstrip_idem sp s : lstrip sp (lstrip sp s) = lstrip sp s.
Proof.
  apply lstrip_fixed. destruct (lstrip sp s) eqn:E; [exact I|].
  eapply lstrip_head; eassumption.
Qed.

Lemma rstrip_prefix sp s :
  exists q, s = rstrip sp s ++ q.
Proof.
  unfold rstrip. destruct (lstrip_suffix sp (rev s)) as [p [E _]].
  exists (rev p). rewrite <- rev_app_distr, <- E. symmetry. apply rev_involutive.
Qed.

Lemma strip_idem sp s : strip sp (strip sp s) = strip sp s.
Proof.
  unfold strip.
  assert (L : lstrip sp (rstrip sp (lstrip sp s)) = rstrip sp (lstrip sp s)).
  { apply lstrip_fixed.
    destruct (rstrip_prefix sp (lstrip sp s)) as [q E].
    destruct (rstrip sp (lstrip sp s)) as [|c r]; [exact I|].
    eapply lstrip_head. exact E. }
  rewrite L. unfold rstrip. rewrite rev_involutive, lstrip_idem. reflexivity.
Qed.

Lemma forallb_lstrip f sp s : forallb f s = true -> forallb f (lstrip sp s) = true.
Proof.
  destruct (lstrip_suffix sp s) as [p [E _]]. intros H.
  rewrite E, forallb_app in H. apply andb_true_iff in H. tauto.
Qed.

Lemma forallb_rev_true f (s : pystr) : forallb f s = true -> forallb f (rev s) = true.
Proof.
  rewrite !forallb_forall. intros H x Hx. apply H, in_rev, Hx.
Qed.

Lemma is_ascii_strip sp s : is_ascii s = true -> is_ascii (strip sp s) = true.
Proof.
  unfold is_ascii, strip, rstrip. intros H.
  auto using forallb_rev_true, forallb_lstrip.
Qed.

Lemma parse_int_strip s : parse_int (strip str_isspace s) = parse_int s.
Proof. unfold parse_int. rewrite strip_idem. reflexivity. Qed.

(** ** [int]: what it accepts *)

Lemma lstrip_keeps (sp : Z -> bool) (c : Z) (s : pystr) :
  sp c = false -> In c s -> In c (lstrip sp s).
Proof.
  intros Hc Hin. destruct (lstrip_suffix sp s) as [p [E F]].
  rewrite E in Hin. apply in_app_or in Hin as [Hin|Hin]; [|exact Hin].
  rewrite forallb_forall in F. rewrite (F c Hin) in Hc. discriminate Hc.
Qed.

Lemma strip_keeps (sp : Z -> bool) (c : Z) (s : pystr) :
  sp c = false -> In c s -> In c (strip sp s).
Proof.
  intros Hc Hin. unfold strip, rstrip.
  apply in_rev. rewrite rev_involutive.
  apply lstrip_keeps; [exact Hc|]. apply in_rev. rewrite rev_involutive.
  apply lstrip_keeps; assumption.
Qed.

Lemma digits_value_digits (s : pystr) :
  forall acc n, digits_value acc s = Some n -> forallb is_digit s = true.
Proof.
  induction s as [|c r IH]; intros acc n; [reflexivity|].
  cbn [digits_value forallb]. destruct (is_digit c); [|discriminate].
  apply IH.
Qed.

(** A literal holds no NUL. *)
Lemma parse_int_no_nul (s : pystr) (n : Z) :
  parse_int s = Some n -> ~ In 0 s.
Proof.
  unfold parse_int. intros H Hin.
  apply (strip_keeps str_isspace 0 s eq_refl) in Hin.
  set (t := strip str_isspace s) in *.
  assert (G : forall (sign : Z) (r : pystr), In 0 r ->
            (if is_empty (lstrip str_isspace r) then None
             else (fun n => sign * n) <$> digits_value 0 (lstrip str_isspace r))
            = Some n -> False).
  { intros sign r Hr. apply (lstrip_keeps str_isspace 0 r eq_refl) in Hr.
    destruct (lstrip str_isspace r) as [|c ds] eqn:L; [discriminate|].
    cbn [is_empty].
    destruct (digits_value 0 (c :: ds)) as [m|] eqn:D; [|discriminate].
    intros _. apply digits_value_digits in D.
    rewrite forallb_forall in D. discriminate (D 0 Hr). }
  destruct t as [|c r]; [destruct Hin|].
  destruct (Z.eq_dec c 43) as [->|N1].
  { destruct Hin as [Hin|Hin]; [discriminate Hin|]. exact (G 1 r Hin H). }
  destruct (Z.eq_dec c 45) as [->|N2].
  { destruct Hin as [Hin|Hin]; [discriminate Hin|]. exact (G (-1) r Hin H). }
  apply (G 1 (c :: r) Hin).
  destruct c as [|q|q]; try exact H.
  repeat (destruct q as [q|q|]; try exact H; try congruence).
Qed.

Lemma until_nul_fixed (s : pystr) : ~ In 0 s -> until_nul s = s.
Proof.
  induction s as [|c r IH]; [reflexivity|].
  intros H. cbn [until_nul].
  destruct (Z.eqb_spec c 0) as [->|_]; [exfalso; apply H; left; reflexivity|].
  rewrite IH; [reflexivity|]. intros Hin. apply H. right. exact Hin.
Qed.

(** [int(s)] returns exactly on the literals. *)
Lemma py_int_Ok (s : pystr) (n : Z) : py_int s = Ok n <-> parse_int s = Some n.
Proof.
  unfold py_int. split.
  - destruct (parse_int (until_nul s)) as [m|] eqn:E; [|discriminate].
    destruct (bool_decide_reflect (until_nul s = s)) as [Hs|Hs]; [|discriminate].
    intros [= <-]. rewrite <- Hs. exact E.
  - intros H.
    rewrite (until_nul_fixed s (parse_int_no_nul s n H)), H.
    rewrite bool_decide_eq_true_2 by reflexivity. reflexivity.
Qed.

(** What [int(s)] raises is a [ValueError] with a message. *)
Lemma py_int_raises (s : pystr) (e : exn) :
  py_int s = Raise e ->
  exc_class_of e = ValueError /\ exists msg, e = new_exn ValueError msg.
Proof.
  unfold py_int. destruct (parse_int (until_nul s)).
  - destruct (bool_decide _); [discriminate|].
    intros [= <-]. split; [reflexivity | eexists; reflexivity].
  - intros [= <-]. split; [reflexivity | eexists; reflexivity].
Qed.

Lemma py_int_None (s : pystr) :
  parse_int s = None -> exists e, py_int s = Raise e.
Proof.
  intros H. destruct (py_int s) as [n|e] eqn:E; [|eauto].
  apply py_int_Ok in E. congruence.
Qed.

(** ** The loader only adds entries *)

Lemma c_string_chars (t : text) (b : pystr) :
  c_string t = Ok b -> b = chars t /\ py_str t = Ok b.
Proof.
  unfold c_string. destruct (py_str t) as [b'|] eqn:E; cbn; [|discriminate].
  destruct (existsb _ b'); [discriminate|]. intros [= ->].
  split; [|reflexivity].
  destruct t as [s|u]; cbn in *; [congruence|].
  destruct (is_ascii u); congruence.
Qed.

Lemma in_environ_false (k : text) (b : pystr) (env : environ) :
  c_string k = Ok b -> in_environ k env = false -> env !! b = None.
Proof.
  intros Hc Hin. apply c_string_chars in Hc as [-> Hs].
  destruct k as [s|u]; cbn in *.
  - apply bool_decide_eq_false in Hin. apply eq_None_not_Some, Hin.
  - destruct (is_ascii u); [|discriminate]. cbn in Hin.
    apply bool_decide_eq_false in Hin. apply eq_None_not_Some, Hin.
Qed.

(** What one loop turn does to the environment: nothing, or one new entry. *)
Lemma load_line_inv (env env' : environ) (raw : pystr) :
  load_line env raw = Ok env' ->
  env' = env \/
  exists k v b, c_string k = Ok b /\ c_string v = Ok (chars v)
                /\ env !! b = None /\ env' = <[b := v]> env.
Proof.
  unfold load_line.
  destruct (negb (truthy (decode_line raw)) || _ || _); [intros [= <-]; auto|].
  destruct (text_split1 61 (decode_line raw)) as [k v].
  destruct (truthy (text_strip k) && negb (in_environ (text_strip k) env)) eqn:G;
    [|intros [= <-]; auto].
  apply andb_true_iff in G as [_ G]. apply negb_true_iff in G.
  unfold environ_setitem.
  destruct (c_string (text_strip k)) as [b|] eqn:Ek; cbn; [|discriminate].
  destruct (c_string (text_strip v)) as [vb|] eqn:Ev; cbn; [|discriminate].
  intros [= <-]. right. exists (text_strip k), (text_strip v), b.
  repeat split; try assumption.
  - pose proof (c_string_chars _ _ Ev) as [E1 _]. subst vb. exact Ev.
  - eapply in_environ_false; eassumption.
Qed.

Lemma load_line_keeps (env env' : environ) (raw k : pystr) (v : text) :
  load_line env raw = Ok env' -> env !! k = Some v -> env' !! k = Some v.
Proof.
  intros H Hk. apply load_line_inv in H as [->|(k0 & v0 & b & _ & _ & Hb & ->)];
    [assumption|].
  rewrite lookup_insert_ne; [assumption | congruence].
Qed.

Lemma load_lines_keeps (lines : list pystr) :
  forall (env env' : environ) (k : pystr) (v : text),
  load_lines lines env = Ok env' -> env !! k = Some v -> env' !! k = Some v.
Proof.
  induction lines as [|raw rest IH]; cbn [load_lines]; intros env env' k v.
  - intros [= <-]. auto.
  - destruct (load_line env raw) as [env1|] eqn:E; cbn; [|discriminate].
    intros H Hk. eapply IH; [exact H|]. eapply load_line_keeps; eassumption.
Qed.

Lemma load_dotenv_strict_keeps (p : pystr) (f : dotenv_file)
    (env env' : environ) (k : pystr) (v : text) :
  load_dotenv_strict p f env = Ok env' -> env !! k = Some v -> env' !! k = Some v.
Proof.
  destruct f as [|e|lines]; cbn.
  - discriminate.
  - destruct (is_Exception _); discriminate.
  - apply load_lines_keeps.
Qed.

(** ** Values in the environment can be read as [str] *)

Lemma str_valued_readable (env : environ) : str_valued env -> readable env.
Proof. intros H k v Hk. destruct (H k v Hk) as [b ->]. reflexivity. Qed.

Lemma load_line_readable (env env' : environ) (raw : pystr) :
  load_line env raw = Ok env' -> readable env -> readable env'.
Proof.
  intros H R. apply load_line_inv in H as [->|(k0 & v0 & b & _ & Hv & _ & ->)];
    [assumption|].
  intros k v. destruct (decide (b = k)) as [->|Hne].
  - rewrite lookup_insert_eq. intros [= <-].
    apply c_string_chars in Hv. tauto.
  - rewrite lookup_insert_ne by assumption. apply R.
Qed.

Lemma load_lines_readable (lines : list pystr) : forall (env env' : environ),
  load_lines lines env = Ok env' -> readable env -> readable env'.
Proof.
  induction lines as [|raw rest IH]; cbn [load_lines]; intros env env'.
  - intros [= <-]. auto.
  - destruct (load_line env raw) as [env1|] eqn:E; cbn; [|discriminate].
    intros H R. eapply IH; [exact H|]. eapply load_line_readable; eassumption.
Qed.

Lemma load_dotenv_strict_readable (p : pystr) (f : dotenv_file)
    (env env' : environ) :
  load_dotenv_strict p f env = Ok env' -> readable env -> readable env'.
Proof.
  destruct f as [|e|lines]; cbn.
  - discriminate.
  - destruct (is_Exception _); discriminate.
  - apply load_lines_readable.
Qed.

Lemma py_str_strip (v : text) : py_str v = Ok (chars v) ->
  py_str (text_strip v) = Ok (chars (text_strip v)).
Proof.
  destruct v as [b|u]; cbn; [reflexivity|].
  destruct (is_ascii u) eqn:E; [|discriminate]. intros _.
  rewrite is_ascii_strip by assumption. reflexivity.
Qed.

(** ** The required-key gate *)

Lemma unset_false (env : environ) (k : pystr) :
  unset env k = false -> exists v, env !! k = Some v /\ truthy v = true.
Proof.
  unfold unset. destruct (env !! k) as [v|]; [|discriminate].
  intros H. exists v. split; [reflexivity|]. destruct (truthy v); auto.
Qed.

Lemma missing_nil (env : environ) (k : pystr) :
  missing env = [] -> In k REQUIRED_KEYS ->
  exists v, env !! k = Some v /\ truthy v = true.
Proof.
  intros Hm Hk. apply unset_false.
  destruct (unset env k) eqn:E; [|reflexivity].
  assert (In k (missing env)) as Hin by (apply filter_In; auto).
  rewrite Hm in Hin. destruct Hin.
Qed.

Lemma py_int_class (s : pystr) (e : exn) :
  py_int s = Raise e -> exc_class_of e = ValueError.
Proof. intros H. apply py_int_raises in H. tauto. Qed.

Lemma py_int_fails (s : pystr) :
  parse_int s = None -> exists e, py_int s = Raise e /\ exc_class_of e = ValueError.
Proof.
  intros H. destruct (py_int_None s H) as [e He].
  exists e. split; [exact He | eapply py_int_class; exact He].
Qed.

(** One step of a [result] computation. *)
Ltac run_result :=
  unfold mbind, result_bind, fmap, result_fmap, mret, result_ret; cbv beta iota.

(** What a successful [read_config] read, entry by entry. *)
Lemma read_config_ok (env : environ) (cfg : config) :
  read_config env = Ok cfg ->
  exists sdk ip port bind_ip bind_port,
    env !! py "NAO_SDK_PATH" = Some sdk /\
    env !! py "NAO_IP" = Some ip /\
    env !! py "NAO_PORT" = Some port /\
    env !! py "BRIDGE_BIND_IP" = Some bind_ip /\
    env !! py "BRIDGE_BIND_PORT" = Some bind_port /\
    NAO_SDK_PATH cfg = text_strip sdk /\
    py_str (text_strip ip) = Ok (NAO_IP cfg) /\
    (s ← py_str port; py_int (strip str_isspace s)) = Ok (NAO_PORT cfg) /\
    py_str (text_strip bind_ip) = Ok (BRIDGE_BIND_IP cfg) /\
    (s ← py_str bind_port; py_int (strip str_isspace s)) = Ok (BRIDGE_BIND_PORT cfg).
Proof.
  unfold read_config, environ_getitem.
  destruct (missing env); [|discriminate].
  destruct (env !! py "NAO_SDK_PATH") as [sdk|]; run_result; [|discriminate].
  destruct (env !! py "NAO_IP") as [ip|]; run_result; [|discriminate].
  destruct (py_str (text_strip ip)) as [ip_s|] eqn:E1; run_result; [|discriminate].
  destruct (env !! py "NAO_PORT") as [port|]; run_result; [|discriminate].
  destruct (py_str port) as [port_s|] eqn:E2; run_result; [|discriminate].
  destruct (py_int (strip str_isspace port_s)) as [port_n|] eqn:E3; run_result;
    [|discriminate].
  destruct (env !! py "BRIDGE_BIND_IP") as [bind_ip|]; run_result; [|discriminate].
  destruct (py_str (text_strip bind_ip)) as [bind_ip_s|] eqn:E4; run_result;
    [|discriminate].
  destruct (env !! py "BRIDGE_BIND_PORT") as [bind_port|]; run_result; [|discriminate].
  destruct (py_str bind_port) as [bind_port_s|] eqn:E5; run_result; [|discriminate].
  destruct (py_int (strip str_isspace bind_port_s)) as [bind_port_n|] eqn:E6; run_result;
    [|discriminate].
  intros [= <-]. exists sdk, ip, port, bind_ip, bind_port.
  rewrite ?E2, ?E5. run_result.
  repeat split; assumption.
Qed.

Lemma startup_ok (p : pystr) (f : dotenv_file) (env env' : environ)
    (cfg : config) :
  startup p f env = Ok (env', cfg) ->
  load_dotenv_strict p f env = Ok env' /\ read_config env' = Ok cfg.
Proof.
  unfold startup.
  destruct (load_dotenv_strict p f env) as [e1|]; run_result; [|discriminate].
  destruct (read_config e1) as [c|] eqn:E; run_result; [|discriminate].
  intros [= <- <-]. auto.
Qed.

(** C4. When, after the settings file was loaded, some of the five required
    keys are absent from the environment or empty, start-up ends with an
    [EnvironmentError] whose message lists the keys of [missing]: exactly
    the required keys that are absent or empty, all of them, in the order
    of [REQUIRED_KEYS]. *)
Theorem missing_keys_all_reported (dotenv_path : pystr) (f : dotenv_file)
    (env env' : environ) :
  load_dotenv_strict dotenv_path f env = Ok env' ->
  missing env' <> [] ->
  startup dotenv_path f env =
    Raise (new_exn EnvironmentError
             (py "Missing required env keys in .env: "
              ++ join (py ", ") (missing env')))
  /\ forall k : pystr,
       In k (missing env') <->
       In k REQUIRED_KEYS /\
       (env' !! k = None \/ exists v, env' !! k = Some v /\ chars v = []).
Proof.
  intros Hload Hmiss. split.
  - unfold startup. rewrite Hload. run_result. unfold read_config.
    destruct (missing env'); [contradiction | reflexivity].
  - intros k. unfold missing. rewrite filter_In. unfold unset, truthy.
    split; intros [Hk H]; (split; [exact Hk|]).
    + destruct (env' !! k) as [v|]; [right | left; reflexivity].
      exists v. split; [reflexivity|].
      destruct (chars v); [reflexivity | discriminate].
    + destruct H as [->|[v [-> Hv]]]; [reflexivity|]. rewrite Hv. reflexivity.
Qed.

(** C6. An entry the process environment already has is not overwritten
    by the loader, whatever the settings file says about its key: after
    loading it still holds its ambient value, and the configuration field
    of a required key is computed from that ambient value. *)
Theorem ambient_entry_wins (dotenv_path : pystr) (f : dotenv_file)
    (env env' : environ) (k : pystr) (v : text) :
  load_dotenv_strict dotenv_path f env = Ok env' ->
  env !! k = Some v ->
  env' !! k = Some v /\
  forall cfg : config,
    startup dotenv_path f env = Ok (env', cfg) ->
    (k = py "NAO_SDK_PATH" -> NAO_SDK_PATH cfg = text_strip v) /\
    (k = py "NAO_IP" -> py_str (text_strip v) = Ok (NAO_IP cfg)) /\
    (k = py "NAO_PORT" ->
       (s ← py_str v; py_int (strip str_isspace s)) = Ok (NAO_PORT cfg)) /\
    (k = py "BRIDGE_BIND_IP" -> py_str (text_strip v) = Ok (BRIDGE_BIND_IP cfg)) /\
    (k = py "BRIDGE_BIND_PORT" ->
       (s ← py_str v; py_int (strip str_isspace s)) = Ok (BRIDGE_BIND_PORT cfg)).
Proof.
  intros Hload Hk.
  pose proof (load_dotenv_strict_keeps _ _ _ _ _ _ Hload Hk) as Hk'.
  split; [exact Hk'|].
  intros cfg Hs. apply startup_ok in Hs as [_ Hc].
  apply read_config_ok in Hc
    as (sdk & ip & port & bip & bport
        & H1 & H2 & H3 & H4 & H5 & F1 & F2 & F3 & F4 & F5).
  repeat split; intros ->; congruence.
Qed.

(** C5, as amended.  When the value of [NAO_PORT] or [BRIDGE_BIND_PORT] is
    not an integer literal, start-up fails.  If a required key is absent or
    empty, it fails at the required-key gate with the [EnvironmentError]
    of line 64, whose message lists the missing keys; when all required
    keys are set, it fails during the conversion of lines 69-71 with the
    [ValueError] that [int] raises on the stripped value of one of the two
    ports, not with the [EnvironmentError] the module raises for its other
    configuration failures. *)
Theorem nonnumeric_port_raises_ValueError (dotenv_path : pystr) (f : dotenv_file)
    (env env' : environ) (k : pystr) (v : text) :
  str_valued env ->
  load_dotenv_strict dotenv_path f env = Ok env' ->
  k = py "NAO_PORT" \/ k = py "BRIDGE_BIND_PORT" ->
  env' !! k = Some v ->
  parse_int (chars v) = None ->
  exists e,
    startup dotenv_path f env = Raise e /\
    match missing env' with
    | [] =>
      exc_class_of e = ValueError /\
      exists (k' : pystr) (v' : text),
        (k' = py "NAO_PORT" \/ k' = py "BRIDGE_BIND_PORT") /\
        env' !! k' = Some v' /\
        py_int (strip str_isspace (chars v')) = Raise e
    | _ :: _ =>
      e = new_exn EnvironmentError
            (py "Missing required env keys in .env: "
             ++ join (py ", ") (missing env'))
    end.
Proof.
  intros Hamb Hload Hk Hv Hbad.
  destruct (missing env') as [|k0 ks] eqn:Hmiss.
  2:{ eexists. split; [|reflexivity].
      unfold startup. rewrite Hload. run_result.
      unfold read_config. rewrite Hmiss. reflexivity. }
  pose proof (load_dotenv_strict_readable _ _ _ _ Hload
                (str_valued_readable _ Hamb)) as R.
  destruct (missing_nil env' (py "NAO_SDK_PATH") Hmiss) as [sdk [H1 _]];
    [cbn; tauto|].
  destruct (missing_nil env' (py "NAO_IP") Hmiss) as [ip [H2 _]];
    [cbn; tauto|].
  destruct (missing_nil env' (py "NAO_PORT") Hmiss) as [port [H3 _]];
    [cbn; tauto|].
  destruct (missing_nil env' (py "BRIDGE_BIND_IP") Hmiss) as [bip [H4 _]];
    [cbn; tauto|].
  destruct (missing_nil env' (py "BRIDGE_BIND_PORT") Hmiss) as [bport [H5 _]];
    [cbn; tauto|].
  unfold startup. rewrite Hload. run_result. unfold read_config, environ_getitem.
  rewrite Hmiss, H1, H2, H3, H4, H5. run_result.
  rewrite (py_str_strip ip (R _ _ H2)). run_result.
  rewrite (R _ _ H3). run_result.
  destruct (py_int (strip str_isspace (chars port))) as [n|e] eqn:E3; run_result.
  2:{ exists e. split; [reflexivity|].
      split; [eapply py_int_class; eassumption|].
      exists (py "NAO_PORT"), port. auto. }
  destruct Hk as [-> | ->].
  { assert (port = v) as -> by congruence.
    apply py_int_Ok in E3. rewrite parse_int_strip, Hbad in E3. discriminate. }
  assert (bport = v) as -> by congruence.
  rewrite (py_str_strip bip (R _ _ H4)). run_result.
  rewrite (R _ _ H5). run_result.
  destruct (py_int_fails (strip str_isspace (chars v))) as [e [E5 He]].
  { rewrite parse_int_strip. exact Hbad. }
  rewrite E5. run_result. exists e. split; [reflexivity|].
  split; [exact He|]. exists (py "BRIDGE_BIND_PORT"), v. auto.
Qed.

(** ** The message names the list

    Two lists of missing keys with the same message are the same list. *)

Lemma filter_in_sublists {A} (f : A -> bool) (l : list A) :
  In (List.filter f l) (sublists l).
Proof.
  induction l as [|x r IH]; cbn [List.filter sublists]; [left; reflexivity|].
  apply in_or_app. destruct (f x); [left | right; exact IH].
  apply in_map, IH.
Qed.

Lemma join_required_inj (a b : list pystr) :
  In a (sublists REQUIRED_KEYS) -> In b (sublists REQUIRED_KEYS) ->
  join (py ", ") a = join (py ", ") b -> a = b.
Proof.
  assert (forallb (fun a => forallb (fun b =>
            implb (bool_decide (join (py ", ") a = join (py ", ") b))
                  (bool_decide (a = b)))
            (sublists REQUIRED_KEYS)) (sublists REQUIRED_KEYS) = true) as H
    by (vm_compute; reflexivity).
  intros Ha Hb E.
  rewrite forallb_forall in H. specialize (H a Ha).
  rewrite forallb_forall in H. specialize (H b Hb).
  rewrite (bool_decide_eq_true_2 _ E) in H. cbn in H.
  apply bool_decide_eq_true_1 in H. exact H.
Qed.

Lemma join_missing_inj (env1 env2 : environ) :
  join (py ", ") (missing env1) = join (py ", ") (missing env2) ->
  missing env1 = missing env2.
Proof. apply join_required_inj; apply filter_in_sublists. Qed.

(** ** The handler *)

(** Equations of the [run] monad. *)

Lemma bind_lift_Ok {A B} (a : A) (f : A -> run B) : (lift (Ok a) ≫= f) = f a.
Proof. unfold mbind, run_bind, lift. cbn. destruct (f a). reflexivity. Qed.

Lemma bind_lift_Raise {A B} (e : exn) (f : A -> run B) :
  (lift (Raise e) ≫= f) = lift (Raise e).
Proof. reflexivity. Qed.

Lemma try_except_lift_Raise {A} (e : exn) (h : exn -> run A) :
  try_except (lift (Raise e)) h = h e.
Proof. unfold try_except, lift. cbn. destruct (h e). reflexivity. Qed.

Lemma send_json_dumps (code : Z) (obj : value) :
  dumps_ok obj = true ->
  _send_json code obj = Run (reply (Response code json_type (Json obj))) (Ok tt).
Proof. unfold _send_json. intros ->. reflexivity. Qed.

Lemma str_exn_new (cls : exc_class) (msg : pystr) :
  str_exn (new_exn cls msg) = Ok msg.
Proof. reflexivity. Qed.

Section HandlerFacts.

Variable json_loads : pystr -> result value.
Variable cp949 : Z -> Z -> option Z.
Variable tts_say : pystr -> option exn.

(** A request that gets as far as the backend call. *)
Lemma do_POST_reaches_say (req : request) (data text : value) (text_u : pystr) :
  path req = py "/say" ->
  _read_json json_loads req = Ok data ->
  py_get data (py "text") = Ok text ->
  text <> VNone ->
  normalize cp949 text = Ok text_u ->
  text_u <> [] ->
  do_POST json_loads cp949 tts_say req =
    try_except (_ ← say tts_say (Utf8.encode text_u);
                _send_json 200 (VDict [ok_ true]))
               do_POST_except.
Proof.
  intros Hp Hr Hg Hn Hu Hne.
  unfold do_POST. rewrite Hp, bool_decide_eq_true_2 by reflexivity.
  rewrite Hr, bind_lift_Ok, Hg, bind_lift_Ok.
  destruct text; try contradiction; rewrite Hu, bind_lift_Ok.
  all: destruct text_u; [contradiction|]; reflexivity.
Qed.

(** A request whose [text] cannot be fetched or normalized. *)
Lemma do_POST_raises_before_say (req : request) (data : value) (e : exn) :
  path req = py "/say" ->
  _read_json json_loads req = Ok data ->
  py_get data (py "text") = Raise e \/
  (exists text, py_get data (py "text") = Ok text /\ text <> VNone
                /\ normalize cp949 text = Raise e) ->
  do_POST json_loads cp949 tts_say req = do_POST_except e.
Proof.
  intros Hp Hr H.
  unfold do_POST. rewrite Hp, bool_decide_eq_true_2 by reflexivity.
  rewrite Hr, bind_lift_Ok.
  destruct H as [Hg | (text & Hg & Hn & Hu)]; rewrite Hg.
  - rewrite bind_lift_Raise. apply try_except_lift_Raise.
  - rewrite bind_lift_Ok.
    destruct text; try contradiction; rewrite Hu, bind_lift_Raise.
    all: apply try_except_lift_Raise.
Qed.

Lemma do_POST_except_server_error (e : exn) :
  is_Exception (exc_class_of e) = true ->
  is_ValueError (exc_class_of e) = false ->
  do_POST_except e =
    Run [Stderr (py "[ERR ] do_POST /say: " ++ exc_repr e ++ [10]);
         LogRequest 500; Respond server_error] (Ok tt).
Proof.
  intros H1 H2. unfold do_POST_except. rewrite H1, H2.
  rewrite send_json_dumps by reflexivity. reflexivity.
Qed.

Lemma normalize_not_string (text : value) :
  is_string text = false ->
  normalize cp949 text = Raise (attribute_error text (py "decode")).
Proof. destruct text; try discriminate; reflexivity. Qed.

Lemma py_get_not_dict (data : value) (s : pystr) :
  is_dict data = false ->
  py_get data s = Raise (attribute_error data (py "get")).
Proof. destruct data; try discriminate; reflexivity. Qed.

(** C1. A POST to /say whose body parses to a JSON object with the string
    "hello" under "text" is answered 200 with the body [{"ok": true}], and
    the backend is called exactly once, with the UTF-8 bytes of the stripped
    text, when that call returns.  The run is the backend call, the line
    of the reply in the log, and the reply. *)
Theorem say_hello_ok (req : request) (items : list (value * value))
    (text : value) :
  path req = py "/say" ->
  _read_json json_loads req = Ok (VDict items) ->
  py_get (VDict items) (py "text") = Ok text ->
  text = VUnicode (py "hello") \/ text = VStr (py "hello") ->
  tts_say (Utf8.encode (py "hello")) = None ->
  do_POST json_loads cp949 tts_say req =
    Run [Say (Utf8.encode (strip unicode_isspace (py "hello")));
         LogRequest 200;
         Respond (Response 200 json_type (Json (VDict [ok_ true])))] (Ok tt)
  /\ Utf8.encode (strip unicode_isspace (py "hello")) = [104; 101; 108; 108; 111].
Proof.
  intros Hp Hr Hg Ht Hs. split; [|reflexivity].
  rewrite (do_POST_reaches_say req (VDict items) text (py "hello") Hp Hr Hg).
  - unfold try_except, mbind, run_bind, say. cbn [trace outcome app].
    change (strip unicode_isspace (py "hello")) with (py "hello").
    rewrite Hs. cbn [trace outcome app]. reflexivity.
  - destruct Ht as [-> | ->]; discriminate.
  - destruct Ht as [-> | ->]; reflexivity.
  - discriminate.
Qed.

Lemma normalize_str (s : pystr) :
  normalize cp949 (VStr s) =
    Ok (strip unicode_isspace
          (match Utf8.decode s with
           | Some u => u
           | None => cp949_decode_ignore cp949 s
           end)).
Proof.
  unfold normalize, decode_utf8, decode_cp949_ignore.
  destruct (Utf8.decode s); reflexivity.
Qed.

(** C2. Normalizing a byte string never raises: the result is the
    stripped UTF-8 decoding when the bytes decode, and otherwise the
    stripped CP949 decoding in which undecodable bytes are dropped. *)
Theorem normalize_bytes_total (s : pystr) :
  (exists text_u, normalize cp949 (VStr s) = Ok text_u) /\
  normalize cp949 (VStr s) =
    Ok (strip unicode_isspace
          (match Utf8.decode s with
           | Some u => u
           | None => cp949_decode_ignore cp949 s
           end)).
Proof.
  split; [eexists|]; apply normalize_str.
Qed.

Lemma say_calls_Say (p : pystr) (t : list event) :
  say_calls (Say p :: t) = p :: say_calls t.
Proof. reflexivity. Qed.

Lemma say_calls_send_json (code : Z) (obj : value) :
  say_calls (trace (_send_json code obj)) = [].
Proof. unfold _send_json. destruct (dumps_ok obj); reflexivity. Qed.

Lemma do_POST_except_ValueError (e : exn) :
  is_ValueError (exc_class_of e) = true ->
  do_POST_except e =
    match exc_str e with
    | Some msg => _send_json 400 (VDict [ok_ false; msg_ msg])
    | None => Run [] (Raise encode_error)
    end.
Proof.
  intros H. unfold do_POST_except, str_exn. rewrite H.
  destruct (exc_str e) as [msg|]; [|reflexivity].
  exact (bind_lift_Ok msg (fun msg => _send_json 400 (VDict [ok_ false; msg_ msg]))).
Qed.

Lemma outcome_send_json (code : Z) (obj : value) :
  outcome (_send_json code obj) = Ok tt.
Proof. unfold _send_json. destruct (dumps_ok obj); reflexivity. Qed.

Lemma say_calls_do_POST_except (e : exn) :
  say_calls (trace (do_POST_except e)) = [].
Proof.
  destruct (is_ValueError (exc_class_of e)) eqn:V.
  { rewrite (do_POST_except_ValueError e V).
    destruct (exc_str e); [apply say_calls_send_json | reflexivity]. }
  unfold do_POST_except. rewrite V.
  destruct (is_Exception _); [|reflexivity].
  unfold mbind, run_bind, emit. cbn [trace outcome app].
  apply say_calls_send_json.
Qed.

(** C3. For the UTF-8 encoding of a string [u] (of Unicode scalar values),
    normalization gives back [u] stripped of leading and trailing
    whitespace; when that is not empty, the one payload handed to the
    backend is its UTF-8 encoding. *)
Theorem normalize_utf8_roundtrip (u : pystr) :
  Forall Utf8.scalar u ->
  normalize cp949 (VStr (Utf8.encode u)) = Ok (strip unicode_isspace u)
  /\ forall (req : request) (data : value),
       path req = py "/say" ->
       _read_json json_loads req = Ok data ->
       py_get data (py "text") = Ok (VStr (Utf8.encode u)) ->
       strip unicode_isspace u <> [] ->
       say_calls (trace (do_POST json_loads cp949 tts_say req))
       = [Utf8.encode (strip unicode_isspace u)].
Proof.
  intros Hu.
  assert (N : normalize cp949 (VStr (Utf8.encode u)) = Ok (strip unicode_isspace u)).
  { rewrite normalize_str, decode_encode by assumption. reflexivity. }
  split; [exact N|].
  intros req data Hp Hr Hg Hne.
  rewrite (do_POST_reaches_say req data _ _ Hp Hr Hg ltac:(discriminate) N Hne).
  rewrite (send_json_dumps 200 (VDict [ok_ true])) by reflexivity.
  unfold try_except, mbind, run_bind, say, emit. cbn [trace outcome app].
  destruct (tts_say _) as [e|]; cbn [trace outcome app].
  - rewrite say_calls_Say, say_calls_do_POST_except. reflexivity.
  - reflexivity.
Qed.

(** C7, as amended.  When the backend call raises an exception that is an
    [Exception] but not a [ValueError], the handler writes the exception to
    the error stream and answers 500 with the fixed body
    [{"ok": false, "msg": "server error"}]; the base class logs that reply
    on the same stream.  A [ValueError] from the backend is taken by the
    first [except] clause instead: the handler writes nothing to the error
    stream itself, and when [str] gives the text of the exception, the
    reply is 400 with that text (or the fallback of [_send_json] when the
    text cannot be serialized); when [str] raises, its
    [UnicodeEncodeError] leaves [do_POST] and nothing is sent. *)
Theorem backend_failure_server_error (req : request) (data text : value)
    (text_u : pystr) (e : exn) :
  path req = py "/say" ->
  _read_json json_loads req = Ok data ->
  py_get data (py "text") = Ok text ->
  text <> VNone ->
  normalize cp949 text = Ok text_u ->
  text_u <> [] ->
  tts_say (Utf8.encode text_u) = Some e ->
  (is_Exception (exc_class_of e) = true ->
   is_ValueError (exc_class_of e) = false ->
   do_POST json_loads cp949 tts_say req =
     Run [Say (Utf8.encode text_u);
          Stderr (py "[ERR ] do_POST /say: " ++ exc_repr e ++ [10]);
          LogRequest 500;
          Respond server_error] (Ok tt))
  /\
  (is_ValueError (exc_class_of e) = true ->
   stderr_writes (trace (do_POST json_loads cp949 tts_say req)) = [] /\
   do_POST json_loads cp949 tts_say req =
     match exc_str e with
     | Some msg =>
       Run (Say (Utf8.encode text_u)
            :: reply (if dumps_ok (VDict [ok_ false; msg_ msg])
                      then bad_request msg else encode_error_response))
           (Ok tt)
     | None => Run [Say (Utf8.encode text_u)] (Raise encode_error)
     end).
Proof.
  intros Hp Hr Hg Hn Hu Hne Hs.
  rewrite (do_POST_reaches_say req data text text_u Hp Hr Hg Hn Hu Hne).
  unfold try_except, mbind, run_bind, say. rewrite Hs. cbn [trace outcome app].
  split.
  - intros He Hv. rewrite (do_POST_except_server_error e He Hv). reflexivity.
  - intros Hv. rewrite (do_POST_except_ValueError e Hv).
    destruct (exc_str e) as [msg|]; [|split; reflexivity].
    unfold _send_json.
    destruct (dumps_ok (VDict [ok_ false; msg_ msg])); split; reflexivity.
Qed.

Lemma parse_request_Refused (raw_requestline : pystr) (code : Z)
    (message : pystr) :
  parse_request raw_requestline = Refused code message ->
  code = 400 \/ code = 505.
Proof.
  unfold parse_request.
  destruct (py_split _) as [|w1 [|w2 [|w3 [|w4 ws]]]]; try discriminate;
    try (intros [= <- _]; left; reflexivity).
  - destruct (negb (bool_decide (w1 = py "GET"))); [|discriminate].
    intros [= <- _]. left. reflexivity.
  - destruct (negb (bool_decide (firstn 5 w3 = py "HTTP/")));
      [intros [= <- _]; left; reflexivity|].
    destruct (version_number w3) as [[major minor]|];
      [|intros [= <- _]; left; reflexivity].
    destruct ((2 <? major) || _); [|discriminate].
    intros [= <- _]. right. reflexivity.
Qed.

(** C8, as amended.  A GET or a POST to a path other than /health and
    /say, on a request line that the base class accepts, is answered 404
    with the body [{"ok": false, "msg": "not found"}].  An accepted request
    with any other method does not reach the handler's code, whatever its
    path: the base class answers it 501.  A request line that the base
    class refuses is answered by the base class with 400 or 505, a line
    without a word is not answered, and a line of more than 65536 bytes is
    answered 414. *)
Theorem unknown_path_not_found (raw_requestline : pystr)
    (content_length : option pystr) (rfile : pystr) :
  (65536 < Z.of_nat (length raw_requestline) ->
   handle_one_request json_loads cp949 tts_say
     raw_requestline content_length rfile
   = Run [LogError 414 (py "Request-URI Too Long"); LogRequest 414;
          Respond (Response 414 (py "text/html")
                     (ErrorPage (py "Request-URI Too Long")))] (Ok tt))
  /\
  (Z.of_nat (length raw_requestline) <= 65536 ->
   match parse_request raw_requestline with
   | Accepted command path version =>
     ((command = py "GET" \/ command = py "POST") ->
      path <> py "/health" -> path <> py "/say" ->
      handle_one_request json_loads cp949 tts_say
        raw_requestline content_length rfile
      = Run [LogRequest 404; Respond not_found] (Ok tt))
     /\
     (command <> py "GET" -> command <> py "POST" ->
      handle_one_request json_loads cp949 tts_say
        raw_requestline content_length rfile
      = Run [LogError 501 (py "Unsupported method ("
                           ++ py_repr command ++ py ")");
             LogRequest 501;
             Respond (Response 501 (py "text/html")
                        (if bool_decide (command = py "HEAD") then NoBody
                         else ErrorPage (py "Unsupported method ("
                                         ++ py_repr command ++ py ")")))]
            (Ok tt))
   | Refused code message =>
     (code = 400 \/ code = 505) /\
     handle_one_request json_loads cp949 tts_say
       raw_requestline content_length rfile
     = Run [LogError code message; LogRequest code;
            Respond (Response code (py "text/html") (ErrorPage message))]
           (Ok tt)
   | Blank =>
     handle_one_request json_loads cp949 tts_say
       raw_requestline content_length rfile
     = Run [] (Ok tt)
   end).
Proof.
  unfold handle_one_request. split.
  { intros H. rewrite (proj2 (Z.ltb_lt 65536 _) H). reflexivity. }
  intros Hlen. rewrite (proj2 (Z.ltb_ge 65536 _) Hlen).
  destruct raw_requestline as [|c0 line]; [reflexivity|].
  cbn [is_empty].
  destruct (parse_request (c0 :: line)) as [cmd pth ver|code message|]
    eqn:P; [|split; [eapply parse_request_Refused; exact P | reflexivity]
           |reflexivity].
  unfold dispatch. cbn [command]. split.
  - intros [-> | ->] Hh Hs.
    + rewrite bool_decide_eq_true_2 by reflexivity.
      unfold do_GET. cbn [path].
      rewrite bool_decide_eq_false_2 by assumption. reflexivity.
    + rewrite bool_decide_eq_false_2 by discriminate.
      rewrite bool_decide_eq_true_2 by reflexivity.
      unfold do_POST. cbn [path].
      rewrite bool_decide_eq_false_2 by assumption. reflexivity.
  - intros Hg Hp. rewrite !bool_decide_eq_false_2 by assumption.
    unfold send_error.
    destruct (decide (cmd = py "HEAD")) as [->|Hh].
    + rewrite !bool_decide_eq_true_2 by reflexivity. reflexivity.
    + rewrite !bool_decide_eq_false_2 by congruence. reflexivity.
Qed.

(** C10. A POST to /say whose body parses to a value that is not an
    object, or to an object whose "text" is neither null nor a string, is
    answered 500 with the server-error body (not 400): an [AttributeError]
    reaches the last [except] clause, and the backend is never called. *)
Theorem wrong_shape_server_error (req : request) (data : value) :
  path req = py "/say" ->
  _read_json json_loads req = Ok data ->
  is_dict data = false \/
  (exists text, py_get data (py "text") = Ok text /\ text <> VNone
                /\ is_string text = false) ->
  exists e : exn,
    exc_class_of e = AttributeError /\
    do_POST json_loads cp949 tts_say req =
      Run [Stderr (py "[ERR ] do_POST /say: " ++ exc_repr e ++ [10]);
           LogRequest 500; Respond server_error] (Ok tt) /\
    say_calls (trace (do_POST json_loads cp949 tts_say req)) = [].
Proof.
  intros Hp Hr H.
  assert (exists e, exc_class_of e = AttributeError /\
            do_POST json_loads cp949 tts_say req = do_POST_except e)
    as (e & Hc & ->).
  { destruct H as [Hd | (text & Hg & Hn & Hs)].
    - exists (attribute_error data (py "get")). split; [reflexivity|].
      apply (do_POST_raises_before_say req data _ Hp Hr). left.
      apply py_get_not_dict, Hd.
    - exists (attribute_error text (py "decode")). split; [reflexivity|].
      apply (do_POST_raises_before_say req data _ Hp Hr). right.
      exists text. auto using normalize_not_string. }
  exists e. split; [exact Hc|].
  rewrite do_POST_except_server_error by (rewrite Hc; reflexivity).
  split; reflexivity.
Qed.

End HandlerFacts.

(** C9. When [json.dumps] raises on the response object, [_send_json]
    sends the fixed fallback body with status 500, whatever status was
    asked for; 500 is also the status in the log. *)
Theorem send_json_encode_error (code : Z) (obj : value) :
  dumps_ok obj = false ->
  _send_json code obj =
    Run [LogRequest 500;
         Respond (Response 500 json_type
                    (Literal (pyq "{'ok':false,'msg':'encode error'}")))] (Ok tt).
Proof. unfold _send_json. intros ->. reflexivity. Qed.

(** ** The claims at sample inputs *)

Import Samples.

(** The hello request with a backend that returns. *)
Lemma say_hello_ok_witness :
  do_POST loads table backend_ok (post_say (py "17") hello_body) =
    Run [Say (Utf8.encode (strip unicode_isspace (py "hello")));
         LogRequest 200;
         Respond (Response 200 json_type (Json (VDict [ok_ true])))] (Ok tt)
  /\ Utf8.encode (strip unicode_isspace (py "hello")) = [104; 101; 108; 108; 111].
Proof.
  apply (say_hello_ok loads table backend_ok (post_say (py "17") hello_body)
           [(VUnicode (py "text"), VUnicode (py "hello"))]
           (VUnicode (py "hello"))).
  - reflexivity.
  - vm_compute. reflexivity.
  - reflexivity.
  - left. reflexivity.
  - reflexivity.
Defined.

(** The text [" hello "], handed over as UTF-8 bytes. *)
Lemma normalize_utf8_roundtrip_witness :
  normalize table (VStr (Utf8.encode (py " hello "))) = Ok (py "hello")
  /\ say_calls (trace (do_POST loads_str table backend_ok
                         (post_say (py "17") hello_body)))
     = [py "hello"].
Proof.
  destruct (normalize_utf8_roundtrip loads_str table backend_ok (py " hello "))
    as [N S].
  - change (py " hello ") with [32; 104; 101; 108; 108; 111; 32].
    repeat (constructor; [left; lia|]). constructor.
  - split; [exact N|].
    apply (S (post_say (py "17") hello_body)
             (VDict [(VUnicode (py "text"), VStr (Utf8.encode (py " hello ")))])).
    + reflexivity.
    + vm_compute. reflexivity.
    + reflexivity.
    + vm_compute. discriminate.
Defined.

(** A settings file with [NAO_IP] only, and an empty environment. *)
Lemma missing_keys_all_reported_witness :
  startup dotenv_path (Readable only_ip_lines) ∅ =
    Raise (new_exn EnvironmentError
             (py "Missing required env keys in .env: NAO_SDK_PATH, NAO_PORT, BRIDGE_BIND_IP, BRIDGE_BIND_PORT")).
Proof.
  refine (proj1 (missing_keys_all_reported dotenv_path (Readable only_ip_lines) ∅
                   {[ py "NAO_IP" := Unicode (py "10.0.0.7") ]} _ _)).
  - vm_compute. reflexivity.
  - vm_compute. discriminate.
Defined.

(** A complete settings file whose [NAO_PORT] is [abc]. *)
Lemma nonnumeric_port_raises_ValueError_witness :
  exists e, startup dotenv_path (Readable bad_port_lines) ∅ = Raise e
            /\ exc_class_of e = ValueError.
Proof.
  destruct (nonnumeric_port_raises_ValueError dotenv_path
              (Readable bad_port_lines) ∅ bad_port_loaded
              (py "NAO_PORT") (Unicode (py "abc"))) as [e [H C]].
  - intros k v H. rewrite lookup_empty in H. discriminate.
  - vm_compute. reflexivity.
  - left. reflexivity.
  - vm_compute. reflexivity.
  - vm_compute. reflexivity.
  - exists e. split; [exact H|].
    assert (M : missing bad_port_loaded = []) by (vm_compute; reflexivity).
    rewrite M in C. exact (proj1 C).
Defined.

(** C5 fails as stated: with [NAO_PORT=abc], start-up ends with a
    [ValueError], which is no [EnvironmentError]. *)
Lemma nonnumeric_port_not_EnvironmentError :
  startup dotenv_path (Readable bad_port_lines) ∅ =
    Raise (new_exn ValueError (py "invalid literal for int() with base 10: 'abc'"))
  /\ ~ (exists e, startup dotenv_path (Readable bad_port_lines) ∅ = Raise e
                  /\ exc_class_of e = EnvironmentError).
Proof.
  assert (E : startup dotenv_path (Readable bad_port_lines) ∅ =
    Raise (new_exn ValueError (py "invalid literal for int() with base 10: 'abc'")))
    by (vm_compute; reflexivity).
  split; [exact E|].
  intros [e [H C]]. rewrite E in H. injection H as <-. discriminate C.
Qed.

(** [NAO_IP] is set in the environment and in the settings file. *)
Lemma ambient_entry_wins_witness :
  loaded !! py "NAO_IP" = Some (Str (py "192.168.0.9"))
  /\ py_str (text_strip (Str (py "192.168.0.9"))) = Ok (NAO_IP loaded_config).
Proof.
  destruct (ambient_entry_wins dotenv_path (Readable full_lines) ambient loaded
              (py "NAO_IP") (Str (py "192.168.0.9"))) as [K C].
  - vm_compute. reflexivity.
  - vm_compute. reflexivity.
  - split; [exact K|].
    destruct (C loaded_config) as (_ & H & _).
    + vm_compute. reflexivity.
    + apply H. reflexivity.
Defined.

(** The hello request with a backend that raises a [RuntimeError]. *)
Lemma backend_failure_server_error_witness :
  do_POST loads table (backend_raises connection_lost)
          (post_say (py "17") hello_body) =
    Run [Say (Utf8.encode (py "hello"));
         Stderr (py "[ERR ] do_POST /say: " ++ exc_repr connection_lost ++ [10]);
         LogRequest 500;
         Respond server_error] (Ok tt).
Proof.
  destruct (backend_failure_server_error loads table
              (backend_raises connection_lost)
              (post_say (py "17") hello_body)
              (VDict [(VUnicode (py "text"), VUnicode (py "hello"))])
              (VUnicode (py "hello")) (py "hello") connection_lost)
    as [H _].
  - reflexivity.
  - vm_compute. reflexivity.
  - reflexivity.
  - discriminate.
  - reflexivity.
  - discriminate.
  - reflexivity.
  - apply H; reflexivity.
Defined.

(** C7 fails as stated: a [ValueError] from the backend is caught by the
    first [except] clause, answered 400, and its text is in the body. *)
Lemma backend_ValueError_answered_400 :
  do_POST loads table (backend_raises bad_argument)
          (post_say (py "17") hello_body) =
    Run [Say (py "hello");
         LogRequest 400;
         Respond (Response 400 json_type
                    (Json (VDict [ok_ false;
                                  msg_ (py "robot 10.0.0.7 rejected the text")])))]
        (Ok tt)
  /\ responses (trace (do_POST loads table (backend_raises bad_argument)
                         (post_say (py "17") hello_body)))
     <> [server_error].
Proof. split; [vm_compute; reflexivity | vm_compute; discriminate]. Qed.

(** GET /status. *)
Lemma unknown_path_not_found_witness :
  handle_one_request loads table backend_ok
    (py "GET /status HTTP/1.1" ++ [13; 10]) None [] =
    Run [LogRequest 404; Respond not_found] (Ok tt).
Proof.
  destruct (unknown_path_not_found loads table backend_ok
              (py "GET /status HTTP/1.1" ++ [13; 10]) None []) as [_ T].
  assert (L : Z.of_nat (length (py "GET /status HTTP/1.1" ++ [13; 10])) <= 65536)
    by (vm_compute; discriminate).
  specialize (T L).
  assert (P : parse_request (py "GET /status HTTP/1.1" ++ [13; 10])
              = Accepted (py "GET") (py "/status") (py "HTTP/1.1"))
    by reflexivity.
  rewrite P in T. destruct T as [T _].
  apply T.
  - left. reflexivity.
  - vm_compute. discriminate.
  - vm_compute. discriminate.
Defined.

(** C8 fails as stated: the handler has no [do_PUT], so a PUT is
    answered 501 by the base class. *)
Lemma put_unknown_path_answered_501 :
  handle_one_request loads table backend_ok
    (py "PUT /status HTTP/1.1" ++ [13; 10]) None [] =
    Run [LogError 501 (py "Unsupported method ('PUT')");
         LogRequest 501;
         Respond (Response 501 (py "text/html")
                    (ErrorPage (py "Unsupported method ('PUT')")))] (Ok tt)
  /\ responses (trace (handle_one_request loads table backend_ok
                         (py "PUT /status HTTP/1.1" ++ [13; 10]) None []))
     <> [not_found].
Proof. split; [vm_compute; reflexivity | vm_compute; discriminate]. Qed.

(** A message that is not UTF-8 cannot be serialized. *)
Lemma send_json_encode_error_witness :
  _send_json 200 (VDict [ok_ true; msg_ [0xFF]]) =
    Run [LogRequest 500;
         Respond (Response 500 json_type
                    (Literal (pyq "{'ok':false,'msg':'encode error'}")))] (Ok tt).
Proof. apply send_json_encode_error. reflexivity. Defined.

(** The body [[1, 2]] is JSON, but no object. *)
Lemma wrong_shape_server_error_witness :
  exists e : exn,
    exc_class_of e = AttributeError /\
    do_POST loads table backend_ok (post_say (py "6") list_body) =
      Run [Stderr (py "[ERR ] do_POST /say: " ++ exc_repr e ++ [10]);
           LogRequest 500; Respond server_error] (Ok tt) /\
    say_calls (trace (do_POST loads table backend_ok
                        (post_say (py "6") list_body))) = [].
Proof.
  apply (wrong_shape_server_error loads table backend_ok
           (post_say (py "6") list_body) (VList [VInt 1; VInt 2])).
  - reflexivity.
  - vm_compute. reflexivity.
  - left. reflexivity.
Defined.

Ltac run_result_in H :=
  unfold mbind, result_bind, fmap, result_fmap, mret, result_ret in H;
  cbv beta iota in H.

(** * Properties beyond the claims *)

(** ** More about [strip] *)

Lemma lstrip_blanks (sp : Z -> bool) (ws s : pystr) :
  forallb sp ws = true -> lstrip sp (ws ++ s) = lstrip sp s.
Proof.
  induction ws as [|c ws IH]; [reflexivity|].
  cbn [forallb app lstrip]. intros H. apply andb_true_iff in H as [-> H].
  auto.
Qed.

Lemma lstrip_app_stop (sp : Z -> bool) (x y : pystr) (c : Z) :
  sp c = false -> lstrip sp (x ++ c :: y) = lstrip sp x ++ c :: y.
Proof.
  intros Hc. induction x as [|a x IH]; cbn [app lstrip].
  - rewrite Hc. reflexivity.
  - destruct (sp a); [exact IH | reflexivity].
Qed.

Lemma rstrip_app_stop (sp : Z -> bool) (x y : pystr) (c : Z) :
  sp c = false -> rstrip sp (x ++ c :: y) = x ++ c :: rstrip sp y.
Proof.
  intros Hc. unfold rstrip.
  rewrite rev_app_distr. cbn [rev]. rewrite <- app_assoc. cbn [app].
  rewrite lstrip_app_stop by assumption.
  rewrite rev_app_distr. cbn [rev]. rewrite rev_involutive.
  rewrite <- app_assoc. reflexivity.
Qed.

Lemma rstrip_blanks (sp : Z -> bool) (s ws : pystr) :
  forallb sp ws = true -> rstrip sp (s ++ ws) = rstrip sp s.
Proof.
  intros H. unfold rstrip. rewrite rev_app_distr, lstrip_blanks; [reflexivity|].
  apply forallb_rev_true, H.
Qed.

Lemma lstrip_all (sp : Z -> bool) (s : pystr) :
  forallb sp s = true -> lstrip sp s = [].
Proof.
  intros H. rewrite <- (app_nil_r s). rewrite lstrip_blanks by assumption.
  reflexivity.
Qed.

(** Stripping the two ends in either order gives the same. *)
Lemma lstrip_rstrip_comm (sp : Z -> bool) (s : pystr) :
  lstrip sp (rstrip sp s) = rstrip sp (lstrip sp s).
Proof.
  destruct (lstrip_suffix sp s) as [p [E F]].
  destruct (lstrip sp s) as [|c mid] eqn:L.
  - rewrite app_nil_r in E. subst p.
    unfold rstrip at 1. rewrite (lstrip_all sp (rev s)) by (apply forallb_rev_true, F).
    reflexivity.
  - pose proof (lstrip_head sp s c mid L) as Hc.
    rewrite E at 1. rewrite rstrip_app_stop by assumption.
    rewrite lstrip_app_stop by assumption.
    rewrite (lstrip_all sp p F).
    change (c :: mid) with ([] ++ c :: mid).
    rewrite rstrip_app_stop by assumption. reflexivity.
Qed.

Lemma rstrip_idem (sp : Z -> bool) (s : pystr) :
  rstrip sp (rstrip sp s) = rstrip sp s.
Proof. unfold rstrip. rewrite rev_involutive, lstrip_idem. reflexivity. Qed.

(** Blanks around a text do not change what [strip] returns. *)
Lemma strip_pad (sp : Z -> bool) (ws s ws' : pystr) :
  forallb sp ws = true -> forallb sp ws' = true ->
  strip sp (ws ++ s ++ ws') = strip sp s.
Proof.
  intros H H'. unfold strip.
  rewrite lstrip_blanks by assumption.
  rewrite <- !lstrip_rstrip_comm.
  rewrite rstrip_blanks by assumption. reflexivity.
Qed.

Lemma strip_fixed_ends (sp : Z -> bool) (s : pystr) :
  strip sp s = s -> lstrip sp s = s /\ rstrip sp s = s.
Proof.
  intros H. split.
  - rewrite <- H at 1. unfold strip. rewrite lstrip_rstrip_comm.
    rewrite lstrip_idem. exact H.
  - rewrite <- H at 1. unfold strip. rewrite rstrip_idem. exact H.
Qed.

(** [strip] leaves nothing exactly when all is blank. *)
Lemma strip_nil_iff (sp : Z -> bool) (s : pystr) :
  strip sp s = [] <-> forallb sp s = true.
Proof.
  split.
  - intros H. destruct (lstrip_suffix sp s) as [p [E F]].
    destruct (lstrip sp s) as [|c mid] eqn:L.
    + rewrite app_nil_r in E. subst p. exact F.
    + exfalso. unfold strip in H. rewrite L in H.
      change (c :: mid) with ([] ++ c :: mid) in H.
      rewrite rstrip_app_stop in H by (eapply lstrip_head; exact L).
      discriminate H.
  - intros H. unfold strip. rewrite (lstrip_all sp s H). reflexivity.
Qed.

(** ** The loader, line by line *)

Lemma load_line_entry (env : environ) (raw : pystr) :
  load_line env raw =
    match line_entry raw with
    | Some (k, v) =>
      if in_environ k env then Ok env else environ_setitem k v env
    | None => Ok env
    end.
Proof.
  unfold load_line, line_entry.
  destruct (negb (truthy (decode_line raw)) || _ || _); [reflexivity|].
  destruct (text_split1 61 (decode_line raw)) as [k v].
  destruct (truthy (text_strip k)); [|reflexivity].
  destruct (in_environ (text_strip k) env); reflexivity.
Qed.

Lemma in_environ_chars (k : text) (b : pystr) (env : environ) :
  c_string k = Ok b -> in_environ k env = bool_decide (is_Some (env !! b)).
Proof.
  intros Hc. apply c_string_chars in Hc as [-> Hs].
  destruct k as [s|u]; cbn in *; [reflexivity|].
  destruct (is_ascii u); [reflexivity | discriminate].
Qed.

Lemma in_environ_None (k : text) (env : environ) :
  env !! chars k = None -> in_environ k env = false.
Proof.
  intros H. destruct k as [s|u]; cbn in *; rewrite H.
  - apply bool_decide_eq_false_2. intros [x Hx]. discriminate.
  - rewrite bool_decide_eq_false_2 by (intros [x Hx]; discriminate).
    apply andb_false_r.
Qed.

(** A line changes nothing in an environment that already has every key
    the line could add. *)
Lemma load_line_absorbed (env env1 env2 : environ) (raw : pystr) :
  load_line env raw = Ok env1 ->
  (forall k : pystr, is_Some (env1 !! k) -> is_Some (env2 !! k)) ->
  load_line env2 raw = Ok env2.
Proof.
  rewrite !load_line_entry.
  destruct (line_entry raw) as [[k v]|]; [|reflexivity].
  intros H Hsub.
  destruct (in_environ k env) eqn:Hin.
  - injection H as <-.
    destruct k as [s|u]; cbn in *.
    + apply bool_decide_eq_true in Hin.
      rewrite bool_decide_eq_true_2 by auto. reflexivity.
    + apply andb_true_iff in Hin as [-> Hin]. apply bool_decide_eq_true in Hin.
      rewrite bool_decide_eq_true_2 by auto. reflexivity.
  - unfold environ_setitem in H.
    destruct (c_string k) as [b|] eqn:Ek; [|discriminate H].
    destruct (c_string v) as [vb|] eqn:Ev; [|discriminate H].
    injection H as <-.
    rewrite (in_environ_chars k b env2 Ek).
    rewrite bool_decide_eq_true_2; [reflexivity|].
    apply Hsub. rewrite lookup_insert_eq. eauto.
Qed.

Lemma load_lines_absorbed (lines : list pystr) :
  forall env env' env2 : environ,
  load_lines lines env = Ok env' ->
  (forall k : pystr, is_Some (env' !! k) -> is_Some (env2 !! k)) ->
  load_lines lines env2 = Ok env2.
Proof.
  induction lines as [|raw rest IH]; cbn [load_lines]; intros env env' env2;
    [reflexivity|].
  destruct (load_line env raw) as [env1|] eqn:E; run_result; [|discriminate].
  intros H Hsub.
  rewrite (load_line_absorbed env env1 env2 raw E).
  - run_result. eapply IH; eassumption.
  - intros k [x Hx]. apply Hsub.
    exists x. eapply load_lines_keeps; eassumption.
Qed.

(** X1. Loading is idempotent: loading the same settings file again over
    the environment it produced changes nothing, and start-up from that
    environment ends as start-up from the original one did. *)
Theorem load_twice (dotenv_path : pystr) (f : dotenv_file) (env env' : environ) :
  load_dotenv_strict dotenv_path f env = Ok env' ->
  load_dotenv_strict dotenv_path f env' = Ok env'
  /\ startup dotenv_path f env' = startup dotenv_path f env.
Proof.
  intros H.
  assert (H' : load_dotenv_strict dotenv_path f env' = Ok env').
  { destruct f as [|e|lines]; cbn in *.
    - discriminate.
    - destruct (is_Exception _); discriminate.
    - eapply load_lines_absorbed; [exact H | auto]. }
  split; [exact H'|]. unfold startup. rewrite H, H'. reflexivity.
Qed.

(** Lines that define no entry for [kb] leave it unset. *)
Lemma load_lines_skips (lines : list pystr) (kb : pystr) :
  forall env env' : environ,
  load_lines lines env = Ok env' ->
  env !! kb = None ->
  (forall r k v, In r lines -> line_entry r = Some (k, v) -> chars k <> kb) ->
  env' !! kb = None.
Proof.
  induction lines as [|raw rest IH]; cbn [load_lines]; intros env env'.
  - intros [= <-]. auto.
  - destruct (load_line env raw) as [env1|] eqn:E; run_result; [|discriminate].
    intros H Hk Hno. apply (IH env1 env' H).
    + rewrite load_line_entry in E.
      destruct (line_entry raw) as [[k v]|] eqn:L; [|injection E as <-; exact Hk].
      destruct (in_environ k env); [injection E as <-; exact Hk|].
      unfold environ_setitem in E.
      destruct (c_string k) as [b|] eqn:Ek; [|discriminate E].
      destruct (c_string v) as [vb|]; [|discriminate E].
      injection E as <-.
      rewrite lookup_insert_ne; [exact Hk|].
      apply c_string_chars in Ek as [-> _].
      apply (Hno raw k v); [left; reflexivity | exact L].
    + intros r k v Hr. apply Hno. right. exact Hr.
Qed.

Lemma load_lines_app (l1 l2 : list pystr) :
  forall env : environ,
  load_lines (l1 ++ l2) env = (env1 ← load_lines l1 env; load_lines l2 env1).
Proof.
  induction l1 as [|raw l1 IH]; intros env; [reflexivity|].
  cbn [app load_lines].
  destruct (load_line env raw) as [env1|]; run_result; [apply IH | reflexivity].
Qed.

(** X2. The first line that defines a key wins: when the key is not in
    the environment and no earlier line defines it, the environment after
    loading holds the value of that line, whatever later lines say. *)
Theorem first_definition_wins (before after : list pystr) (raw : pystr)
    (env env' : environ) (k v : text) :
  load_lines (before ++ raw :: after) env = Ok env' ->
  env !! chars k = None ->
  (forall r k' v', In r before -> line_entry r = Some (k', v') ->
                   chars k' <> chars k) ->
  line_entry raw = Some (k, v) ->
  env' !! chars k = Some v.
Proof.
  intros H Hk Hno L.
  rewrite load_lines_app in H.
  destruct (load_lines before env) as [env1|] eqn:E1; run_result_in H;
    [|discriminate H].
  pose proof (load_lines_skips before (chars k) env env1 E1 Hk Hno) as Hk1.
  cbn [load_lines] in H.
  destruct (load_line env1 raw) as [env2|] eqn:E2; run_result_in H;
    [|discriminate H].
  eapply load_lines_keeps; [exact H|].
  rewrite load_line_entry, L, (in_environ_None k env1 Hk1) in E2.
  unfold environ_setitem in E2.
  destruct (c_string k) as [b|] eqn:Ek; [|discriminate E2].
  destruct (c_string v) as [vb|]; [|discriminate E2].
  injection E2 as <-.
  apply c_string_chars in Ek as [-> _]. apply lookup_insert_eq.
Qed.

(** ** A [KEY=VALUE] line *)

Lemma decode_ascii (s : pystr) : is_ascii s = true -> Utf8.decode s = Some s.
Proof.
  induction s as [|c s IH]; [reflexivity|].
  cbn [is_ascii forallb]. intros H. apply andb_true_iff in H as [Hc Hs].
  cbn [Utf8.decode]. unfold Utf8.code_length.
  change (c <? 0x80) with (c <? 128). rewrite Hc.
  fold (is_ascii s) in Hs. rewrite (IH Hs). reflexivity.
Qed.

Lemma str_isspace_ascii (c : Z) :
  str_isspace c = true -> (c <? 128) = true /\ unicode_isspace c = true.
Proof.
  unfold str_isspace, unicode_isspace. intros H.
  apply orb_true_iff in H as [H|H].
  - apply andb_true_iff in H as [H1 H2].
    split; [apply Z.ltb_lt; lia|]. rewrite H1, H2. reflexivity.
  - apply Z.eqb_eq in H. subst c. split; reflexivity.
Qed.

Lemma blank_ascii (ws : pystr) : blank ws -> is_ascii ws = true.
Proof.
  unfold blank, is_ascii. rewrite !forallb_forall.
  intros H c Hc. apply str_isspace_ascii, H, Hc.
Qed.

Lemma blank_unicode (ws : pystr) : blank ws -> forallb unicode_isspace ws = true.
Proof.
  unfold blank. rewrite !forallb_forall.
  intros H c Hc. apply str_isspace_ascii, H, Hc.
Qed.

Lemma blank_no_eq (ws : pystr) : blank ws -> existsb (Z.eqb 61) ws = false.
Proof.
  unfold blank. induction ws as [|c ws IH]; [reflexivity|].
  cbn [forallb existsb]. intros H. apply andb_true_iff in H as [Hc Hs].
  rewrite (IH Hs), orb_false_r.
  destruct (Z.eqb_spec 61 c) as [<-|]; [discriminate Hc | reflexivity].
Qed.

Lemma split1_app (sep : Z) (a b : pystr) :
  existsb (Z.eqb sep) a = false -> split1 sep (a ++ sep :: b) = (a, b).
Proof.
  induction a as [|c a IH]; cbn [app split1 existsb].
  - rewrite Z.eqb_refl. reflexivity.
  - intros H. apply orb_false_iff in H as [Hc Ha].
    rewrite Z.eqb_sym, Hc, (IH Ha). reflexivity.
Qed.

Lemma existsb_app_false {A} (f : A -> bool) (a b : list A) :
  existsb f a = false -> existsb f b = false -> existsb f (a ++ b) = false.
Proof. intros Ha Hb. rewrite existsb_app, Ha, Hb. reflexivity. Qed.

Lemma is_ascii_app (a b : pystr) :
  is_ascii a = true -> is_ascii b = true -> is_ascii (a ++ b) = true.
Proof. unfold is_ascii. intros Ha Hb. rewrite forallb_app, Ha, Hb. reflexivity. Qed.

(** What the loader reads in a line [  KEY = VALUE  ]. *)
Lemma line_entry_key_value (ws1 k ws2 ws3 v ws4 : pystr) :
  blank ws1 -> blank ws2 -> blank ws3 -> blank ws4 ->
  plain k -> k <> [] -> existsb (Z.eqb 61) k = false ->
  startswith 35 (Unicode k) = false ->
  plain v ->
  line_entry (ws1 ++ k ++ ws2 ++ [61] ++ ws3 ++ v ++ ws4)
  = Some (Unicode k, Unicode v).
Proof.
  intros B1 B2 B3 B4 (Ak & _ & Sk) Nk Ek Hk (Av & _ & Sv).
  destruct (strip_fixed_ends _ _ Sk) as [Lk Rk].
  destruct k as [|c0 k']; [contradiction|].
  assert (Hc0 : unicode_isspace c0 = false) by (eapply lstrip_head; exact Lk).
  set (Y := ws3 ++ v ++ ws4).
  assert (E : strip unicode_isspace (ws1 ++ (c0 :: k') ++ ws2 ++ [61] ++ Y)
              = ((c0 :: k') ++ ws2) ++ 61 :: rstrip unicode_isspace Y).
  { unfold strip. rewrite lstrip_blanks by (apply blank_unicode, B1).
    cbn [app lstrip]. rewrite Hc0.
    change (c0 :: k' ++ ws2 ++ 61 :: Y) with ([] ++ c0 :: (k' ++ ws2 ++ 61 :: Y)).
    rewrite rstrip_app_stop by assumption. cbn [app]. f_equal.
    rewrite app_assoc. rewrite rstrip_app_stop by reflexivity.
    reflexivity. }
  unfold line_entry, decode_line. cbv zeta.
  rewrite decode_ascii.
  2:{ repeat apply is_ascii_app; auto using blank_ascii. }
  fold Y.
  set (L := ((c0 :: k') ++ ws2) ++ 61 :: rstrip unicode_isspace Y) in *.
  assert (TS : text_strip (Unicode (ws1 ++ (c0 :: k') ++ ws2 ++ [61] ++ Y))
               = Unicode L) by (cbn [text_strip]; rewrite E; reflexivity).
  rewrite !TS. clear TS.
  assert (T : truthy (Unicode L) = true) by reflexivity.
  assert (S : startswith 35 (Unicode L) = false) by exact Hk.
  assert (C : contains 61 (Unicode L) = true).
  { unfold contains, chars, L. rewrite existsb_app. cbn [existsb].
    rewrite Z.eqb_refl, orb_true_r. reflexivity. }
  rewrite T, S, C. cbn [negb orb].
  unfold L. clear T S C E L.
  unfold text_split1, chars.
  rewrite split1_app by (apply existsb_app_false; auto using blank_no_eq).
  unfold text_strip.
  assert (K : strip unicode_isspace ((c0 :: k') ++ ws2) = c0 :: k').
  { change ((c0 :: k') ++ ws2) with ([] ++ (c0 :: k') ++ ws2).
    rewrite strip_pad by (auto using blank_unicode). exact Sk. }
  assert (V : strip unicode_isspace (rstrip unicode_isspace Y) = v).
  { unfold strip. rewrite lstrip_rstrip_comm, rstrip_idem.
    change (rstrip unicode_isspace (lstrip unicode_isspace Y))
      with (strip unicode_isspace Y).
    unfold Y. rewrite strip_pad by (auto using blank_unicode). exact Sv. }
  rewrite K, V. reflexivity.
Qed.

Lemma c_string_plain (s : pystr) : plain s -> c_string (Unicode s) = Ok s.
Proof.
  intros (A & N & _). unfold c_string, py_str. rewrite A. run_result.
  rewrite N. reflexivity.
Qed.

(** X3. A line [KEY = VALUE], with blanks allowed around the key, around
    the value and at both ends, sets [KEY] to [VALUE] when the key is not
    yet in the environment and changes nothing when it is.  Only the first
    [=] separates: the value may contain [=]. *)
Theorem key_value_line (ws1 k ws2 ws3 v ws4 : pystr) (env : environ) :
  blank ws1 -> blank ws2 -> blank ws3 -> blank ws4 ->
  plain k -> k <> [] -> existsb (Z.eqb 61) k = false ->
  startswith 35 (Unicode k) = false ->
  plain v ->
  load_line env (ws1 ++ k ++ ws2 ++ [61] ++ ws3 ++ v ++ ws4)
  = Ok (match env !! k with
        | Some _ => env
        | None => <[k := Unicode v]> env
        end).
Proof.
  intros B1 B2 B3 B4 Pk Nk Ek Hk Pv.
  rewrite load_line_entry.
  rewrite (line_entry_key_value ws1 k ws2 ws3 v ws4) by assumption.
  rewrite (in_environ_chars (Unicode k) k env (c_string_plain k Pk)).
  destruct (env !! k) as [x|] eqn:L.
  - rewrite bool_decide_eq_true_2 by eauto. reflexivity.
  - rewrite bool_decide_eq_false_2 by (intros [x Hx]; discriminate).
    unfold environ_setitem.
    rewrite (c_string_plain k Pk), (c_string_plain v Pv). reflexivity.
Qed.

(** ** Start-up: when it succeeds, and how it fails *)

Lemma read_config_missing (env : environ) (cfg : config) :
  read_config env = Ok cfg -> missing env = [].
Proof.
  unfold read_config. destruct (missing env); [reflexivity | discriminate].
Qed.

(** X4. After a successful load, start-up succeeds exactly when no
    required key is missing and both port values are integer literals; the
    configuration is then made of the stripped path and addresses and of
    the two integers. *)
Theorem startup_succeeds_iff (dotenv_path : pystr) (f : dotenv_file)
    (env env' : environ) (cfg : config) :
  str_valued env ->
  load_dotenv_strict dotenv_path f env = Ok env' ->
  (startup dotenv_path f env = Ok (env', cfg) <->
   missing env' = [] /\
   exists sdk ip port bind_ip bind_port : text,
     env' !! py "NAO_SDK_PATH" = Some sdk /\
     env' !! py "NAO_IP" = Some ip /\
     env' !! py "NAO_PORT" = Some port /\
     env' !! py "BRIDGE_BIND_IP" = Some bind_ip /\
     env' !! py "BRIDGE_BIND_PORT" = Some bind_port /\
     parse_int (chars port) = Some (NAO_PORT cfg) /\
     parse_int (chars bind_port) = Some (BRIDGE_BIND_PORT cfg) /\
     NAO_SDK_PATH cfg = text_strip sdk /\
     NAO_IP cfg = chars (text_strip ip) /\
     BRIDGE_BIND_IP cfg = chars (text_strip bind_ip)).
Proof.
  intros Hamb Hload.
  pose proof (load_dotenv_strict_readable _ _ _ _ Hload
                (str_valued_readable _ Hamb)) as R.
  split.
  - intros Hs. apply startup_ok in Hs as [_ Hc].
    split; [eapply read_config_missing; exact Hc|].
    apply read_config_ok in Hc
      as (sdk & ip & port & bip & bport
          & H1 & H2 & H3 & H4 & H5 & F1 & F2 & F3 & F4 & F5).
    exists sdk, ip, port, bip, bport.
    rewrite (py_str_strip ip (R _ _ H2)) in F2.
    rewrite (py_str_strip bip (R _ _ H4)) in F4.
    rewrite (R _ _ H3) in F3. rewrite (R _ _ H5) in F5.
    run_result_in F3. run_result_in F5.
    apply py_int_Ok in F3. apply py_int_Ok in F5.
    rewrite parse_int_strip in F3, F5.
    repeat split; try assumption; congruence.
  - intros (Hm & sdk & ip & port & bip & bport
            & H1 & H2 & H3 & H4 & H5 & P1 & P2 & F1 & F2 & F3).
    unfold startup. rewrite Hload. run_result.
    unfold read_config, environ_getitem.
    rewrite Hm, H1, H2, H3, H4, H5. run_result.
    rewrite (py_str_strip ip (R _ _ H2)). run_result.
    rewrite (R _ _ H3). run_result.
    rewrite (proj2 (py_int_Ok _ _)) by (rewrite parse_int_strip; exact P1).
    run_result.
    rewrite (py_str_strip bip (R _ _ H4)). run_result.
    rewrite (R _ _ H5). run_result.
    rewrite (proj2 (py_int_Ok _ _)) by (rewrite parse_int_strip; exact P2).
    run_result.
    destruct cfg as [c1 c2 c3 c4 c5]. cbn in *. congruence.
Qed.

Lemma py_str_class (t : text) (e : exn) :
  py_str t = Raise e -> exc_class_of e = UnicodeEncodeError.
Proof.
  destruct t as [b|u]; cbn; [discriminate|].
  destruct (is_ascii u); [discriminate|]. intros [= <-]. reflexivity.
Qed.

Lemma c_string_class (t : text) (e : exn) :
  c_string t = Raise e ->
  exc_class_of e = UnicodeEncodeError \/ exc_class_of e = TypeError.
Proof.
  unfold c_string. destruct (py_str t) as [b|e0] eqn:E; run_result.
  - destruct (existsb _ b); [|discriminate]. intros [= <-]. right. reflexivity.
  - intros [= <-]. left. eapply py_str_class; exact E.
Qed.

Lemma load_line_class (env : environ) (raw : pystr) (e : exn) :
  load_line env raw = Raise e ->
  exc_class_of e = UnicodeEncodeError \/ exc_class_of e = TypeError.
Proof.
  rewrite load_line_entry.
  destruct (line_entry raw) as [[k v]|]; [|discriminate].
  destruct (in_environ k env); [discriminate|].
  unfold environ_setitem.
  destruct (c_string k) as [b|e0] eqn:Ek; run_result.
  - destruct (c_string v) as [vb|e0] eqn:Ev; run_result; [discriminate|].
    intros [= <-]. eapply c_string_class; exact Ev.
  - intros [= <-]. eapply c_string_class; exact Ek.
Qed.

Lemma load_lines_class (lines : list pystr) :
  forall (env : environ) (e : exn),
  load_lines lines env = Raise e ->
  exc_class_of e = UnicodeEncodeError \/ exc_class_of e = TypeError.
Proof.
  induction lines as [|raw rest IH]; cbn [load_lines]; intros env e;
    [discriminate|].
  destruct (load_line env raw) as [env1|e0] eqn:E; run_result.
  - apply IH.
  - intros [= <-]. eapply load_line_class; exact E.
Qed.

(** X5. With a readable settings file, start-up fails in four ways only:
    with the [EnvironmentError] of the required-key gate, with the
    [ValueError] of a port conversion, or with the [UnicodeEncodeError] or
    [TypeError] of [os.environ] refusing a key or value.  In particular
    the look-ups of lines 67-71 never raise [KeyError]. *)
Theorem startup_failure_classes (dotenv_path : pystr) (lines : list pystr)
    (env : environ) (e : exn) :
  startup dotenv_path (Readable lines) env = Raise e ->
  (exists env', load_lines lines env = Ok env' /\ missing env' <> []
                /\ exc_class_of e = EnvironmentError)
  \/ exc_class_of e = ValueError
  \/ exc_class_of e = UnicodeEncodeError
  \/ exc_class_of e = TypeError.
Proof.
  unfold startup. cbn [load_dotenv_strict].
  destruct (load_lines lines env) as [env'|e0] eqn:E; run_result.
  2:{ intros [= <-]. right. right. eapply load_lines_class. exact E. }
  destruct (read_config env') as [cfg|e0] eqn:C; run_result; [discriminate|].
  intros [= <-]. revert C. unfold read_config.
  destruct (missing env') as [|k0 ks] eqn:Hm.
  2:{ intros [= <-]. left. exists env'. rewrite Hm. repeat split. discriminate. }
  destruct (missing_nil env' (py "NAO_SDK_PATH") Hm) as [sdk [H1 _]];
    [cbn; tauto|].
  destruct (missing_nil env' (py "NAO_IP") Hm) as [ip [H2 _]];
    [cbn; tauto|].
  destruct (missing_nil env' (py "NAO_PORT") Hm) as [port [H3 _]];
    [cbn; tauto|].
  destruct (missing_nil env' (py "BRIDGE_BIND_IP") Hm) as [bip [H4 _]];
    [cbn; tauto|].
  destruct (missing_nil env' (py "BRIDGE_BIND_PORT") Hm) as [bport [H5 _]];
    [cbn; tauto|].
  unfold environ_getitem. rewrite H1, H2, H3, H4, H5. run_result.
  destruct (py_str (text_strip ip)) as [?|e1] eqn:E1; run_result.
  2:{ intros [= <-]. right. right. left. eapply py_str_class; exact E1. }
  destruct (py_str port) as [port_s|e1] eqn:E2; run_result.
  2:{ intros [= <-]. right. right. left. eapply py_str_class; exact E2. }
  destruct (py_int (strip str_isspace port_s)) as [?|e1] eqn:E3; run_result.
  2:{ intros [= <-]. right. left. eapply py_int_class; exact E3. }
  destruct (py_str (text_strip bip)) as [?|e1] eqn:E4; run_result.
  2:{ intros [= <-]. right. right. left. eapply py_str_class; exact E4. }
  destruct (py_str bport) as [bport_s|e1] eqn:E5; run_result.
  2:{ intros [= <-]. right. right. left. eapply py_str_class; exact E5. }
  destruct (py_int (strip str_isspace bport_s)) as [?|e1] eqn:E6; run_result.
  2:{ intros [= <-]. right. left. eapply py_int_class; exact E6. }
  discriminate.
Qed.

(** ** Registering the SDK directories *)

Lemma py_eq_refl (p : text) : py_eq p p = true.
Proof. destruct p; cbn; apply bool_decide_eq_true_2; reflexivity. Qed.

Lemma py_eq_sym (p q : text) : py_eq p q = py_eq q p.
Proof.
  destruct p as [x|x], q as [y|y]; cbn;
    try (f_equal; apply bool_decide_ext; split; congruence).
  all: destruct (decide (x = y)) as [->|Hne];
    [rewrite !bool_decide_eq_true_2 by reflexivity; reflexivity|].
  all: rewrite !bool_decide_eq_false_2 by congruence;
    rewrite !andb_false_r; reflexivity.
Qed.

Lemma in_path_app (p : text) (l l' : list text) :
  in_path p (l ++ l') = in_path p l || in_path p l'.
Proof. apply existsb_app. Qed.

Lemma in_path_last (p : text) (l : list text) : in_path p (l ++ [p]) = true.
Proof.
  rewrite in_path_app. cbn. rewrite py_eq_refl, orb_true_r. reflexivity.
Qed.

Lemma no_repeat_snoc (l : list text) (p : text) :
  no_repeat l = true -> in_path p l = false -> no_repeat (l ++ [p]) = true.
Proof.
  induction l as [|x l IH]; cbn [app no_repeat in_path existsb];
    [reflexivity|].
  intros H Hp. apply andb_true_iff in H as [Hx Hl].
  apply orb_false_iff in Hp as [Hpx Hpl].
  fold (in_path p l) in Hpl. fold (in_path x l) in Hx.
  fold (in_path x (l ++ [p])).
  rewrite in_path_app. cbn [in_path existsb].
  apply negb_true_iff in Hx.
  rewrite Hx, (py_eq_sym x p), Hpx, (IH Hl Hpl). reflexivity.
Qed.

Section SdkPathFacts.

Variable isdir : text -> bool.
Variable path_join : text -> text -> text.

(** What one successful turn of the loop does. *)
Lemma register_path_ok (sys_path path' : list text) (p : text) :
  register_path isdir sys_path p = Ok path' ->
  isdir p = true
  /\ path' = sys_path ++ (if in_path p sys_path then [] else [p])
  /\ in_path p path' = true
  /\ (no_repeat sys_path = true -> no_repeat path' = true).
Proof.
  unfold register_path. destruct (isdir p); cbn [negb]; [|discriminate].
  destruct (in_path p sys_path) eqn:Hin; cbn [negb]; intros [= <-].
  - rewrite app_nil_r. auto.
  - repeat split; auto using in_path_last, no_repeat_snoc.
Qed.

Lemma register_path_again (sys_path : list text) (p : text) :
  isdir p = true -> in_path p sys_path = true ->
  register_path isdir sys_path p = Ok sys_path.
Proof. unfold register_path. intros -> ->. reflexivity. Qed.

(** X6. When the SDK directories are registered, [sys.path] keeps its
    entries in front and in order, holds the SDK directory and its [lib]
    afterwards, gains no duplicate, and registering again changes
    nothing. *)
Theorem register_sdk_paths_ok (sdk : text) (sys_path path' : list text) :
  register_sdk_paths isdir path_join sdk sys_path = Ok path' ->
  (exists added, path' = sys_path ++ added)
  /\ in_path sdk path' = true
  /\ in_path (path_join sdk (Str (py "lib"))) path' = true
  /\ (no_repeat sys_path = true -> no_repeat path' = true)
  /\ register_sdk_paths isdir path_join sdk path' = Ok path'.
Proof.
  unfold register_sdk_paths.
  destruct (register_path isdir sys_path sdk) as [path1|] eqn:E1; run_result;
    [|discriminate].
  intros E2.
  apply register_path_ok in E1 as (D1 & -> & I1 & N1).
  apply register_path_ok in E2 as (D2 & -> & I2 & N2).
  assert (I1' : in_path sdk
                  ((sys_path ++ (if in_path sdk sys_path then [] else [sdk])) ++
                   (if in_path (path_join sdk (Str (py "lib")))
                         (sys_path ++ (if in_path sdk sys_path then [] else [sdk]))
                    then [] else [path_join sdk (Str (py "lib"))])) = true)
    by (rewrite in_path_app, I1; reflexivity).
  repeat split.
  - rewrite <- app_assoc. eexists. reflexivity.
  - exact I1'.
  - exact I2.
  - auto.
  - rewrite (register_path_again _ sdk D1 I1'). run_result.
    apply register_path_again; assumption.
Qed.

(** X7. Registration fails exactly when the SDK directory or its [lib]
    is not a directory, with an [EnvironmentError] that names the first of
    the two that is not. *)
Theorem register_sdk_paths_fails (sdk : text) (sys_path : list text) (e : exn) :
  register_sdk_paths isdir path_join sdk sys_path = Raise e <->
  (isdir sdk = false
   /\ e = new_exn EnvironmentError (py "Invalid SDK path: " ++ chars sdk))
  \/ (isdir sdk = true
      /\ isdir (path_join sdk (Str (py "lib"))) = false
      /\ e = new_exn EnvironmentError
               (py "Invalid SDK path: "
                ++ chars (path_join sdk (Str (py "lib"))))).
Proof.
  unfold register_sdk_paths, register_path.
  destruct (isdir sdk); cbn [negb].
  - destruct (in_path sdk sys_path); cbn [negb]; run_result;
      (destruct (isdir (path_join sdk (Str (py "lib")))); cbn [negb];
       [destruct (in_path _ _); cbn [negb]|]);
      (split; [intros [= <-] | intros [[[=] _] | (_ & H & ->)]];
       try discriminate; try reflexivity; right; auto).
  - run_result. split.
    + intros [= <-]. left. auto.
    + intros [[_ ->] | ([=] & _)]. reflexivity.
Qed.

End SdkPathFacts.

(** ** [repr] is ASCII, so the handler can always send it *)

Lemma hexdigit_ascii (n : Z) : (hexdigit n <? 128) = true.
Proof.
  unfold hexdigit.
  destruct (nth_in_or_default (Z.to_nat n) (py "0123456789abcdef") 0) as [H | ->];
    [|reflexivity].
  revert H. generalize (nth (Z.to_nat n) (py "0123456789abcdef") 0). intros c H.
  assert (F : forallb (fun c => c <? 128) (py "0123456789abcdef") = true)
    by reflexivity.
  rewrite forallb_forall in F. apply F, H.
Qed.

Lemma repr_char_ascii (quote c : Z) :
  (quote <? 128) = true -> is_ascii (repr_char quote c) = true.
Proof.
  intros Hq. unfold repr_char.
  destruct ((c =? quote) || (c =? 92)) eqn:E1.
  { apply orb_true_iff in E1 as [E|E]; apply Z.eqb_eq in E; subst c;
      cbn [is_ascii forallb]; [rewrite Hq|]; reflexivity. }
  destruct (c =? 9); [reflexivity|].
  destruct (c =? 10); [reflexivity|].
  destruct (c =? 13); [reflexivity|].
  destruct ((c <? 32) || (127 <=? c)) eqn:E2.
  { unfold is_ascii. rewrite forallb_app. cbn [forallb].
    rewrite !hexdigit_ascii. reflexivity. }
  apply orb_false_iff in E2 as [_ E2]. apply Z.leb_gt in E2.
  cbn [is_ascii forallb]. rewrite andb_true_r. apply Z.ltb_lt. lia.
Qed.

Lemma repr_chars_ascii (quote : Z) (s : pystr) :
  (quote <? 128) = true -> is_ascii (flat_map (repr_char quote) s) = true.
Proof.
  intros Hq. induction s as [|c s IH]; [reflexivity|].
  cbn [flat_map]. apply is_ascii_app; [apply repr_char_ascii, Hq | exact IH].
Qed.

Lemma py_repr_ascii (s : pystr) : is_ascii (py_repr s) = true.
Proof.
  unfold py_repr.
  set (quote := if existsb (Z.eqb 39) s && negb (existsb (Z.eqb 34) s)
                then 34 else 39).
  assert (Hq : (quote <? 128) = true) by (unfold quote; destruct (_ && _); reflexivity).
  apply is_ascii_app; [cbn; rewrite Hq; reflexivity|].
  apply is_ascii_app; [|cbn; rewrite Hq; reflexivity].
  apply repr_chars_ascii, Hq.
Qed.

Lemma dumps_ok_msg (b : bool) (msg : pystr) :
  is_ascii msg = true -> dumps_ok (VDict [ok_ b; msg_ msg]) = true.
Proof.
  intros H. cbn. rewrite (decode_ascii msg H).
  rewrite bool_decide_eq_true_2 by eauto. reflexivity.
Qed.

Lemma send_json_msg (code : Z) (b : bool) (msg : pystr) :
  is_ascii msg = true ->
  _send_json code (VDict [ok_ b; msg_ msg]) =
    Run (reply (Response code json_type (Json (VDict [ok_ b; msg_ msg]))))
        (Ok tt).
Proof.
  intros H. rewrite send_json_dumps by (apply dumps_ok_msg, H). reflexivity.
Qed.

(** ** The handler, request by request *)

Lemma send_json_shape (code : Z) (obj : value) :
  exists resp, _send_json code obj = Run (reply resp) (Ok tt)
               /\ (status resp = code \/ resp = encode_error_response).
Proof.
  unfold _send_json. destruct (dumps_ok obj); eexists; split; try reflexivity.
  - left. reflexivity.
  - right. reflexivity.
Qed.

Lemma not_Exception_not_ValueError (c : exc_class) :
  is_Exception c = false -> is_ValueError c = false.
Proof. destruct c; try discriminate; reflexivity. Qed.

(** What the two [except] clauses do with an exception. *)
Lemma do_POST_except_cases (e : exn) :
  (exists resp, do_POST_except e = Run (reply resp) (Ok tt)
                /\ (status resp = 400 \/ resp = encode_error_response))
  \/ (exists s, do_POST_except e = Run (Stderr s :: reply server_error) (Ok tt))
  \/ (do_POST_except e = Run [] (Raise e)
      /\ is_Exception (exc_class_of e) = false)
  \/ (do_POST_except e = Run [] (Raise encode_error)
      /\ is_ValueError (exc_class_of e) = true /\ exc_str e = None).
Proof.
  destruct (is_ValueError (exc_class_of e)) eqn:V.
  { rewrite (do_POST_except_ValueError e V).
    destruct (exc_str e) as [msg|]; [left; apply send_json_shape|].
    right. right. right. auto. }
  unfold do_POST_except. rewrite V.
  destruct (is_Exception (exc_class_of e)) eqn:E.
  - right. left. eexists.
    rewrite send_json_dumps by reflexivity. reflexivity.
  - right. right. left. split; reflexivity.
Qed.

Lemma normalize_trimmed (cp949 : Z -> Z -> option Z) (text : value) (u : pystr) :
  normalize cp949 text = Ok u -> strip unicode_isspace u = u.
Proof.
  unfold normalize, try_except_Exception.
  destruct text; try (intros [= <-]; apply strip_idem).
  all: match goal with
       | |- context [decode_utf8 ?v] => destruct (decode_utf8 v) as [x|e0]
       end; run_result; try (intros [= <-]; apply strip_idem).
  all: destruct (is_Exception (exc_class_of e0)); try discriminate.
  all: match goal with
       | |- context [decode_cp949_ignore ?t ?v] =>
         destruct (decode_cp949_ignore t v) as [y|e1]
       end; run_result; try discriminate; intros [= <-]; apply strip_idem.
Qed.

(** Normalization fails on what is no string, and only there. *)
Lemma normalize_raises (cp949 : Z -> Z -> option Z) (text : value) (e : exn) :
  normalize cp949 text = Raise e -> exc_class_of e = AttributeError.
Proof.
  destruct text; cbn; try discriminate; try (intros [= <-]; reflexivity).
  unfold decode_utf8, decode_cp949_ignore.
  destruct (Utf8.decode s); discriminate.
Qed.

(** A string is normalized to its decoded text, stripped. *)
Lemma normalize_string (cp949 : Z -> Z -> option Z) (text : value) :
  is_string text = true ->
  normalize cp949 text = Ok (strip unicode_isspace (decoded_text cp949 text)).
Proof.
  destruct text; try discriminate; intros _; [|reflexivity].
  cbn [decoded_text]. unfold normalize, decode_utf8, decode_cp949_ignore.
  destruct (Utf8.decode s); reflexivity.
Qed.

Lemma py_get_raises (data : value) (s : pystr) (e : exn) :
  py_get data s = Raise e -> exc_class_of e = AttributeError.
Proof.
  destruct data; cbn; try (intros [= <-]; reflexivity).
  destruct (List.find _ items); discriminate.
Qed.

Lemma encode_not_nil (u : pystr) : u <> [] -> Utf8.encode u <> [].
Proof.
  destruct u as [|ch r]; [contradiction|]. intros _.
  assert (C : forall c rest, Utf8.encode_char c ++ rest <> []).
  { intros c rest. unfold Utf8.encode_char.
    destruct (c <? 128); [discriminate|].
    destruct (c <? 2048); [discriminate|].
    destruct (c <? 65536); discriminate. }
  cbn [Utf8.encode]. destruct r as [|ch2 r'].
  - rewrite <- (app_nil_r (Utf8.encode_char ch)). apply C.
  - destruct (_ && _); apply C.
Qed.

Section HandlerMore.

Variable json_loads : pystr -> result value.
Variable cp949 : Z -> Z -> option Z.
Variable tts_say : pystr -> option exn.

Lemma read_json_body (req : request) :
  _read_json json_loads req =
    (raw ← body_bytes req; loads_or_ValueError json_loads raw).
Proof.
  unfold _read_json, body_bytes, declared_length, header_length,
    loads_or_ValueError.
  destruct (content_length req) as [h|];
    [destruct (is_empty h); [|destruct (py_int h)]|]; reflexivity.
Qed.

(** A [ValueError] that [_read_json] raises has a text. *)
Lemma read_json_raises (req : request) (e : exn) :
  _read_json json_loads req = Raise e ->
  is_ValueError (exc_class_of e) = true ->
  exists msg, exc_str e = Some msg.
Proof.
  rewrite read_json_body. unfold body_bytes, declared_length, header_length.
  assert (L : forall raw, loads_or_ValueError json_loads raw = Raise e ->
              is_ValueError (exc_class_of e) = true ->
              exists msg, exc_str e = Some msg).
  { intros raw. unfold loads_or_ValueError.
    destruct (json_loads raw) as [data|e0]; [discriminate|].
    destruct (is_Exception (exc_class_of e0)) eqn:X; intros [= <-].
    - intros _. eexists. reflexivity.
    - rewrite (not_Exception_not_ValueError _ X). discriminate. }
  destruct (content_length req) as [h|]; [|run_result; apply L].
  destruct (is_empty h); [run_result; apply L|].
  destruct (py_int h) as [n|e0] eqn:I; run_result; [apply L|].
  intros [= <-] _. apply py_int_raises in I as [_ [msg ->]].
  eexists. reflexivity.
Qed.

(** [do_POST] on /say, as a decision tree. *)
Lemma do_POST_say (req : request) :
  path req = py "/say" ->
  do_POST json_loads cp949 tts_say req =
    match _read_json json_loads req with
    | Raise e => do_POST_except e
    | Ok data =>
      match py_get data (py "text") with
      | Raise e => do_POST_except e
      | Ok VNone => Run (reply (bad_request (py "text is required"))) (Ok tt)
      | Ok text =>
        match normalize cp949 text with
        | Raise e => do_POST_except e
        | Ok [] => Run (reply (bad_request (py "text is empty"))) (Ok tt)
        | Ok text_u =>
          match tts_say (Utf8.encode text_u) with
          | None =>
            Run (Say (Utf8.encode text_u) :: reply spoken_response) (Ok tt)
          | Some e =>
            Run (Say (Utf8.encode text_u) :: trace (do_POST_except e))
                (outcome (do_POST_except e))
          end
        end
      end
    end.
Proof.
  intros Hp.
  destruct (_read_json json_loads req) as [data|e] eqn:Hr.
  2:{ unfold do_POST. rewrite Hp, bool_decide_eq_true_2 by reflexivity.
      rewrite Hr, bind_lift_Raise. apply try_except_lift_Raise. }
  destruct (py_get data (py "text")) as [text|e] eqn:Hg.
  2:{ apply (do_POST_raises_before_say _ _ _ req data e Hp Hr). left. exact Hg. }
  assert (N : text = VNone ->
              do_POST json_loads cp949 tts_say req =
                Run (reply (bad_request (py "text is required"))) (Ok tt)).
  { intros ->. unfold do_POST.
    rewrite Hp, bool_decide_eq_true_2 by reflexivity.
    rewrite Hr, bind_lift_Ok, Hg, bind_lift_Ok. reflexivity. }
  assert (S : text <> VNone ->
              do_POST json_loads cp949 tts_say req =
                match normalize cp949 text with
                | Raise e => do_POST_except e
                | Ok [] => Run (reply (bad_request (py "text is empty"))) (Ok tt)
                | Ok text_u =>
                  match tts_say (Utf8.encode text_u) with
                  | None =>
                    Run (Say (Utf8.encode text_u) :: reply spoken_response)
                        (Ok tt)
                  | Some e =>
                    Run (Say (Utf8.encode text_u) :: trace (do_POST_except e))
                        (outcome (do_POST_except e))
                  end
                end).
  { intros Hn. destruct (normalize cp949 text) as [u|e] eqn:Hu.
    2:{ apply (do_POST_raises_before_say _ _ _ req data e Hp Hr). right.
        exists text. auto. }
    destruct u as [|c u'].
    { unfold do_POST. rewrite Hp, bool_decide_eq_true_2 by reflexivity.
      rewrite Hr, bind_lift_Ok, Hg, bind_lift_Ok.
      destruct text; try contradiction; rewrite Hu, bind_lift_Ok; reflexivity. }
    rewrite (do_POST_reaches_say _ _ _ req data text (c :: u') Hp Hr Hg Hn Hu)
      by discriminate.
    rewrite (send_json_dumps 200 (VDict [ok_ true])) by reflexivity.
    unfold try_except, mbind, run_bind, say, emit. cbn [trace outcome app].
    destruct (tts_say _); reflexivity. }
  destruct text; try (apply S; discriminate). apply N. reflexivity.
Qed.

(** Every run of [do_POST] has one of the eight shapes. *)
Lemma do_POST_shape (req : request) :
  post_shape tts_say (do_POST json_loads cp949 tts_say req).
Proof.
  assert (X : forall e,
            (is_ValueError (exc_class_of e) = true ->
             exists msg, exc_str e = Some msg) ->
            post_shape tts_say (do_POST_except e)).
  { intros e P.
    destruct (do_POST_except_cases e)
      as [(r & -> & H)|[(s & ->)|[(-> & H)|(_ & V & N)]]].
    - apply shape_reply. tauto.
    - apply shape_logged.
    - apply shape_escaped, H.
    - destruct (P V) as [msg M]. congruence. }
  assert (A : forall e, exc_class_of e = AttributeError ->
                        post_shape tts_say (do_POST_except e)).
  { intros e C. apply X. rewrite C. discriminate. }
  destruct (decide (path req = py "/say")) as [Hp|Hp].
  2:{ unfold do_POST. rewrite bool_decide_eq_false_2 by assumption.
      apply (shape_reply tts_say not_found). right. left. reflexivity. }
  rewrite (do_POST_say req Hp).
  destruct (_read_json json_loads req) as [data|e] eqn:Hr;
    [|apply X, (read_json_raises req e Hr)].
  destruct (py_get data (py "text")) as [text|e] eqn:Hg;
    [|apply A, (py_get_raises _ _ _ Hg)].
  assert (S : text <> VNone ->
    post_shape tts_say
      match normalize cp949 text with
      | Raise e => do_POST_except e
      | Ok [] => Run (reply (bad_request (py "text is empty"))) (Ok tt)
      | Ok text_u =>
        match tts_say (Utf8.encode text_u) with
        | None => Run (Say (Utf8.encode text_u) :: reply spoken_response) (Ok tt)
        | Some e =>
          Run (Say (Utf8.encode text_u) :: trace (do_POST_except e))
              (outcome (do_POST_except e))
        end
      end).
  { intros _. destruct (normalize cp949 text) as [u|e] eqn:Hu;
      [|apply A, (normalize_raises _ _ _ Hu)].
    pose proof (normalize_trimmed cp949 text u Hu) as T.
    destruct u as [|c u']; [apply shape_reply; left; reflexivity|].
    destruct (tts_say (Utf8.encode (c :: u'))) as [e|] eqn:Hs.
    2:{ apply shape_spoken; [discriminate | exact T | exact Hs]. }
    destruct (do_POST_except_cases e)
      as [(r & -> & H)|[(s & ->)|[(-> & H)|(-> & V & N)]]];
      cbn [trace outcome].
    - eapply shape_say_rejected; eauto; discriminate.
    - eapply shape_say_logged; eauto; discriminate.
    - eapply shape_say_escaped; eauto; discriminate.
    - eapply shape_say_unprintable; eauto; discriminate. }
  destruct text; try (apply S; discriminate).
  apply shape_reply. left. reflexivity.
Qed.

End HandlerMore.

Section HandlerProperties.

Variable json_loads : pystr -> result value.
Variable cp949 : Z -> Z -> option Z.
Variable tts_say : pystr -> option exn.

Lemma server_error_not_400 (resp : response) :
  status resp = 400 \/ status resp = 404 \/ resp = encode_error_response ->
  resp <> server_error.
Proof. intros [H|[H|H]] ->; discriminate H. Qed.

(** What [do_POST] leaves behind: at most one backend call, and a reply
    when it returns. *)
Lemma do_POST_one_response (req : request) :
  (length (say_calls (trace (do_POST json_loads cp949 tts_say req))) <= 1)%nat
  /\ match outcome (do_POST json_loads cp949 tts_say req) with
     | Ok _ =>
       exists resp,
         responses (trace (do_POST json_loads cp949 tts_say req)) = [resp]
         /\ In (status resp) [200; 400; 404; 500]
     | Raise e =>
       responses (trace (do_POST json_loads cp949 tts_say req)) = []
       /\ (is_Exception (exc_class_of e) = false
           \/ e = encode_error
              /\ exists payload e',
                   say_calls (trace (do_POST json_loads cp949 tts_say req))
                   = [payload]
                   /\ tts_say payload = Some e'
                   /\ is_ValueError (exc_class_of e') = true
                   /\ exc_str e' = None)
     end.
Proof.
  destruct (do_POST_shape json_loads cp949 tts_say req)
    as [resp H | s | e H | u _ _ _ | u e resp _ _ _ H | u e s _ _ _
        | u e _ _ _ H | u e _ _ Hs V N];
    cbn; (split; [lia|]).
  - exists resp. split; [reflexivity|].
    destruct H as [-> | [-> | ->]]; cbn; tauto.
  - eexists. split; [reflexivity|]. cbn. tauto.
  - split; [reflexivity | left; exact H].
  - eexists. split; [reflexivity|]. cbn. tauto.
  - exists resp. split; [reflexivity|].
    destruct H as [-> | ->]; cbn; tauto.
  - eexists. split; [reflexivity|]. cbn. tauto.
  - split; [reflexivity | left; exact H].
  - split; [reflexivity|]. right. split; [reflexivity|].
    exists (Utf8.encode u), e. auto.
Qed.

(** X8. Whatever arrives on the connection, and whatever the parser and
    the backend do, the server calls the backend at most once and sends at
    most one reply.  When the handling returns, there is exactly one
    reply, with status 200, 400, 404, 414, 500, 501 or 505, unless the
    request line is empty or holds no word, which gets none.  The handling
    is left by an exception, without a reply, in two cases only: the
    exception is no [Exception] (a [KeyboardInterrupt], a [SystemExit]),
    or it is the [UnicodeEncodeError] of [str] on a [ValueError] that the
    one backend call raised. *)
Theorem one_response_per_request (raw_requestline : pystr)
    (content_length : option pystr) (rfile : pystr) :
  let r := handle_one_request json_loads cp949 tts_say
             raw_requestline content_length rfile in
  (length (say_calls (trace r)) <= 1)%nat
  /\ match outcome r with
     | Ok _ =>
       (exists resp,
          responses (trace r) = [resp]
          /\ In (status resp) [200; 400; 404; 414; 500; 501; 505])
       \/ (trace r = [] /\ parse_request raw_requestline = Blank)
     | Raise e =>
       responses (trace r) = []
       /\ (is_Exception (exc_class_of e) = false
           \/ e = encode_error
              /\ exists payload e',
                   say_calls (trace r) = [payload]
                   /\ tts_say payload = Some e'
                   /\ is_ValueError (exc_class_of e') = true
                   /\ exc_str e' = None)
     end.
Proof.
  cbv zeta. unfold handle_one_request.
  destruct (65536 <? Z.of_nat (length raw_requestline)).
  { cbn. split; [lia|]. left. eexists. split; [reflexivity|]. cbn. tauto. }
  destruct raw_requestline as [|c0 line].
  { cbn. split; [lia|]. right. split; reflexivity. }
  cbn [is_empty].
  destruct (parse_request (c0 :: line)) as [cmd pth ver|code message|] eqn:P.
  - unfold dispatch. cbn [command].
    destruct (bool_decide (cmd = py "GET")).
    { unfold do_GET. destruct (bool_decide (_ = py "/health"));
        rewrite send_json_dumps by reflexivity; cbn; (split; [lia|]); left;
        eexists; (split; [reflexivity|]); cbn; tauto. }
    destruct (bool_decide (cmd = py "POST")).
    2:{ cbn. split; [lia|]. left. eexists. split; [reflexivity|]. cbn. tauto. }
    destruct (do_POST_one_response
                (Request cmd pth ver content_length rfile)) as [H1 H2].
    split; [exact H1|].
    destruct (outcome (do_POST json_loads cp949 tts_say _)); [|exact H2].
    left. destruct H2 as (resp & -> & H). exists resp. split; [reflexivity|].
    cbn in *. tauto.
  - apply parse_request_Refused in P.
    cbn. split; [lia|]. left. eexists. split; [reflexivity|].
    cbn. destruct P as [-> | ->]; tauto.
  - cbn. split; [lia|]. right. split; reflexivity.
Qed.

(** X9. A POST is answered 200 exactly when the backend was called and
    returned. *)
Theorem ok_iff_spoken (req : request) :
  (exists resp,
     In resp (responses (trace (do_POST json_loads cp949 tts_say req)))
     /\ status resp = 200)
  <->
  (exists payload,
     say_calls (trace (do_POST json_loads cp949 tts_say req)) = [payload]
     /\ tts_say payload = None).
Proof.
  destruct (do_POST_shape json_loads cp949 tts_say req)
    as [resp H | s | e H | u _ _ Hs | u e resp _ _ Hs H | u e s _ _ Hs
        | u e _ _ Hs H | u e _ _ Hs V N];
    cbn; split.
  - intros (r & [<- | []] & St).
    destruct H as [H | [H | ->]]; [congruence | congruence | discriminate St].
  - intros (p & [=] & _).
  - intros (r & [<- | []] & St). discriminate St.
  - intros (p & [=] & _).
  - intros (r & [] & _).
  - intros (p & [=] & _).
  - intros _. exists (Utf8.encode u). auto.
  - intros _. exists spoken_response. split; [left|]; reflexivity.
  - intros (r & [<- | []] & St).
    destruct H as [H | ->]; [congruence | discriminate St].
  - intros (p & [= <-] & Hp). congruence.
  - intros (r & [<- | []] & St). discriminate St.
  - intros (p & [= <-] & Hp). congruence.
  - intros (r & [] & _).
  - intros (p & [= <-] & Hp). congruence.
  - intros (r & [] & _).
  - intros (p & [= <-] & Hp). congruence.
Qed.

(** X10. [do_POST] itself writes to the error stream exactly when it
    answers 500 with the server-error body, and then one line, before the
    reply.  All else that goes to the error stream during a POST is the
    log of the base class: one line for each reply, with its status. *)
Theorem logged_iff_server_error (req : request) :
  (stderr_writes (trace (do_POST json_loads cp949 tts_say req)) <> []
   <->
   responses (trace (do_POST json_loads cp949 tts_say req)) = [server_error])
  /\ error_stream (trace (do_POST json_loads cp949 tts_say req))
     = List.map Stderr
         (stderr_writes (trace (do_POST json_loads cp949 tts_say req)))
       ++ List.map (fun resp => LogRequest (status resp))
            (responses (trace (do_POST json_loads cp949 tts_say req)))
  /\ (length (stderr_writes (trace (do_POST json_loads cp949 tts_say req)))
      <= 1)%nat.
Proof.
  destruct (do_POST_shape json_loads cp949 tts_say req)
    as [resp H | s | e H | u _ _ Hs | u e resp _ _ Hs H | u e s _ _ Hs
        | u e _ _ Hs H | u e _ _ Hs V N];
    cbn; (split; [|split; [reflexivity | lia]]);
    split; try congruence; try discriminate; try reflexivity.
  - intros [= ->]. exfalso. eapply server_error_not_400; eauto.
  - intros [= ->]. exfalso. eapply (server_error_not_400 server_error); tauto.
Qed.

(** X11. The backend is only called for /say, and what it is given is
    never empty: it is the UTF-8 encoding of a non-empty text without
    leading or trailing whitespace. *)
Theorem payload_is_trimmed_text (req : request) (payload : pystr) :
  In payload (say_calls (trace (do_POST json_loads cp949 tts_say req))) ->
  path req = py "/say"
  /\ payload <> []
  /\ exists text_u, payload = Utf8.encode text_u /\ text_u <> []
                    /\ strip unicode_isspace text_u = text_u.
Proof.
  intros Hin. split.
  { destruct (decide (path req = py "/say")) as [Hp|Hp]; [exact Hp|].
    exfalso. revert Hin. unfold do_POST.
    rewrite bool_decide_eq_false_2 by assumption. cbn. tauto. }
  revert Hin.
  destruct (do_POST_shape json_loads cp949 tts_say req)
    as [resp H | s | e H | u N T _ | u e resp N T _ _ | u e s N T _
        | u e N T _ _ | u e N T _ _ _];
    cbn; try tauto; intros [<- | []];
    (split; [apply encode_not_nil, N | exists u; auto]).
Qed.

(** X12. A POST to /say whose JSON object has no "text" entry, or only
    null ones, is answered 400 "text is required". *)
Theorem text_required (req : request) (items : list (value * value)) :
  path req = py "/say" ->
  _read_json json_loads req = Ok (VDict items) ->
  (forall k v, In (k, v) items -> key_is (py "text") k = true -> v = VNone) ->
  do_POST json_loads cp949 tts_say req =
    Run [LogRequest 400; Respond (bad_request (py "text is required"))] (Ok tt).
Proof.
  intros Hp Hr Hnone. rewrite (do_POST_say _ _ _ req Hp), Hr.
  assert (G : py_get (VDict items) (py "text") = Ok VNone).
  { cbn [py_get].
    destruct (List.find _ items) as [[k v]|] eqn:F; [|reflexivity].
    apply find_some in F as [Hin Hk]. cbn in Hk.
    rewrite (Hnone k v Hin Hk). reflexivity. }
  rewrite G. reflexivity.
Qed.

(** X13. A POST to /say with a string under "text" is answered 400 "text
    is empty" exactly when every character of the text is whitespace (the
    empty text included).  The text of a [unicode] is the string itself;
    the text of a [str] is what lines 143-146 decode it to, so that bytes
    which CP949 decoding drops count for nothing. *)
Theorem text_empty_iff_blank (req : request) (data text : value) :
  path req = py "/say" ->
  _read_json json_loads req = Ok data ->
  py_get data (py "text") = Ok text ->
  is_string text = true ->
  (do_POST json_loads cp949 tts_say req =
     Run [LogRequest 400; Respond (bad_request (py "text is empty"))] (Ok tt)
   <-> forallb unicode_isspace (decoded_text cp949 text) = true).
Proof.
  intros Hp Hr Hg Hs. rewrite (do_POST_say _ _ _ req Hp), Hr, Hg.
  rewrite (normalize_string cp949 text Hs). rewrite <- strip_nil_iff.
  destruct (strip unicode_isspace (decoded_text cp949 text)) as [|c u'].
  - destruct text; try discriminate Hs; split; reflexivity.
  - destruct text; try discriminate Hs; (split; [|discriminate]).
    all: destruct (tts_say _) as [e|]; [|intros [=]].
    all: destruct (do_POST_except_cases e)
           as [(r & -> & H)|[(s0 & ->)|[(-> & H)|(-> & V & N)]]];
      intros [=].
Qed.

(** X14. When the parser rejects the body, the POST is answered 400 with
    the message "Invalid JSON body: " followed by the [repr] of the
    parser's exception. *)
Theorem invalid_json_bad_request (req : request) (raw : pystr) (e : exn) :
  path req = py "/say" ->
  body_bytes req = Ok raw ->
  json_loads raw = Raise e ->
  is_Exception (exc_class_of e) = true ->
  is_ascii (exc_repr e) = true ->
  do_POST json_loads cp949 tts_say req =
    Run [LogRequest 400;
         Respond (bad_request (py "Invalid JSON body: " ++ exc_repr e))] (Ok tt).
Proof.
  intros Hp Hb Hj He Ha.
  rewrite (do_POST_say _ _ _ req Hp), read_json_body, Hb. run_result.
  unfold loads_or_ValueError. rewrite Hj, He.
  rewrite do_POST_except_ValueError by reflexivity.
  cbn [exc_str new_exn].
  apply send_json_msg. apply is_ascii_app; [reflexivity | exact Ha].
Qed.

(** X15. A POST to /say whose Content-Length is not an integer literal
    is answered 400 with the message of the [ValueError] of [int]; the
    body is not read.  The message quotes the header from its first
    character that is no blank, up to 200 characters and not beyond a NUL;
    it only reports the NUL when what stands before it is a literal. *)
Theorem bad_content_length (req : request) (h : pystr) :
  path req = py "/say" ->
  content_length req = Some h ->
  h <> [] ->
  parse_int h = None ->
  exists msg : pystr,
    declared_length req = Raise (new_exn ValueError msg)
    /\ do_POST json_loads cp949 tts_say req =
         Run [LogRequest 400; Respond (bad_request msg)] (Ok tt)
    /\ msg =
         match parse_int (until_nul h) with
         | Some _ => py "null byte in argument for int()"
         | None =>
           py "invalid literal for int() with base 10: "
           ++ py_repr (firstn 200 (lstrip str_isspace (until_nul h)))
         end.
Proof.
  intros Hp Hc Hne Hbad.
  assert (I : exists msg,
            py_int h = Raise (new_exn ValueError msg)
            /\ is_ascii msg = true
            /\ msg =
               match parse_int (until_nul h) with
               | Some _ => py "null byte in argument for int()"
               | None =>
                 py "invalid literal for int() with base 10: "
                 ++ py_repr (firstn 200 (lstrip str_isspace (until_nul h)))
               end).
  { unfold py_int. destruct (parse_int (until_nul h)) as [n|] eqn:E.
    - destruct (bool_decide_reflect (until_nul h = h)) as [Hs|Hs];
        [rewrite Hs in E; congruence|].
      eexists. repeat split; reflexivity.
    - eexists. repeat split.
      apply is_ascii_app; [reflexivity | apply py_repr_ascii]. }
  destruct I as (msg & I & A & M). exists msg.
  assert (D : declared_length req = Raise (new_exn ValueError msg)).
  { unfold declared_length, header_length. rewrite Hc.
    destruct h as [|c h']; [contradiction|]. exact I. }
  split; [exact D|]. split; [|exact M].
  rewrite (do_POST_say _ _ _ req Hp), read_json_body.
  unfold body_bytes. rewrite D. run_result.
  rewrite do_POST_except_ValueError by reflexivity.
  cbn [exc_str new_exn]. apply send_json_msg, A.
Qed.

Lemma dispatch_cut (req : request) (bytes : pystr) :
  (forall n, declared_length req = Ok n ->
             firstn (Z.to_nat n) bytes = firstn (Z.to_nat n) (rfile req)) ->
  dispatch json_loads cp949 tts_say (with_rfile req bytes)
  = dispatch json_loads cp949 tts_say req.
Proof.
  intros H.
  assert (B : body_bytes (with_rfile req bytes) = body_bytes req).
  { unfold body_bytes.
    change (declared_length (with_rfile req bytes)) with (declared_length req).
    destruct (declared_length req) as [n|e] eqn:E; [|reflexivity].
    run_result. cbn [rfile with_rfile]. rewrite (H n eq_refl). reflexivity. }
  unfold dispatch, do_GET, do_POST.
  rewrite !read_json_body, B. reflexivity.
Qed.

(** X16. Bytes beyond the declared Content-Length have no influence: two
    connections that bring the same request line and the same
    Content-Length, and whose bodies agree on the declared number of
    bytes, are handled alike.  When [int] refuses the header, or the
    length is not positive, the bodies need not agree at all. *)
Theorem body_is_cut_at_declared_length (raw_requestline : pystr)
    (content_length : option pystr) (rfile bytes : pystr) :
  (forall n, header_length content_length = Ok n ->
             firstn (Z.to_nat n) bytes = firstn (Z.to_nat n) rfile) ->
  handle_one_request json_loads cp949 tts_say
    raw_requestline content_length bytes
  = handle_one_request json_loads cp949 tts_say
      raw_requestline content_length rfile.
Proof.
  intros H. unfold handle_one_request.
  destruct (65536 <? _); [reflexivity|].
  destruct (is_empty raw_requestline); [reflexivity|].
  destruct (parse_request raw_requestline) as [cmd pth ver| |];
    try reflexivity.
  apply (dispatch_cut (Request cmd pth ver content_length rfile) bytes).
  exact H.
Qed.

(** X17. Without a positive Content-Length the body is not read: the
    request is handled as if its body were [{}], and so answered 400 "text
    is required", whatever bytes were sent. *)
Theorem no_length_no_body (req : request) (n : Z) :
  path req = py "/say" ->
  declared_length req = Ok n ->
  n <= 0 ->
  json_loads (py "{}") = Ok (VDict []) ->
  do_POST json_loads cp949 tts_say req =
    Run [LogRequest 400; Respond (bad_request (py "text is required"))] (Ok tt).
Proof.
  intros Hp Hd Hn Hj.
  rewrite (do_POST_say _ _ _ req Hp), read_json_body.
  unfold body_bytes. rewrite Hd. run_result.
  rewrite (proj2 (Z.ltb_ge 0 n)) by lia. cbn [is_empty].
  change (if is_empty (py "{}") then py "{}" else py "{}") with (py "{}").
  unfold loads_or_ValueError. rewrite Hj. reflexivity.
Qed.

(** X18. A GET is answered 200 with the service name when the path is
    exactly /health and 404 otherwise; it reaches neither the parser nor
    the backend.  This is what the base class calls for every request line
    that it accepts with the method GET. *)
Theorem get_health_or_not_found (req : request) :
  command req = py "GET" ->
  dispatch json_loads cp949 tts_say req =
    Run [LogRequest (if bool_decide (path req = py "/health")
                     then 200 else 404);
         Respond (if bool_decide (path req = py "/health")
                  then health_response else not_found)] (Ok tt)
  /\ forall raw_requestline : pystr,
       Z.of_nat (length raw_requestline) <= 65536 ->
       parse_request raw_requestline
       = Accepted (command req) (path req) (request_version req) ->
       handle_one_request json_loads cp949 tts_say
         raw_requestline (content_length req) (rfile req)
       = dispatch json_loads cp949 tts_say req.
Proof.
  intros Hc. split.
  - unfold dispatch.
    rewrite Hc, bool_decide_eq_true_2 by reflexivity.
    unfold do_GET. destruct (bool_decide (path req = py "/health"));
      rewrite send_json_dumps by reflexivity; reflexivity.
  - intros line Hlen P. unfold handle_one_request.
    rewrite (proj2 (Z.ltb_ge 65536 _) Hlen).
    destruct line as [|c0 line]; [discriminate P|].
    cbn [is_empty]. rewrite P. destruct req. reflexivity.
Qed.

End HandlerProperties.

(** ** UTF-8: encoding undoes decoding *)

Lemma cont_range (b : Z) :
  0 <= b < 256 -> Utf8.is_cont b = true -> 0x80 <= b < 0xC0.
Proof.
  intros Hb Hc.
  assert (F : implb (Utf8.is_cont b) ((0x80 <=? b) && (b <? 0xC0)) = true).
  { apply (below_forallb
             (fun b => implb (Utf8.is_cont b) ((0x80 <=? b) && (b <? 0xC0)))
             256); [reflexivity | lia]. }
  rewrite Hc in F. cbn [implb] in F.
  apply andb_true_iff in F as [F1 F2].
  apply Z.leb_le in F1. apply Z.ltb_lt in F2. lia.
Qed.

Lemma code_length_inv (b : Z) :
  match Utf8.code_length b with
  | 1 => b < 0x80
  | 2 => 0xC2 <= b < 0xE0
  | 3 => 0xE0 <= b < 0xF0
  | 4 => 0xF0 <= b < 0xF5
  | _ => True
  end.
Proof.
  unfold Utf8.code_length.
  repeat match goal with
         | |- context [?x <? ?y] => destruct (Z.ltb_spec x y)
         end; try exact I; lia.
Qed.

Ltac to_arith :=
  rewrite ?Z.shiftr_div_pow2, ?Z.shiftl_mul_pow2 by lia;
  change 0x3F with (Z.ones 6);
  rewrite ?Z.land_ones by lia;
  change (2 ^ 6) with 64; change (2 ^ 12) with 4096;
  change (2 ^ 18) with 262144.

Lemma encode_char_2 (h y : Z) :
  2 <= h < 32 -> 0 <= y < 64 ->
  Utf8.encode_char (Z.shiftl h 6 + y) = [0xC0 + h; 0x80 + y].
Proof.
  intros Hh Hy. to_arith. unfold Utf8.encode_char.
  destruct (Z.ltb_spec (h * 64 + y) 0x80); [lia|].
  destruct (Z.ltb_spec (h * 64 + y) 0x800); [|lia].
  to_arith.
  assert ((h * 64 + y) / 64 = h /\ (h * 64 + y) mod 64 = y) as [-> ->]
    by (split; Z.div_mod_to_equations; lia).
  rewrite lor_lead2, lor_cont by lia. reflexivity.
Qed.

Lemma encode_char_3 (h y1 y2 : Z) :
  0 <= h < 16 -> 0 <= y1 < 64 -> 0 <= y2 < 64 -> (h = 0 -> 32 <= y1) ->
  Utf8.encode_char (Z.shiftl h 12 + Z.shiftl y1 6 + y2)
  = [0xE0 + h; 0x80 + y1; 0x80 + y2].
Proof.
  intros Hh H1 H2 Hmin. to_arith. unfold Utf8.encode_char.
  destruct (Z.ltb_spec (h * 4096 + y1 * 64 + y2) 0x80); [lia|].
  destruct (Z.ltb_spec (h * 4096 + y1 * 64 + y2) 0x800); [lia|].
  destruct (Z.ltb_spec (h * 4096 + y1 * 64 + y2) 0x10000); [|lia].
  to_arith.
  assert ((h * 4096 + y1 * 64 + y2) / 4096 = h
          /\ (h * 4096 + y1 * 64 + y2) / 64 mod 64 = y1
          /\ (h * 4096 + y1 * 64 + y2) mod 64 = y2) as (-> & -> & ->)
    by (repeat split; Z.div_mod_to_equations; lia).
  rewrite lor_lead3, !lor_cont by lia. reflexivity.
Qed.

Lemma encode_char_4 (h y1 y2 y3 : Z) :
  0 <= h < 5 -> 0 <= y1 < 64 -> 0 <= y2 < 64 -> 0 <= y3 < 64 ->
  (h = 0 -> 16 <= y1) ->
  Utf8.encode_char (Z.shiftl h 18 + Z.shiftl y1 12 + Z.shiftl y2 6 + y3)
  = [0xF0 + h; 0x80 + y1; 0x80 + y2; 0x80 + y3].
Proof.
  intros Hh H1 H2 H3 Hmin. to_arith. unfold Utf8.encode_char.
  destruct (Z.ltb_spec (h * 262144 + y1 * 4096 + y2 * 64 + y3) 0x80); [lia|].
  destruct (Z.ltb_spec (h * 262144 + y1 * 4096 + y2 * 64 + y3) 0x800); [lia|].
  destruct (Z.ltb_spec (h * 262144 + y1 * 4096 + y2 * 64 + y3) 0x10000); [lia|].
  to_arith.
  assert ((h * 262144 + y1 * 4096 + y2 * 64 + y3) / 262144 = h
          /\ (h * 262144 + y1 * 4096 + y2 * 64 + y3) / 4096 mod 64 = y1
          /\ (h * 262144 + y1 * 4096 + y2 * 64 + y3) / 64 mod 64 = y2
          /\ (h * 262144 + y1 * 4096 + y2 * 64 + y3) mod 64 = y3)
    as (-> & -> & -> & ->)
    by (repeat split; Z.div_mod_to_equations; lia).
  rewrite lor_lead4, !lor_cont by lia. reflexivity.
Qed.

Lemma code_length_cases (b : Z) :
  (b < 0x80 /\ Utf8.code_length b = 1)
  \/ (0xC2 <= b < 0xE0 /\ Utf8.code_length b = 2)
  \/ (0xE0 <= b < 0xF0 /\ Utf8.code_length b = 3)
  \/ (0xF0 <= b < 0xF5 /\ Utf8.code_length b = 4)
  \/ Utf8.code_length b = 0.
Proof.
  unfold Utf8.code_length.
  repeat match goal with
         | |- context [?x <? ?y] => destruct (Z.ltb_spec x y)
         end; try (right; right; right; right; reflexivity).
  - left. split; [lia | reflexivity].
  - right. left. split; [lia | reflexivity].
  - right. right. left. split; [lia | reflexivity].
  - right. right. right. left. split; [lia | reflexivity].
Qed.

Lemma fmap_cons_Some (c : Z) (o : option pystr) (u : pystr) :
  cons c <$> o = Some u -> exists u', o = Some u' /\ u = c :: u'.
Proof. destruct o as [u'|]; [|discriminate]. intros [= <-]. eauto. Qed.

(** Re-encoding what was decoded gives the bytes back, character by
    character. *)
Lemma decode_then_encode_chars (n : nat) :
  forall s u : pystr,
  (length s <= n)%nat -> Forall byte_ok s -> Utf8.decode s = Some u ->
  flat_map Utf8.encode_char u = s.
Proof.
  induction n as [|n IH]; intros s u Hn Hs Hd.
  { destruct s; [|cbn in Hn; lia]. injection Hd as <-. reflexivity. }
  destruct s as [|b0 r0]; [injection Hd as <-; reflexivity|].
  apply Forall_cons in Hs as [Hb0 Hs]. cbn [length] in Hn.
  cbn [Utf8.decode] in Hd.
  destruct (code_length_cases b0) as [[R E]|[[R E]|[[R E]|[[R E]|E]]]];
    rewrite E in Hd; [| | | |discriminate Hd].
  - (* one byte *)
    apply fmap_cons_Some in Hd as (u' & Hd & ->).
    cbn [flat_map]. rewrite (IH r0 u') by (auto; lia).
    unfold Utf8.encode_char. rewrite (proj2 (Z.ltb_lt b0 0x80)) by lia.
    reflexivity.
  - (* two bytes *)
    destruct r0 as [|b1 r1]; [discriminate Hd|].
    apply Forall_cons in Hs as [Hb1 Hs]. cbn [length] in Hn.
    destruct (Utf8.is_cont b1) eqn:C1; [|discriminate Hd].
    apply cont_range in C1; [|exact Hb1].
    apply fmap_cons_Some in Hd as (u' & Hd & ->).
    cbn [flat_map]. rewrite (IH r1 u') by (auto; lia).
    replace b0 with (0xC0 + (b0 - 0xC0)) at 1 by lia.
    replace b1 with (0x80 + (b1 - 0x80)) at 1 by lia.
    rewrite land_lead2, land_cont by lia.
    rewrite encode_char_2 by lia.
    cbn [app]. repeat (f_equal; try lia).
  - (* three bytes *)
    destruct r0 as [|b1 [|b2 r2]]; try discriminate Hd.
    apply Forall_cons in Hs as [Hb1 Hs]. apply Forall_cons in Hs as [Hb2 Hs].
    cbn [length] in Hn.
    destruct (Utf8.is_cont b1) eqn:C1; [|discriminate Hd].
    destruct (Utf8.is_cont b2) eqn:C2; [|discriminate Hd].
    apply cont_range in C1; [|exact Hb1]. apply cont_range in C2; [|exact Hb2].
    cbn [andb] in Hd.
    destruct (negb ((b0 =? 0xE0) && (b1 <? 0xA0))) eqn:G; [|discriminate Hd].
    apply negb_true_iff, andb_false_iff in G.
    assert (Hmin : b0 - 0xE0 = 0 -> 32 <= b1 - 0x80).
    { intros Z0. destruct G as [G|G].
      - apply Z.eqb_neq in G. lia.
      - apply Z.ltb_ge in G. lia. }
    apply fmap_cons_Some in Hd as (u' & Hd & ->).
    cbn [flat_map]. rewrite (IH r2 u') by (auto; lia).
    replace b0 with (0xE0 + (b0 - 0xE0)) at 1 by lia.
    replace b1 with (0x80 + (b1 - 0x80)) at 1 by lia.
    replace b2 with (0x80 + (b2 - 0x80)) at 1 by lia.
    rewrite land_lead3, !land_cont by lia.
    rewrite encode_char_3 by (try lia; exact Hmin).
    cbn [app]. repeat (f_equal; try lia).
  - (* four bytes *)
    destruct r0 as [|b1 [|b2 [|b3 r3]]]; try discriminate Hd.
    apply Forall_cons in Hs as [Hb1 Hs]. apply Forall_cons in Hs as [Hb2 Hs].
    apply Forall_cons in Hs as [Hb3 Hs].
    cbn [length] in Hn.
    destruct (Utf8.is_cont b1) eqn:C1; [|discriminate Hd].
    destruct (Utf8.is_cont b2) eqn:C2; [|discriminate Hd].
    destruct (Utf8.is_cont b3) eqn:C3; [|discriminate Hd].
    apply cont_range in C1; [|exact Hb1]. apply cont_range in C2; [|exact Hb2].
    apply cont_range in C3; [|exact Hb3].
    cbn [andb] in Hd.
    destruct (negb ((b0 =? 0xF0) && (b1 <? 0x90))) eqn:G1; [|discriminate Hd].
    destruct (negb ((b0 =? 0xF4) && (0x8F <? b1))) eqn:G2; [|discriminate Hd].
    apply negb_true_iff, andb_false_iff in G1.
    assert (Hmin : b0 - 0xF0 = 0 -> 16 <= b1 - 0x80).
    { intros Z0. destruct G1 as [G|G].
      - apply Z.eqb_neq in G. lia.
      - apply Z.ltb_ge in G. lia. }
    apply fmap_cons_Some in Hd as (u' & Hd & ->).
    cbn [flat_map]. rewrite (IH r3 u') by (auto; lia).
    replace b0 with (0xF0 + (b0 - 0xF0)) at 1 by lia.
    replace b1 with (0x80 + (b1 - 0x80)) at 1 by lia.
    replace b2 with (0x80 + (b2 - 0x80)) at 1 by lia.
    replace b3 with (0x80 + (b3 - 0x80)) at 1 by lia.
    rewrite land_lead4, !land_cont by lia.
    rewrite encode_char_4 by (try lia; exact Hmin).
    cbn [app]. repeat (f_equal; try lia).
Qed.

Lemma decode_then_encode (s u : pystr) :
  Forall byte_ok s -> Utf8.decode s = Some u -> Forall Utf8.scalar u ->
  Utf8.encode u = s.
Proof.
  intros Hs Hd Hu. rewrite (encode_scalars u Hu).
  apply (decode_then_encode_chars (length s)); auto.
Qed.

Section Utf8PassThrough.

Variable json_loads : pystr -> result value.
Variable cp949 : Z -> Z -> option Z.
Variable tts_say : pystr -> option exn.

(** X19. A byte text that is well-formed UTF-8, without whitespace at
    its ends, reaches the backend byte for byte: decoding and re-encoding
    change nothing. *)
Theorem utf8_bytes_pass_through (req : request) (data : value) (s u : pystr) :
  path req = py "/say" ->
  _read_json json_loads req = Ok data ->
  py_get data (py "text") = Ok (VStr s) ->
  Forall byte_ok s ->
  Utf8.decode s = Some u ->
  Forall Utf8.scalar u ->
  u <> [] ->
  strip unicode_isspace u = u ->
  say_calls (trace (do_POST json_loads cp949 tts_say req)) = [s].
Proof.
  intros Hp Hr Hg Hs Hd Hu Hne Ht.
  rewrite (do_POST_say _ _ _ req Hp), Hr, Hg.
  rewrite normalize_str, Hd, Ht.
  rewrite (decode_then_encode s u Hs Hd Hu).
  destruct u as [|c u']; [contradiction|].
  destruct (tts_say s) as [e|]; [|reflexivity].
  cbn [trace]. rewrite say_calls_Say, say_calls_do_POST_except. reflexivity.
Qed.

End Utf8PassThrough.

(** ** The further properties at sample inputs *)

Import MoreSamples.

Lemma load_twice_witness :
  load_dotenv_strict dotenv_path (Readable full_lines) loaded = Ok loaded
  /\ startup dotenv_path (Readable full_lines) loaded
     = startup dotenv_path (Readable full_lines) ambient.
Proof.
  apply (load_twice dotenv_path (Readable full_lines) ambient loaded).
  vm_compute. reflexivity.
Defined.

Lemma first_definition_wins_witness :
  first_ip !! py "NAO_IP" = Some (Unicode (py "10.0.0.7")).
Proof.
  apply (first_definition_wins [comment_line] [second_ip_line] first_ip_line
           ∅ first_ip (Unicode (py "NAO_IP")) (Unicode (py "10.0.0.7"))).
  - vm_compute. reflexivity.
  - reflexivity.
  - intros r k' v' [<- | []] H. vm_compute in H. discriminate H.
  - vm_compute. reflexivity.
Defined.

Lemma key_value_line_witness :
  load_line ∅ (py "  " ++ py "NAO_IP" ++ py " " ++ [61] ++ py " "
               ++ py "10.0.0.7" ++ [32; 10])
  = Ok (match (∅ : environ) !! py "NAO_IP" with
        | Some _ => ∅
        | None => <[py "NAO_IP" := Unicode (py "10.0.0.7")]> ∅
        end).
Proof.
  apply key_value_line; try reflexivity.
  - repeat split; reflexivity.
  - discriminate.
  - repeat split; reflexivity.
Defined.

Lemma ambient_str_valued : str_valued ambient.
Proof.
  intros k v H. unfold ambient in H.
  apply lookup_singleton_Some in H as [_ <-].
  eexists. reflexivity.
Qed.

Lemma startup_succeeds_iff_witness :
  startup dotenv_path (Readable full_lines) ambient = Ok (loaded, loaded_config).
Proof.
  apply (startup_succeeds_iff dotenv_path (Readable full_lines) ambient loaded
           loaded_config ambient_str_valued).
  - vm_compute. reflexivity.
  - split; [vm_compute; reflexivity|].
    exists (Unicode (py "/opt/pynaoqi")), (Str (py "192.168.0.9")),
      (Unicode (py "9559")), (Unicode (py "0.0.0.0")), (Unicode (py "8088")).
    repeat split; vm_compute; reflexivity.
Defined.

Lemma startup_failure_classes_witness :
  (exists env', load_lines bad_port_lines ∅ = Ok env' /\ missing env' <> []
                /\ exc_class_of
                     (new_exn ValueError
                        (py "invalid literal for int() with base 10: 'abc'"))
                   = EnvironmentError)
  \/ exc_class_of
       (new_exn ValueError (py "invalid literal for int() with base 10: 'abc'"))
     = ValueError
  \/ exc_class_of
       (new_exn ValueError (py "invalid literal for int() with base 10: 'abc'"))
     = UnicodeEncodeError
  \/ exc_class_of
       (new_exn ValueError (py "invalid literal for int() with base 10: 'abc'"))
     = TypeError.
Proof.
  apply (startup_failure_classes dotenv_path bad_port_lines ∅).
  vm_compute. reflexivity.
Defined.

Lemma register_sdk_paths_ok_witness :
  (exists added,
     sys_path ++ [sdk_dir; Unicode (py "/opt/pynaoqi/lib")] = sys_path ++ added)
  /\ in_path sdk_dir (sys_path ++ [sdk_dir; Unicode (py "/opt/pynaoqi/lib")])
     = true
  /\ in_path (path_join sdk_dir (Str (py "lib")))
       (sys_path ++ [sdk_dir; Unicode (py "/opt/pynaoqi/lib")]) = true
  /\ (no_repeat sys_path = true ->
      no_repeat (sys_path ++ [sdk_dir; Unicode (py "/opt/pynaoqi/lib")]) = true)
  /\ register_sdk_paths isdir path_join sdk_dir
       (sys_path ++ [sdk_dir; Unicode (py "/opt/pynaoqi/lib")])
     = Ok (sys_path ++ [sdk_dir; Unicode (py "/opt/pynaoqi/lib")]).
Proof.
  apply (register_sdk_paths_ok isdir path_join sdk_dir sys_path).
  vm_compute. reflexivity.
Defined.

Lemma payload_is_trimmed_text_witness :
  path (post_say (py "17") hello_body) = py "/say"
  /\ py "hello" <> []
  /\ exists text_u, py "hello" = Utf8.encode text_u /\ text_u <> []
                    /\ strip unicode_isspace text_u = text_u.
Proof.
  apply (payload_is_trimmed_text Samples.loads table backend_ok
           (post_say (py "17") hello_body) (py "hello")).
  vm_compute. left. reflexivity.
Defined.

Lemma text_required_witness :
  do_POST Samples.loads table backend_ok (post_say (py "2") (py "{}")) =
    Run [LogRequest 400; Respond (bad_request (py "text is required"))] (Ok tt).
Proof.
  apply (text_required Samples.loads table backend_ok
           (post_say (py "2") (py "{}")) []).
  - reflexivity.
  - vm_compute. reflexivity.
  - intros k v [].
Defined.

(** The bytes FF 41: CP949 decoding drops both, and nothing is left. *)
Lemma text_empty_iff_blank_witness :
  do_POST loads_dropped table backend_ok (post_say (py "14") dropped_body) =
    Run [LogRequest 400; Respond (bad_request (py "text is empty"))] (Ok tt).
Proof.
  apply (text_empty_iff_blank loads_dropped table backend_ok
           (post_say (py "14") dropped_body)
           (VDict [(VUnicode (py "text"), VStr dropped_bytes)])
           (VStr dropped_bytes)).
  - reflexivity.
  - vm_compute. reflexivity.
  - reflexivity.
  - reflexivity.
  - reflexivity.
Defined.

Lemma invalid_json_bad_request_witness :
  do_POST loads table backend_ok (post_say (py "8") junk_body) =
    Run [LogRequest 400;
         Respond (bad_request (py "Invalid JSON body: " ++ exc_repr no_json))]
        (Ok tt).
Proof.
  apply (invalid_json_bad_request loads table backend_ok
           (post_say (py "8") junk_body) junk_body no_json).
  - reflexivity.
  - vm_compute. reflexivity.
  - vm_compute. reflexivity.
  - reflexivity.
  - vm_compute. reflexivity.
Defined.

(** A Content-Length with a NUL after a digit. *)
Lemma bad_content_length_witness :
  exists msg : pystr,
    declared_length (post_say [49; 0; 55] hello_body)
    = Raise (new_exn ValueError msg)
    /\ do_POST loads table backend_ok (post_say [49; 0; 55] hello_body) =
         Run [LogRequest 400; Respond (bad_request msg)] (Ok tt)
    /\ msg =
         match parse_int (until_nul [49; 0; 55]) with
         | Some _ => py "null byte in argument for int()"
         | None =>
           py "invalid literal for int() with base 10: "
           ++ py_repr (firstn 200 (lstrip str_isspace (until_nul [49; 0; 55])))
         end.
Proof.
  apply (bad_content_length loads table backend_ok
           (post_say [49; 0; 55] hello_body) [49; 0; 55]).
  - reflexivity.
  - reflexivity.
  - discriminate.
  - reflexivity.
Defined.

(** A Content-Length with a sign and a blank. *)
Lemma body_is_cut_at_declared_length_witness :
  handle_one_request loads table backend_ok
    (py "POST /say HTTP/1.1" ++ [13; 10]) (Some (py "+ 17"))
    (hello_body ++ py "trailing")
  = handle_one_request loads table backend_ok
      (py "POST /say HTTP/1.1" ++ [13; 10]) (Some (py "+ 17")) hello_body.
Proof.
  apply body_is_cut_at_declared_length.
  intros n H. vm_compute in H. injection H as <-. reflexivity.
Defined.

Lemma no_length_no_body_witness :
  do_POST Samples.loads table backend_ok
    (Request (py "POST") (py "/say") (py "HTTP/1.1") None hello_body) =
    Run [LogRequest 400; Respond (bad_request (py "text is required"))] (Ok tt).
Proof.
  apply (no_length_no_body Samples.loads table backend_ok
           (Request (py "POST") (py "/say") (py "HTTP/1.1") None hello_body) 0).
  - reflexivity.
  - reflexivity.
  - lia.
  - vm_compute. reflexivity.
Defined.

Lemma get_health_or_not_found_witness :
  handle_one_request loads table backend_ok
    (py "GET /health HTTP/1.1" ++ [13; 10]) None []
  = Run [LogRequest 200; Respond health_response] (Ok tt).
Proof.
  destruct (get_health_or_not_found loads table backend_ok
              (Request (py "GET") (py "/health") (py "HTTP/1.1") None []))
    as [D H].
  - reflexivity.
  - specialize (H (py "GET /health HTTP/1.1" ++ [13; 10])).
    cbn [command path request_version content_length rfile] in H.
    rewrite H.
    + exact D.
    + vm_compute. discriminate.
    + reflexivity.
Defined.

Lemma utf8_bytes_pass_through_witness :
  say_calls (trace (do_POST loads_raw table backend_ok
                      (post_say (py "15") hangul_body)))
  = [hangul_bytes].
Proof.
  apply (utf8_bytes_pass_through loads_raw table backend_ok
           (post_say (py "15") hangul_body)
           (VDict [(VUnicode (py "text"), VStr hangul_bytes)])
           hangul_bytes [0xD55C]).
  - reflexivity.
  - vm_compute. reflexivity.
  - reflexivity.
  - repeat (constructor; [unfold byte_ok; lia|]). constructor.
  - reflexivity.
  - repeat (constructor; [unfold Utf8.scalar; lia|]). constructor.
  - discriminate.
  - reflexivity.
Defined.
